(** * MCQ Genie: the quiz generation, session and scoring pipeline

    A shallow embedding of the backend's test controller
    ([app/controllers/test_controller.py]), of the services it drives
    ([app/services/llm_service.py], [app/services/db_service.py]), of the
    pydantic models ([app/models/schemas.py]) and of the scoring helper
    ([app/utils/helpers.py]), of the chat controller
    ([app/controllers/chat_controller.py]) and of the routes
    ([app/views/test_routes.py], [app/views/chat_routes.py]), followed by
    the properties of the pipeline.

    Conventions of the embedding:
    - a Python [str] is a [string]; each character of the text is one
      [ascii], so the texts covered are those over the first 256 code
      points;
    - a Python [int] is a [Z];
    - a Python [float] is an IEEE 754 binary64 value, a [spec_float] of the
      Standard Library used at precision 53 and maximal exponent 1024;
    - a [datetime] is a point on an integer time line;
    - [dict]s built by the code are [gmap]s; the Mongo collection is the
      list of its documents in insertion order;
    - a coroutine is a computation in the monad [M] below: it reads the
      environment (clock, id generator, completion endpoint, JSON decoder,
      settings), threads the world (collection, standard output, counters
      of the readings taken) and ends in a value or in a raised exception. *)

From Stdlib Require Import ZArith Ascii String List Bool Lia.
From Stdlib Require Import SpecFloat.
From stdpp Require Import base decidable option list gmap strings pretty.

Local Open Scope string_scope.
Local Open Scope list_scope.
Local Open Scope Z_scope.

(** ** Python floats *)

Module Float.

Definition prec : Z := 53.
Definition emax : Z := 1024.

(** The binary64 nearest to the rational [n / d] (ties to even), for
    [0 <= n] and [0 < d]; [s] is the sign of the result. This is the
    rounding performed by [int / int] (CPython's true division of
    integers is correctly rounded) and by the conversion of a decimal
    numeral to a float. *)
Definition of_ratio (s : bool) (n d : Z) : spec_float :=
  let '(q, e, l) := SFdiv_core_binary prec emax n 0 d 0 in
  binary_round_aux prec emax s q e l.

(** [float(n)] for an integer. *)
Definition of_int (n : Z) : spec_float :=
  binary_normalize prec emax n 0 false.

(** [a / b] on two integers, [b <> 0]. *)
Definition int_truediv (a b : Z) : spec_float :=
  of_ratio (xorb (Z.ltb a 0) (Z.ltb b 0)) (Z.abs a) (Z.abs b).

(** [x * n] for a float [x] and an integer [n]: the integer is converted
    first. *)
Definition mul_int (x : spec_float) (n : Z) : spec_float :=
  SFmul prec emax x (of_int n).

(** The integer nearest to [n / d], ties to the even one ([0 <= n],
    [0 < d]). *)
Definition div_half_even (n d : Z) : Z :=
  let q := n / d in
  let r := n mod d in
  match (2 * r ?= d) with
  | Lt => q
  | Gt => q + 1
  | Eq => if Z.even q then q else q + 1
  end.

(** [round(x, 2)]: the exact value of [x] is brought to two decimals,
    ties to even, and the resulting decimal numeral is read back as the
    nearest float. Infinities and NaN round to themselves. *)
Definition round2 (x : spec_float) : spec_float :=
  match x with
  | S754_finite s m e =>
      let h :=
        match e with
        | Zneg p => div_half_even (Zpos m * 100) (2 ^ Zpos p)
        | _ => Zpos m * 2 ^ e * 100
        end in
      of_ratio s h 100
  | _ => x
  end.

(** The float written [h / 100] as a decimal numeral with two decimals,
    such as [66.67] for [h = 6667]. *)
Definition of_hundredths (h : Z) : spec_float :=
  of_ratio (Z.ltb h 0) (Z.abs h) 100.

Definition zero : spec_float := S754_zero false.

#[global] Instance spec_float_eq_dec : EqDecision spec_float.
Proof. solve_decision. Defined.

End Float.

(** ** [app/utils/helpers.py] *)

(** [calculate_score_percentage(correct, total)]. *)
Definition calculate_score_percentage (correct total : Z) : spec_float :=
  if Z.eqb total 0 then Float.zero
  else Float.round2 (Float.mul_int (Float.int_truediv correct total) 100).

(** [generate_id(prefix)]; [uuid] is the text of the fresh [uuid.uuid4()]. *)
Definition generate_id (prefix uuid : string) : string :=
  if bool_decide (prefix = "") then uuid else prefix +:+ uuid.

(** ** Values decoded from JSON text *)

(** What [json.loads] returns: [None], [bool], [int], [float] (kept as the
    numeral that was read), [str], [list], and [dict] as the list of its
    items in insertion order, each key once. *)
#[local] Unset Elimination Schemes.
Inductive json :=
| JNull
| JBool (b : bool)
| JInt (n : Z)
| JFloat (numeral : string)
| JStr (s : string)
| JList (l : list json)
| JDict (items : list (string * json)).
#[local] Set Elimination Schemes.

(** [d.get(key)] on the items of a dict. *)
Fixpoint dict_get (key : string) (items : list (string * json)) : option json :=
  match items with
  | [] => None
  | (k, v) :: rest => if bool_decide (k = key) then Some v else dict_get key rest
  end.

(** [d[key] = v]: an existing key keeps its place and takes the new value,
    a new key goes last. *)
Fixpoint dict_set (key : string) (v : json) (items : list (string * json))
    : list (string * json) :=
  match items with
  | [] => [(key, v)]
  | (k, v') :: rest =>
      if bool_decide (k = key) then (k, v) :: rest
      else (k, v') :: dict_set key v rest
  end.

(** What pydantic accepts for a field declared [str] and for a field
    declared [Optional[str]]. *)
Definition as_str (v : json) : option string :=
  match v with JStr s => Some s | _ => None end.

Definition as_optional_str (v : json) : option (option string) :=
  match v with JStr s => Some (Some s) | JNull => Some None | _ => None end.

(** ** [app/models/schemas.py] *)

Definition datetime : Type := Z.

Inductive DifficultyLevel := EASY | MEDIUM | HARD.
Inductive TestStatus := IN_PROGRESS | COMPLETED | EXPIRED.

#[global] Instance DifficultyLevel_eq_dec : EqDecision DifficultyLevel.
Proof. solve_decision. Defined.
#[global] Instance TestStatus_eq_dec : EqDecision TestStatus.
Proof. solve_decision. Defined.

(** The [value] of each enumeration member. *)
Definition DifficultyLevel_value (d : DifficultyLevel) : string :=
  match d with EASY => "easy" | MEDIUM => "medium" | HARD => "hard" end.
Definition TestStatus_value (s : TestStatus) : string :=
  match s with
  | IN_PROGRESS => "in_progress" | COMPLETED => "completed" | EXPIRED => "expired"
  end.

(** What a coroutine can raise. The text of a pydantic [ValidationError]
    and of a [JSONDecodeError], [KeyError] or [TypeError] is not modelled:
    [Exception_of prefix e] stands for [Exception(f"{prefix}{str(e)}")]. *)
Inductive exn :=
| ValueError (msg : string)
| ValidationError (model : string)
| KeyError (key : string)
| TypeError
| JSONDecodeError
| AttributeError
| UpstreamError (msg : string)
| Exception (msg : string)
| Exception_of (prefix : string) (e : exn).

#[global] Instance exn_eq_dec : EqDecision exn.
Proof. solve_decision. Defined.

(** The outcome of a call: a value, or a raised exception. *)
Inductive result (A : Type) :=
| Ok (a : A)
| Raise (e : exn).
Arguments Ok {A} a.
Arguments Raise {A} e.

(** The option ids accepted by both validators: [v in ['A', 'B', 'C', 'D']]. *)
Definition option_ids : list string := ["A"; "B"; "C"; "D"].

Module MCQOption.
Record t := mk { option_id : string; text : string }.
#[global] Instance eq_dec : EqDecision t.
Proof. solve_decision. Defined.

(** [MCQOption(option_id=..., text=...)], the text being any value. *)
Definition new (option_id : string) (text : json) : result t :=
  match as_str text with
  | Some s => Ok (mk option_id s)
  | None => Raise (ValidationError "MCQOption")
  end.
End MCQOption.

Module MCQuestion.
Record t := mk {
  question_id : string;
  question_text : string;
  options : list MCQOption.t;
  correct_answer : string;
  explanation : option string;
  difficulty : DifficultyLevel
}.
#[global] Instance eq_dec : EqDecision t.
Proof. solve_decision. Defined.

(** [validate_correct_answer]. *)
Definition validate_correct_answer (v : string) : result string :=
  if bool_decide (v ∈ option_ids) then Ok v
  else Raise (ValueError "correct_answer must be A, B, C, or D").

(** The constraints of the model on a record: [min_items=4, max_items=4]
    on [options] and the validator of [correct_answer]. *)
Definition valid (q : t) : bool :=
  bool_decide (length (options q) = 4%nat) &&
  bool_decide (correct_answer q ∈ option_ids).

(** [MCQuestion(question_id=..., ...)]: the constructor validates the
    fields, whatever the values passed for the texts, and raises one
    [ValidationError] when some field is refused. The validator of
    [correct_answer] runs on a value that is a [str]. *)
Definition new (question_id : string) (question_text : json)
    (options : list MCQOption.t) (correct_answer : json)
    (explanation : json) (difficulty : DifficultyLevel) : result t :=
  match as_str question_text,
        bool_decide (length options = 4%nat),
        as_str correct_answer,
        as_optional_str explanation with
  | Some text, true, Some answer, Some expl =>
      match validate_correct_answer answer with
      | Ok v => Ok (mk question_id text options v expl difficulty)
      | Raise _ => Raise (ValidationError "MCQuestion")
      end
  | _, _, _, _ => Raise (ValidationError "MCQuestion")
  end.
End MCQuestion.

Module AnswerSubmission.
Record t := mk { question_id : string; selected_answer : string }.
#[global] Instance eq_dec : EqDecision t.
Proof. solve_decision. Defined.

(** [validate_selected_answer]. *)
Definition validate_selected_answer (v : string) : result string :=
  if bool_decide (v ∈ option_ids) then Ok v
  else Raise (ValueError "selected_answer must be A, B, C, or D").

Definition valid (a : t) : bool :=
  bool_decide (selected_answer a ∈ option_ids).

Definition new (question_id selected_answer : string) : result t :=
  match validate_selected_answer selected_answer with
  | Raise _ => Raise (ValidationError "AnswerSubmission")
  | Ok v => Ok (mk question_id v)
  end.
End AnswerSubmission.

Module TestSubmission.
Record t := mk { test_id : string; answers : list AnswerSubmission.t }.
End TestSubmission.

Module QuestionResult.
Record t := mk {
  question_id : string;
  question_text : string;
  selected_answer : string;
  correct_answer : string;
  is_correct : bool;
  explanation : option string
}.
#[global] Instance eq_dec : EqDecision t.
Proof. solve_decision. Defined.
End QuestionResult.

Module TestResult.
Record t := mk {
  test_id : string;
  topic : string;
  total_questions : Z;
  correct_answers : Z;
  wrong_answers : Z;
  score_percentage : spec_float;
  results : list QuestionResult.t;
  completed_at : datetime
}.
#[global] Instance eq_dec : EqDecision t.
Proof. solve_decision. Defined.
End TestResult.

Module MCQGenerationRequest.
Record t := mk {
  topic : string;
  num_questions : Z;
  difficulty : DifficultyLevel;
  session_id : option string
}.

(** [min_length=3, max_length=200] on [topic], [ge=1, le=50] on
    [num_questions]. *)
Definition valid (r : t) : bool :=
  bool_decide (3 ≤ String.length (topic r) ≤ 200)%nat &&
  bool_decide (1 ≤ num_questions r ≤ 50).
End MCQGenerationRequest.

Module MCQGenerationResponse.
Record t := mk {
  test_id : string;
  topic : string;
  questions : list MCQuestion.t;
  total_questions : Z;
  time_limit_minutes : Z;
  created_at : datetime
}.
End MCQGenerationResponse.

Module TestSessionDB.
Record t := mk {
  test_id : string;
  topic : string;
  questions : list MCQuestion.t;
  difficulty : DifficultyLevel;
  status : TestStatus;
  time_limit_minutes : Z;
  created_at : datetime;
  submitted_at : option datetime;
  answers : option (list AnswerSubmission.t);
  result : option TestResult.t
}.
#[global] Instance eq_dec : EqDecision t.
Proof. solve_decision. Defined.

(** What the constructor of [TestSessionDB] checks again when a document
    is read back: the constraints of the nested models. *)
Definition valid (s : t) : bool :=
  forallb MCQuestion.valid (questions s) &&
  match answers s with
  | Some l => forallb AnswerSubmission.valid l
  | None => true
  end.
End TestSessionDB.

(** ** [app/config/settings.py]: the settings the controller reads *)

Record Settings := {
  default_model : string;
  max_mcq_count : Z;
  test_time_limit_minutes : Z
}.

(** ** The environment, the world and the monad of coroutines *)

Module ChatRequest.
(** The arguments of [client.chat.completions.create]. *)
Record t := mk {
  model : string;
  messages : list (string * string);  (* role, content *)
  temperature : spec_float;
  max_tokens : Z
}.
End ChatRequest.

(** The collaborators the pipeline consumes. Readings are indexed by the
    number of readings taken before, so that two readings may differ. *)
Record Env := {
  utcnow_at : nat -> datetime;
  uuid4_at : nat -> string;
  (** the content of the first choice of the n-th completion, [None] when
      the endpoint answers without content, or the failure of the call *)
  completions_create : nat -> ChatRequest.t -> result (option string);
  (** [json.loads]: the decoded value, or [None] for [JSONDecodeError] *)
  json_loads : string -> option json;
  settings : Settings
}.

(** A line written by [print]: [print_exc prefix e] stands for
    [print(f"{prefix}{str(e)}")]. *)
Inductive stdout_line :=
| print_line (s : string)
| print_exc (prefix : string) (e : exn).

Record World := {
  test_sessions : list TestSessionDB.t;
  stdout : list stdout_line;
  clock_reads : nat;
  uuids_drawn : nat;
  completions_made : nat
}.

Definition M (A : Type) : Type := Env -> World -> World * result A.

#[global] Instance M_ret : MRet M := fun A a _ w => (w, Ok a).

#[global] Instance M_bind : MBind M := fun A B f m env w =>
  match m env w with
  | (w', Ok a) => f a env w'
  | (w', Raise e) => (w', Raise e)
  end.

Definition raise {A} (e : exn) : M A := fun _ w => (w, Raise e).

Definition lift {A} (r : result A) : M A := fun _ w => (w, r).

(** [try: body except Exception as e: handler(e)]. *)
Definition try_except {A} (body : M A) (handler : exn -> M A) : M A :=
  fun env w =>
    match body env w with
    | (w', Ok a) => (w', Ok a)
    | (w', Raise e) => handler e env w'
    end.

Definition ask : M Env := fun env w => (w, Ok env).
Definition get_world : M World := fun _ w => (w, Ok w).

(** [print(...)]. *)
Definition print (l : stdout_line) : M unit := fun _ w =>
  ({| test_sessions := test_sessions w; stdout := stdout w ++ [l];
      clock_reads := clock_reads w; uuids_drawn := uuids_drawn w;
      completions_made := completions_made w |}, Ok tt).

(** [datetime.utcnow()]. *)
Definition utcnow : M datetime := fun env w =>
  ({| test_sessions := test_sessions w; stdout := stdout w;
      clock_reads := S (clock_reads w); uuids_drawn := uuids_drawn w;
      completions_made := completions_made w |},
   Ok (utcnow_at env (clock_reads w))).

(** [str(uuid.uuid4())]. *)
Definition uuid4 : M string := fun env w =>
  ({| test_sessions := test_sessions w; stdout := stdout w;
      clock_reads := clock_reads w; uuids_drawn := S (uuids_drawn w);
      completions_made := completions_made w |},
   Ok (uuid4_at env (uuids_drawn w))).

(** [await self.client.chat.completions.create(...)] followed by
    [response.choices[0].message.content]. *)
Definition client_create (req : ChatRequest.t) : M (option string) := fun env w =>
  ({| test_sessions := test_sessions w; stdout := stdout w;
      clock_reads := clock_reads w; uuids_drawn := uuids_drawn w;
      completions_made := S (completions_made w) |},
   completions_create env (completions_made w) req).

(** The collection [test_sessions], read and replaced as a whole. *)
Definition get_collection : M (list TestSessionDB.t) := fun _ w =>
  (w, Ok (test_sessions w)).

Definition put_collection (docs : list TestSessionDB.t) : M unit := fun _ w =>
  ({| test_sessions := docs; stdout := stdout w;
      clock_reads := clock_reads w; uuids_drawn := uuids_drawn w;
      completions_made := completions_made w |}, Ok tt).

(** ** [app/services/db_service.py] *)

(** [find_one({"test_id": test_id})]: the first document that matches. *)
Definition find_one (test_id : string) (docs : list TestSessionDB.t)
    : option TestSessionDB.t :=
  List.find (fun d => bool_decide (TestSessionDB.test_id d = test_id)) docs.

(** [update_one({"test_id": test_id}, {"$set": ...})]: the first document
    that matches is updated, the others are left as they are. *)
Fixpoint update_one (test_id : string) (set : TestSessionDB.t -> TestSessionDB.t)
    (docs : list TestSessionDB.t) : list TestSessionDB.t :=
  match docs with
  | [] => []
  | d :: rest =>
      if bool_decide (TestSessionDB.test_id d = test_id) then set d :: rest
      else d :: update_one test_id set rest
  end.

(** [create_test_session]. *)
Definition create_test_session (topic : string) (questions : list MCQuestion.t)
    (difficulty : DifficultyLevel) (time_limit_minutes : Z) : M string :=
  uuid ← uuid4;
  let test_id := generate_id "test_" uuid in
  now ← utcnow;
  let test_session :=
    TestSessionDB.mk test_id topic questions difficulty IN_PROGRESS
      time_limit_minutes now None None None in
  docs ← get_collection;
  put_collection (docs ++ [test_session]);;
  mret test_id.

(** [get_test_session]. *)
Definition get_test_session (test_id : string) : M (option TestSessionDB.t) :=
  docs ← get_collection;
  match find_one test_id docs with
  | Some test_data =>
      if TestSessionDB.valid test_data then mret (Some test_data)
      else raise (ValidationError "TestSessionDB")
  | None => mret None
  end.

(** The [$set] of [submit_test_answers]. *)
Definition set_submission (answers : list AnswerSubmission.t)
    (result : TestResult.t) (now : datetime) (d : TestSessionDB.t) : TestSessionDB.t :=
  TestSessionDB.mk (TestSessionDB.test_id d) (TestSessionDB.topic d)
    (TestSessionDB.questions d) (TestSessionDB.difficulty d) COMPLETED
    (TestSessionDB.time_limit_minutes d) (TestSessionDB.created_at d)
    (Some now) (Some answers) (Some result).

(** [submit_test_answers]; the value returned is [modified_count > 0]. *)
Definition submit_test_answers (test_id : string)
    (answers : list AnswerSubmission.t) (result : TestResult.t) : M bool :=
  now ← utcnow;
  docs ← get_collection;
  let docs' := update_one test_id (set_submission answers result now) docs in
  put_collection docs';;
  mret (negb (bool_decide (docs' = docs))).

(** [get_test_result]. *)
Definition db_get_test_result (test_id : string) : M (option TestResult.t) :=
  test_session ← get_test_session test_id;
  match test_session with
  | Some s => mret (TestSessionDB.result s)
  | None => mret None
  end.

(** The [$set] of [mark_test_expired]. *)
Definition set_expired (d : TestSessionDB.t) : TestSessionDB.t :=
  TestSessionDB.mk (TestSessionDB.test_id d) (TestSessionDB.topic d)
    (TestSessionDB.questions d) (TestSessionDB.difficulty d) EXPIRED
    (TestSessionDB.time_limit_minutes d) (TestSessionDB.created_at d)
    (TestSessionDB.submitted_at d) (TestSessionDB.answers d)
    (TestSessionDB.result d).

(** [mark_test_expired]. *)
Definition mark_test_expired (test_id : string) : M bool :=
  docs ← get_collection;
  let docs' := update_one test_id set_expired docs in
  put_collection docs';;
  mret (negb (bool_decide (docs' = docs))).

(** ** [app/controllers/test_controller.py]: scoring *)

(** [s.split(sep)] for a separator of one character. *)
Fixpoint str_split (sep : ascii) (s : string) : list string :=
  match s with
  | EmptyString => [EmptyString]
  | String c rest =>
      if bool_decide (c = sep) then EmptyString :: str_split sep rest
      else
        match str_split sep rest with
        | piece :: pieces => String c piece :: pieces
        | [] => [String c EmptyString]
        end
  end.

(** [{ans.question_id: ans.selected_answer for ans in answers}]: a later
    answer to the same question replaces an earlier one. *)
Definition answer_map_of (answers : list AnswerSubmission.t) : gmap string string :=
  foldl (fun m ans =>
           <[AnswerSubmission.question_id ans := AnswerSubmission.selected_answer ans]> m)
        ∅ answers.

(** The body of [for question in questions] for one question: the
    question's result and whether it counts as correct. *)
Definition evaluate_question (answer_map : gmap string string)
    (question : MCQuestion.t) : QuestionResult.t :=
  let selected := default "" (answer_map !! MCQuestion.question_id question) in
  let is_correct := bool_decide (selected = MCQuestion.correct_answer question) in
  QuestionResult.mk
    (MCQuestion.question_id question)
    (MCQuestion.question_text question)
    (if bool_decide (selected = "") then "Not answered" else selected)
    (MCQuestion.correct_answer question)
    is_correct
    (MCQuestion.explanation question).

(** The loop of [_evaluate_test], with its two accumulators. *)
Fixpoint evaluate_loop (answer_map : gmap string string)
    (questions : list MCQuestion.t)
    (results : list QuestionResult.t) (correct_count : Z)
    : list QuestionResult.t * Z :=
  match questions with
  | [] => (results, correct_count)
  | question :: rest =>
      let result := evaluate_question answer_map question in
      let correct_count :=
        if QuestionResult.is_correct result then correct_count + 1
        else correct_count in
      evaluate_loop answer_map rest (results ++ [result]) correct_count
  end.

(** [_evaluate_test] once the clock has been read: [now] is the value of
    [datetime.utcnow()]. *)
Definition evaluate_at (questions : list MCQuestion.t)
    (answers : list AnswerSubmission.t) (topic : string) (now : datetime)
    : TestResult.t :=
  let answer_map := answer_map_of answers in
  let '(results, correct_count) := evaluate_loop answer_map questions [] 0 in
  let total_questions := Z.of_nat (length questions) in
  let wrong_count := total_questions - correct_count in
  let score := calculate_score_percentage correct_count total_questions in
  TestResult.mk
    (match questions with
     | q :: _ =>
         match str_split "_" (MCQuestion.question_id q) with
         | piece :: _ => piece
         | [] => ""
         end
     | [] => "unknown"
     end)
    topic total_questions correct_count wrong_count score results now.

(** [_evaluate_test]. *)
Definition _evaluate_test (questions : list MCQuestion.t)
    (answers : list AnswerSubmission.t) (topic : string) : M TestResult.t :=
  now ← utcnow;
  mret (evaluate_at questions answers topic now).

(** ** [app/controllers/test_controller.py]: the public view *)

(** The copy built for one question in [_prepare_public_questions]. *)
Definition public_question (q : MCQuestion.t) : result MCQuestion.t :=
  MCQuestion.new
    (MCQuestion.question_id q)
    (JStr (MCQuestion.question_text q))
    (MCQuestion.options q)
    (JStr "")
    JNull
    (MCQuestion.difficulty q).

(** The loop of [_prepare_public_questions]. *)
Fixpoint prepare_loop (questions : list MCQuestion.t)
    (public_questions : list MCQuestion.t) : result (list MCQuestion.t) :=
  match questions with
  | [] => Ok public_questions
  | q :: rest =>
      match public_question q with
      | Ok public_q => prepare_loop rest (public_questions ++ [public_q])
      | Raise e => Raise e
      end
  end.

(** [_prepare_public_questions]. *)
Definition _prepare_public_questions (questions : list MCQuestion.t)
    : result (list MCQuestion.t) :=
  prepare_loop questions [].

(** ** [app/controllers/test_controller.py]: submission and retrieval *)

(** The part of [submit_test] that follows the read of the session: the
    checks, the evaluation and the write. *)
Definition submit_loaded (submission : TestSubmission.t)
    (test_session : option TestSessionDB.t) : M TestResult.t :=
  match test_session with
  | None => raise (ValueError ("Test not found: " +:+ TestSubmission.test_id submission))
  | Some test_session =>
      if bool_decide (TestSessionDB.status test_session = COMPLETED) then
        raise (ValueError "Test already submitted")
      else if bool_decide (TestSessionDB.status test_session = EXPIRED) then
        raise (ValueError "Test has expired")
      else
        result ← _evaluate_test (TestSessionDB.questions test_session)
                   (TestSubmission.answers submission)
                   (TestSessionDB.topic test_session);
        submit_test_answers (TestSubmission.test_id submission)
          (TestSubmission.answers submission) result;;
        mret result
  end.

(** [submit_test]. *)
Definition submit_test (submission : TestSubmission.t) : M TestResult.t :=
  test_session ← get_test_session (TestSubmission.test_id submission);
  submit_loaded submission test_session.

(** [get_test_details]. *)
Definition get_test_details (test_id : string) : M (option MCQGenerationResponse.t) :=
  test_session ← get_test_session test_id;
  match test_session with
  | None => mret None
  | Some test_session =>
      public_questions ← lift (_prepare_public_questions (TestSessionDB.questions test_session));
      mret (Some (MCQGenerationResponse.mk
                    (TestSessionDB.test_id test_session)
                    (TestSessionDB.topic test_session)
                    public_questions
                    (Z.of_nat (length (TestSessionDB.questions test_session)))
                    (TestSessionDB.time_limit_minutes test_session)
                    (TestSessionDB.created_at test_session)))
  end.

(** [get_test_result]. *)
Definition get_test_result (test_id : string) : M (option TestResult.t) :=
  db_get_test_result test_id.

(** ** Python string methods used by the response parser *)

(** [c.isspace()] on the first 256 code points. *)
Definition isspace (c : ascii) : bool :=
  let n := nat_of_ascii c in
  bool_decide (n ∈ [9; 10; 11; 12; 13; 28; 29; 30; 31; 32; 133; 160]%nat).

Fixpoint lstrip (s : string) : string :=
  match s with
  | String c rest => if isspace c then lstrip rest else s
  | EmptyString => EmptyString
  end.

Fixpoint rstrip (s : string) : string :=
  match s with
  | EmptyString => EmptyString
  | String c rest =>
      match rstrip rest with
      | EmptyString => if isspace c then EmptyString else String c EmptyString
      | kept => String c kept
      end
  end.

(** [s.strip()]. *)
Definition strip (s : string) : string := rstrip (lstrip s).

(** [s[:n]] and [s[n:]] for [0 <= n]. *)
Fixpoint str_take (n : nat) (s : string) : string :=
  match n, s with
  | S n', String c rest => String c (str_take n' rest)
  | _, _ => EmptyString
  end.

Fixpoint str_drop (n : nat) (s : string) : string :=
  match n, s with
  | S n', String _ rest => str_drop n' rest
  | _, _ => s
  end.

(** [s.startswith(p)] and [s.endswith(p)]. *)
Definition startswith (p s : string) : bool := String.prefix p s.

Definition endswith (p s : string) : bool :=
  (String.length p <=? String.length s)%nat &&
  bool_decide (str_drop (String.length s - String.length p) s = p).

(** [s.upper()] on ASCII letters. *)
Definition ascii_upper (c : ascii) : ascii :=
  let n := nat_of_ascii c in
  if ((97 <=? n) && (n <=? 122))%nat then ascii_of_nat (n - 32) else c.

Fixpoint upper (s : string) : string :=
  match s with
  | EmptyString => EmptyString
  | String c rest => String (ascii_upper c) (upper rest)
  end.

(** ** [app/services/llm_service.py] *)

Definition nl : string := String (ascii_of_nat 10) EmptyString.
Definition dq : string := String (ascii_of_nat 34) EmptyString.
Definition quoted (s : string) : string := dq +:+ s +:+ dq.

(** [chat_completion]; [model] is [None] when the caller leaves it out. *)
Definition chat_completion (messages : list (string * string))
    (model : option string) (temperature : spec_float) (max_tokens : Z)
    : M (option string) :=
  env ← ask;
  try_except
    (client_create
       (ChatRequest.mk
          (match model with
           | Some m => if bool_decide (m = "") then default_model (settings env) else m
           | None => default_model (settings env)
           end)
          messages temperature max_tokens))
    (fun e =>
       print (print_exc "❌ LLM Error: " e);;
       raise (Exception_of "Failed to get LLM response: " e)).

Definition difficulty_guidance (difficulty : DifficultyLevel) : string :=
  match difficulty with
  | EASY => "Create straightforward questions testing basic knowledge and recall."
  | MEDIUM => "Create questions requiring understanding and application of concepts."
  | HARD => "Create challenging questions requiring analysis, synthesis, and critical thinking."
  end.

(** [_build_mcq_system_prompt], line by line. *)
Definition _build_mcq_system_prompt (difficulty : DifficultyLevel) : string :=
  String.concat nl [
    "You are an expert educational content creator specializing in multiple-choice questions.";
    "";
    "**Your Task:** Generate high-quality MCQs that are clear, unambiguous, and educationally valuable.";
    "";
    "**Difficulty Level:** " +:+ upper (DifficultyLevel_value difficulty);
    difficulty_guidance difficulty;
    "";
    "**Requirements:**";
    "1. Each question must have exactly 4 options (A, B, C, D)";
    "2. Only ONE option should be correct";
    "3. Distractors (wrong options) should be plausible but clearly incorrect";
    "4. Avoid " +:+ quoted "All of the above" +:+ " or " +:+ quoted "None of the above" +:+ " options";
    "5. Questions should be clear and unambiguous";
    "6. Provide a brief explanation for the correct answer";
    "";
    "**Output Format:** ";
    "Respond with ONLY a valid JSON array. No additional text before or after.";
    "";
    "Example format:";
    "[";
    "  {";
    "    " +:+ quoted "question" +:+ ": " +:+ quoted "What is the capital of France?" +:+ ",";
    "    " +:+ quoted "options" +:+ ": {";
    "      " +:+ quoted "A" +:+ ": " +:+ quoted "London" +:+ ",";
    "      " +:+ quoted "B" +:+ ": " +:+ quoted "Paris" +:+ ",";
    "      " +:+ quoted "C" +:+ ": " +:+ quoted "Berlin" +:+ ",";
    "      " +:+ quoted "D" +:+ ": " +:+ quoted "Madrid";
    "    },";
    "    " +:+ quoted "correct_answer" +:+ ": " +:+ quoted "B" +:+ ",";
    "    " +:+ quoted "explanation" +:+ ": " +:+ quoted "Paris is the capital and largest city of France.";
    "  }";
    "]"
  ].

(** [_build_mcq_user_prompt]. *)
Definition _build_mcq_user_prompt (topic : string) (num_questions : Z) : string :=
  "Generate " +:+ pretty num_questions +:+ " multiple-choice questions about: " +:+ topic
  +:+ nl +:+ nl
  +:+ "Remember to respond with ONLY the JSON array, no other text.".

(** The fences removed by [_parse_mcq_response] before decoding. *)
Definition strip_fences (response : string) : string :=
  let response := strip response in
  let response :=
    if startswith "```json" response then str_drop 7 response else response in
  let response :=
    if startswith "```" response then str_drop 3 response else response in
  let response :=
    if endswith "```" response
    then str_take (String.length response - 3) response else response in
  strip response.

(** [_parse_mcq_response]. *)
Definition _parse_mcq_response (response : string) : M (list json) :=
  let response := strip_fences response in
  env ← ask;
  match json_loads env response with
  | Some (JList mcqs) => mret mcqs
  | Some _ => raise (ValueError "Response is not a list")
  | None =>
      print (print_exc "❌ JSON Parse Error: " JSONDecodeError);;
      print (print_line ("Response was: " +:+ str_take 200 response +:+ "..."));;
      raise (Exception "Failed to parse MCQ response as JSON")
  end.

(** [v[key]] for a key that is a [str]. *)
Definition subscript (v : json) (key : string) : result json :=
  match v with
  | JDict items =>
      match dict_get key items with
      | Some x => Ok x
      | None => Raise (KeyError key)
      end
  | _ => Raise TypeError
  end.

(** [v.get(key, fallback)]. *)
Definition get_or (v : json) (key : string) (fallback : json) : result json :=
  match v with
  | JDict items => Ok (default fallback (dict_get key items))
  | _ => Raise AttributeError
  end.

#[global] Instance result_ret : MRet result := fun A a => Ok a.
#[global] Instance result_bind : MBind result := fun A B f r =>
  match r with
  | Ok a => f a
  | Raise e => Raise e
  end.

(** [MCQOption(option_id=letter, text=mcq["options"][letter])]. *)
Definition option_of (mcq : json) (letter : string) : result MCQOption.t :=
  opts ← subscript mcq "options";
  text ← subscript opts letter;
  MCQOption.new letter text.

(** The question built from the draft at position [idx] of the parsed
    array, its arguments being evaluated from left to right. *)
Definition question_of (idx : nat) (mcq : json) (difficulty : DifficultyLevel)
    : result MCQuestion.t :=
  let question_id := "q_" +:+ pretty (Z.of_nat idx + 1) in
  question_text ← subscript mcq "question";
  a ← option_of mcq "A";
  b ← option_of mcq "B";
  c ← option_of mcq "C";
  d ← option_of mcq "D";
  correct_answer ← subscript mcq "correct_answer";
  explanation ← get_or mcq "explanation" (JStr "");
  MCQuestion.new question_id question_text [a; b; c; d] correct_answer
    explanation difficulty.

(** [for idx, mcq in enumerate(mcqs_data)]. *)
Fixpoint questions_loop (idx : nat) (mcqs_data : list json)
    (difficulty : DifficultyLevel) (questions : list MCQuestion.t)
    : result (list MCQuestion.t) :=
  match mcqs_data with
  | [] => Ok questions
  | mcq :: rest =>
      question ← question_of idx mcq difficulty;
      questions_loop (S idx) rest difficulty (questions ++ [question])
  end.

(** [generate_mcqs]. *)
Definition generate_mcqs (topic : string) (num_questions : Z)
    (difficulty : DifficultyLevel) : M (list MCQuestion.t) :=
  let system_prompt := _build_mcq_system_prompt difficulty in
  let user_prompt := _build_mcq_user_prompt topic num_questions in
  let messages := [("system", system_prompt); ("user", user_prompt)] in
  try_except
    (response ← chat_completion messages None (Float.of_ratio false 8 10) 4000;
     mcqs_data ←
       match response with
       | Some text => _parse_mcq_response text
       | None => raise AttributeError
       end;
     lift (questions_loop 0 mcqs_data difficulty []))
    (fun e =>
       print (print_exc "❌ MCQ Generation Error: " e);;
       raise (Exception_of "Failed to generate MCQs: " e)).

(** ** [app/controllers/test_controller.py]: generation *)

(** [generate_test]. *)
Definition generate_test (request : MCQGenerationRequest.t)
    : M MCQGenerationResponse.t :=
  env ← ask;
  let num_questions :=
    Z.min (MCQGenerationRequest.num_questions request) (max_mcq_count (settings env)) in
  questions ← generate_mcqs (MCQGenerationRequest.topic request) num_questions
                 (MCQGenerationRequest.difficulty request);
  test_id ← create_test_session (MCQGenerationRequest.topic request) questions
              (MCQGenerationRequest.difficulty request)
              (test_time_limit_minutes (settings env));
  public_questions ← lift (_prepare_public_questions questions);
  now ← utcnow;
  mret (MCQGenerationResponse.mk test_id (MCQGenerationRequest.topic request)
          public_questions (Z.of_nat (length questions))
          (test_time_limit_minutes (settings env)) now).

(** ** A decoder for JSON text

    The grammar accepted by [json.loads]: the JSON grammar, with the
    constants [NaN], [Infinity] and [-Infinity], strings in strict mode and
    no text after the value. Two limits of CPython are not modelled: the
    bound on the nesting depth and the bound on the length of an integer
    numeral. An escape that names a code point past 255 is outside the
    texts covered by the embedding and is refused. *)

Module Json.

Definition is_ws (c : ascii) : bool :=
  bool_decide (nat_of_ascii c ∈ [32; 9; 10; 13]%nat).

Fixpoint skip_ws (s : string) : string :=
  match s with
  | String c rest => if is_ws c then skip_ws rest else s
  | EmptyString => EmptyString
  end.

Definition digit_val (c : ascii) : option Z :=
  let n := nat_of_ascii c in
  if ((48 <=? n) && (n <=? 57))%nat then Some (Z.of_nat (n - 48)) else None.

Definition hex_val (c : ascii) : option nat :=
  let n := nat_of_ascii c in
  if ((48 <=? n) && (n <=? 57))%nat then Some (n - 48)%nat
  else if ((97 <=? n) && (n <=? 102))%nat then Some (n - 87)%nat
  else if ((65 <=? n) && (n <=? 70))%nat then Some (n - 55)%nat
  else None.

(** The digits at the head of [s]: their text, their value after [acc],
    and what follows them. *)
Fixpoint digits (s : string) (acc : Z) : string * Z * string :=
  match s with
  | String c rest =>
      match digit_val c with
      | Some d =>
          let '(txt, v, rest') := digits rest (acc * 10 + d) in
          (String c txt, v, rest')
      | None => (EmptyString, acc, s)
      end
  | EmptyString => (EmptyString, acc, s)
  end.

(** The fraction [.d+] at the head of [s], when there is one. *)
Definition fraction (s : string) : string * string :=
  match s with
  | String "." rest =>
      let '(txt, _, rest') := digits rest 0 in
      if bool_decide (txt = "") then ("", s) else ("." +:+ txt, rest')
  | _ => ("", s)
  end.

(** The exponent [[eE][+-]?d+] at the head of [s], when there is one. *)
Definition exponent (s : string) : string * string :=
  match s with
  | String e rest =>
      if bool_decide (e = "e"%char ∨ e = "E"%char) then
        let '(sign, rest1) :=
          match rest with
          | String c r =>
              if bool_decide (c = "+"%char ∨ c = "-"%char)
              then (String c EmptyString, r) else ("", rest)
          | EmptyString => ("", rest)
          end in
        let '(txt, _, rest2) := digits rest1 0 in
        if bool_decide (txt = "") then ("", s)
        else (String e sign +:+ txt, rest2)
      else ("", s)
  | EmptyString => ("", s)
  end.

(** A number at the head of [s]. *)
Definition number (s : string) : option (json * string) :=
  let '(neg, s1) :=
    match s with
    | String "-" rest => (true, rest)
    | _ => (false, s)
    end in
  let int_part :=
    match s1 with
    | String "0" rest => Some ("0", 0, rest)
    | String c _ =>
        match digit_val c with
        | Some _ => Some (digits s1 0)
        | None => None
        end
    | EmptyString => None
    end in
  match int_part with
  | None => None
  | Some (itxt, v, s2) =>
      let '(ftxt, s3) := fraction s2 in
      let '(etxt, s4) := exponent s3 in
      if bool_decide (ftxt = "") && bool_decide (etxt = "") then
        Some (JInt (if neg then - v else v), s4)
      else
        Some (JFloat ((if neg then "-" else "") +:+ itxt +:+ ftxt +:+ etxt), s4)
  end.

(** Four hexadecimal digits at the head of [s]. *)
Definition hex4 (s : string) : option (nat * string) :=
  match s with
  | String a (String b (String c (String d rest))) =>
      match hex_val a, hex_val b, hex_val c, hex_val d with
      | Some x, Some y, Some z, Some w =>
          Some (((x * 16 + y) * 16 + z) * 16 + w, rest)%nat
      | _, _, _, _ => None
      end
  | _ => None
  end.

(** The rest of a string whose opening quote has been read. *)
Fixpoint string_body (fuel : nat) (s : string) : option (string * string) :=
  match fuel with
  | O => None
  | S fuel' =>
      match s with
      | EmptyString => None
      | String c rest =>
          if bool_decide (c = ascii_of_nat 34) then Some (EmptyString, rest)
          else if bool_decide (c = "\"%char) then
            match rest with
            | EmptyString => None
            | String e rest' =>
                let plain (x : nat) :=
                  match string_body fuel' rest' with
                  | Some (txt, r) => Some (String (ascii_of_nat x) txt, r)
                  | None => None
                  end in
                if bool_decide (e = ascii_of_nat 34) then plain 34%nat
                else if bool_decide (e = "\"%char) then plain 92%nat
                else if bool_decide (e = "/"%char) then plain 47%nat
                else if bool_decide (e = "b"%char) then plain 8%nat
                else if bool_decide (e = "f"%char) then plain 12%nat
                else if bool_decide (e = "n"%char) then plain 10%nat
                else if bool_decide (e = "r"%char) then plain 13%nat
                else if bool_decide (e = "t"%char) then plain 9%nat
                else if bool_decide (e = "u"%char) then
                  match hex4 rest' with
                  | Some (n, r) =>
                      if (n <? 256)%nat then
                        match string_body fuel' r with
                        | Some (txt, r') => Some (String (ascii_of_nat n) txt, r')
                        | None => None
                        end
                      else None
                  | None => None
                  end
                else None
            end
          else if (nat_of_ascii c <? 32)%nat then None
          else
            match string_body fuel' rest with
            | Some (txt, r) => Some (String c txt, r)
            | None => None
            end
      end
  end.

Definition quoted_string (s : string) : option (string * string) :=
  string_body (S (String.length s)) s.

(** A value at the head of [s]; [elements] reads the items of an array
    after its bracket, [members] the items of an object after its brace. *)
Fixpoint value (fuel : nat) (s : string) : option (json * string) :=
  match fuel with
  | O => None
  | S fuel' =>
      match s with
      | EmptyString => None
      | String c rest =>
          if bool_decide (c = ascii_of_nat 34) then
            match quoted_string rest with
            | Some (txt, r) => Some (JStr txt, r)
            | None => None
            end
          else if bool_decide (c = "["%char) then
            match skip_ws rest with
            | String "]" r => Some (JList [], r)
            | rest' => elements fuel' rest' []
            end
          else if bool_decide (c = "{"%char) then
            match skip_ws rest with
            | String "}" r => Some (JDict [], r)
            | rest' => members fuel' rest' []
            end
          else if startswith "null" s then Some (JNull, str_drop 4 s)
          else if startswith "true" s then Some (JBool true, str_drop 4 s)
          else if startswith "false" s then Some (JBool false, str_drop 5 s)
          else if startswith "NaN" s then Some (JFloat "NaN", str_drop 3 s)
          else if startswith "Infinity" s then Some (JFloat "Infinity", str_drop 8 s)
          else if startswith "-Infinity" s then Some (JFloat "-Infinity", str_drop 9 s)
          else number s
      end
  end
with elements (fuel : nat) (s : string) (acc : list json) : option (json * string) :=
  match fuel with
  | O => None
  | S fuel' =>
      match value fuel' s with
      | None => None
      | Some (v, rest) =>
          match skip_ws rest with
          | String "," r => elements fuel' (skip_ws r) (acc ++ [v])
          | String "]" r => Some (JList (acc ++ [v]), r)
          | _ => None
          end
      end
  end
with members (fuel : nat) (s : string) (acc : list (string * json)) : option (json * string) :=
  match fuel with
  | O => None
  | S fuel' =>
      match s with
      | String q rest =>
          if bool_decide (q = ascii_of_nat 34) then
            match quoted_string rest with
            | None => None
            | Some (key, rest1) =>
                match skip_ws rest1 with
                | String ":" rest2 =>
                    match value fuel' (skip_ws rest2) with
                    | None => None
                    | Some (v, rest3) =>
                        match skip_ws rest3 with
                        | String "," r => members fuel' (skip_ws r) (dict_set key v acc)
                        | String "}" r => Some (JDict (dict_set key v acc), r)
                        | _ => None
                        end
                    end
                | _ => None
                end
            end
          else None
      | EmptyString => None
      end
  end.

(** [json.loads(s)]. *)
Definition loads (s : string) : option json :=
  match value (2 * String.length s + 2) (skip_ws s) with
  | Some (v, rest) =>
      match skip_ws rest with
      | EmptyString => Some v
      | _ => None
      end
  | None => None
  end.

End Json.

(** ** Submissions in flight

    The server runs every request as a coroutine on one event loop: the
    code between two [await]s of a request runs without interruption, and
    another request may run while the request waits for the store.
    [submit_test] waits twice, for [find_one] and for [update_one], so a
    submission advances in two steps: the read of the session, then the
    checks, the evaluation and the write. *)

Inductive task :=
| Pending (submission : TestSubmission.t)
| Loaded (submission : TestSubmission.t) (test_session : option TestSessionDB.t)
| Done (outcome : result TestResult.t).

Definition step (env : Env) (t : task) (w : World) : World * task :=
  match t with
  | Pending submission =>
      match get_test_session (TestSubmission.test_id submission) env w with
      | (w', Ok test_session) => (w', Loaded submission test_session)
      | (w', Raise e) => (w', Done (Raise e))
      end
  | Loaded submission test_session =>
      let '(w', outcome) := submit_loaded submission test_session env w in
      (w', Done outcome)
  | Done outcome => (w, Done outcome)
  end.

(** Which of the two requests the event loop resumes next. *)
Inductive turn := First | Second.

(** The two requests run under a schedule. *)
Fixpoint run_schedule (env : Env) (schedule : list turn)
    (w : World) (t1 t2 : task) : World * task * task :=
  match schedule with
  | [] => (w, t1, t2)
  | First :: rest =>
      let '(w', t1') := step env t1 w in run_schedule env rest w' t1' t2
  | Second :: rest =>
      let '(w', t2') := step env t2 w in run_schedule env rest w' t1 t2'
  end.

(** ** A concrete environment

    A clock that advances by one second at each reading, numbered ids, the
    decoder above, the default settings, and a completion endpoint that
    answers every request with a fixed text. *)

Definition default_settings : Settings :=
  {| default_model := "openai/gpt-3.5-turbo";
     max_mcq_count := 50;
     test_time_limit_minutes := 30 |}.

Definition env_answering (reply : result (option string)) : Env :=
  {| utcnow_at := fun n => 1700000000 + Z.of_nat n;
     uuid4_at := fun n => "00000000-0000-4000-8000-" +:+ pretty (100000000000 + Z.of_nat n);
     completions_create := fun _ _ => reply;
     json_loads := Json.loads;
     settings := default_settings |}.

Definition empty_world : World :=
  {| test_sessions := []; stdout := []; clock_reads := 0;
     uuids_drawn := 0; completions_made := 0 |}.

(** The text of one draft, as the system prompt asks for it. *)
Definition draft_text (question a b c d answer explanation : string) : string :=
  "{" +:+ quoted "question" +:+ ": " +:+ quoted question +:+ ", "
  +:+ quoted "options" +:+ ": {"
  +:+ quoted "A" +:+ ": " +:+ quoted a +:+ ", "
  +:+ quoted "B" +:+ ": " +:+ quoted b +:+ ", "
  +:+ quoted "C" +:+ ": " +:+ quoted c +:+ ", "
  +:+ quoted "D" +:+ ": " +:+ quoted d +:+ "}, "
  +:+ quoted "correct_answer" +:+ ": " +:+ quoted answer +:+ ", "
  +:+ quoted "explanation" +:+ ": " +:+ quoted explanation +:+ "}".

Definition capital_draft : string :=
  draft_text "What is the capital of France?" "London" "Paris" "Berlin" "Madrid"
    "B" "Paris is the capital and largest city of France.".

Definition sum_draft : string :=
  draft_text "What is 2 + 2?" "3" "4" "5" "22" "B" "Two and two make four.".

(** Three stored questions and a session that holds them. *)
Definition sample_options (a b c d : string) : list MCQOption.t :=
  [MCQOption.mk "A" a; MCQOption.mk "B" b; MCQOption.mk "C" c; MCQOption.mk "D" d].

Definition sample_questions : list MCQuestion.t :=
  [ MCQuestion.mk "q_1" "What is the capital of France?"
      (sample_options "London" "Paris" "Berlin" "Madrid") "B"
      (Some "Paris is the capital and largest city of France.") MEDIUM;
    MCQuestion.mk "q_2" "What is 2 + 2?"
      (sample_options "3" "4" "5" "22") "B" (Some "") MEDIUM;
    MCQuestion.mk "q_3" "Which gas do plants absorb?"
      (sample_options "Oxygen" "Nitrogen" "Carbon dioxide" "Helium") "C" None MEDIUM ].

Definition sample_session (status : TestStatus) : TestSessionDB.t :=
  TestSessionDB.mk "test_0001" "Photosynthesis" sample_questions MEDIUM status 30
    1699999000 None None None.

Definition world_with (docs : list TestSessionDB.t) : World :=
  {| test_sessions := docs; stdout := []; clock_reads := 0;
     uuids_drawn := 0; completions_made := 0 |}.

(** ** Notions used in the statements *)

(** The number of results marked correct. *)
Definition correct_in (results : list QuestionResult.t) : Z :=
  Z.of_nat (length (List.filter QuestionResult.is_correct results)).

(** The id reported by the evaluation. *)
Definition reported_test_id (questions : list MCQuestion.t) : string :=
  match questions with
  | q :: _ =>
      match str_split "_" (MCQuestion.question_id q) with
      | piece :: _ => piece
      | [] => ""
      end
  | [] => "unknown"
  end.

(** One reading of the clock, as [utcnow] leaves the world. *)
Definition tick (w : World) : World :=
  {| test_sessions := test_sessions w; stdout := stdout w;
     clock_reads := S (clock_reads w); uuids_drawn := uuids_drawn w;
     completions_made := completions_made w |}.

Definition question_ids (qs : list MCQuestion.t) : list string :=
  map MCQuestion.question_id qs.

Definition answered_ids (answers : list AnswerSubmission.t) : list string :=
  map AnswerSubmission.question_id answers.

Definition record_answer (m : gmap string string) (ans : AnswerSubmission.t)
    : gmap string string :=
  <[AnswerSubmission.question_id ans := AnswerSubmission.selected_answer ans]> m.

(** The part of a question id that [split("_")[0]] keeps: the characters
    before the first underscore, all of them when there is none. *)
Fixpoint before_underscore (s : string) : string :=
  match s with
  | EmptyString => EmptyString
  | String c rest =>
      if bool_decide (c = "_"%char) then EmptyString
      else String c (before_underscore rest)
  end.

(** The formula [round(100 * correct / total, 2)] read on the exact
    quotient: [100 * correct / total] brought to two decimals, a tie going
    to the even hundredth ([exact_score_even]) or upwards
    ([exact_score_up]), and the decimal numeral read as a float. *)
Definition exact_score_even (correct total : Z) : spec_float :=
  Float.of_hundredths (Float.div_half_even (100 * correct * 100) total).

Definition exact_score_up (correct total : Z) : spec_float :=
  Float.of_hundredths ((2 * (100 * correct * 100) + total) / (2 * total)).

(** The same formula evaluated as the Python expression it is written as:
    one division of integers, then [round]. The code divides first and
    multiplies the quotient by 100. *)
Definition formula_score (correct total : Z) : spec_float :=
  Float.round2 (Float.int_truediv (100 * correct) total).

(** Whether the code agrees with the formula, in both readings with ties
    to even, on every [correct <= total] for one [total]. *)
Definition score_agrees (correct total : Z) : bool :=
  let score := calculate_score_percentage correct total in
  bool_decide (score = exact_score_even correct total) &&
  bool_decide (score = formula_score correct total).

Definition scores_agree_for (total : nat) : bool :=
  forallb (fun correct => score_agrees (Z.of_nat correct) (Z.of_nat total))
          (seq 0 (S total)).

(** The result computed for a submission against a session, the clock
    having been read [clock_reads w] times. *)
Definition result_of (env : Env) (w : World) (submission : TestSubmission.t)
    (s : TestSessionDB.t) : TestResult.t :=
  evaluate_at (TestSessionDB.questions s) (TestSubmission.answers submission)
    (TestSessionDB.topic s) (utcnow_at env (clock_reads w)).

(** The world left by an accepted submission: the clock has been read
    twice, for [completed_at] and for [submitted_at], and the session has
    been rewritten. *)
Definition world_after_submit (env : Env) (w : World)
    (submission : TestSubmission.t) (s : TestSessionDB.t) : World :=
  {| test_sessions :=
       update_one (TestSubmission.test_id submission)
         (set_submission (TestSubmission.answers submission)
            (result_of env w submission s) (utcnow_at env (S (clock_reads w))))
         (test_sessions w);
     stdout := stdout w;
     clock_reads := S (S (clock_reads w));
     uuids_drawn := uuids_drawn w;
     completions_made := completions_made w |}.

(** The result stored with a session. *)
Definition stored_result (w : World) (test_id : string) : option TestResult.t :=
  match find_one test_id (test_sessions w) with
  | Some d => TestSessionDB.result d
  | None => None
  end.

(** The view of a question that the claim describes: the correct answer
    blanked, the explanation removed, the rest unchanged. *)
Definition scrubbed (q : MCQuestion.t) : MCQuestion.t :=
  MCQuestion.mk (MCQuestion.question_id q) (MCQuestion.question_text q)
    (MCQuestion.options q) "" None (MCQuestion.difficulty q).

(** The world after one completion has been received, and a world with
    more lines printed. *)
Definition after_completion (w : World) : World :=
  {| test_sessions := test_sessions w; stdout := stdout w;
     clock_reads := clock_reads w; uuids_drawn := uuids_drawn w;
     completions_made := S (completions_made w) |}.

Definition printing (w : World) (lines : list stdout_line) : World :=
  {| test_sessions := test_sessions w; stdout := stdout w ++ lines;
     clock_reads := clock_reads w; uuids_drawn := uuids_drawn w;
     completions_made := completions_made w |}.

(** The model named in a request. *)
Definition model_or_default (env : Env) (model : option string) : string :=
  match model with
  | Some m => if bool_decide (m = "") then default_model (settings env) else m
  | None => default_model (settings env)
  end.

(** The two lines printed when the text cannot be decoded. *)
Definition parse_failure_lines (text : string) : list stdout_line :=
  [print_exc "❌ JSON Parse Error: " JSONDecodeError;
   print_line ("Response was: " +:+ str_take 200 text +:+ "...")].

(** The request sent by [generate_mcqs]. *)
Definition mcq_request (env : Env) (topic : string) (num_questions : Z)
    (difficulty : DifficultyLevel) : ChatRequest.t :=
  ChatRequest.mk (default_model (settings env))
    [("system", _build_mcq_system_prompt difficulty);
     ("user", _build_mcq_user_prompt topic num_questions)]
    (Float.of_ratio false 8 10) 4000.

(** [generate_mcqs] step by step: the completion, the parse, the drafts;
    a failure of any step is printed and raised again under one message. *)
Definition generation_failure (w : World) (e : exn) : World * result (list MCQuestion.t) :=
  (printing w [print_exc "❌ MCQ Generation Error: " e],
   Raise (Exception_of "Failed to generate MCQs: " e)).

(** A completion with two drafts inside a fence. *)
Definition two_drafts_env : Env :=
  env_answering (Ok (Some ("```json" +:+ nl +:+ "[" +:+ capital_draft +:+ ", "
                           +:+ sum_draft +:+ "]" +:+ nl +:+ "```"))).

(** Whether [needle] occurs in [hay]. *)
Fixpoint str_contains (needle hay : string) : bool :=
  String.prefix needle hay ||
  match hay with
  | EmptyString => false
  | String _ rest => str_contains needle rest
  end.

(** The drafts decoded from a completion with two questions. *)
Definition two_drafts : list json :=
  match Json.loads ("[" +:+ capital_draft +:+ ", " +:+ sum_draft +:+ "]") with
  | Some (JList mcqs) => mcqs
  | _ => []
  end.
(** ** Further notions used in the statements *)

(** The float [100.0]. *)
Definition hundred : spec_float := Eval vm_compute in Float.of_int 100.

(** Whether a float lies between [0.0] and [100.0]. *)
Definition within_percent (x : spec_float) : bool :=
  SFleb Float.zero x && SFleb x hundred.

(** [check h] for [count] consecutive integers from [h] on. *)
Fixpoint all_from (check : Z -> bool) (h : Z) (count : nat) : bool :=
  match count with
  | O => true
  | S count' => check h && all_from check (h + 1) count'
  end.

(** The submission that answers every question with its correct answer. *)
Definition perfect_answers (qs : list MCQuestion.t) : list AnswerSubmission.t :=
  map (fun q => AnswerSubmission.mk (MCQuestion.question_id q) (MCQuestion.correct_answer q)) qs.

(** The answers of a submission as pairs of a question id and a selection. *)
Definition answer_pairs (answers : list AnswerSubmission.t) : list (string * string) :=
  map (fun a => (AnswerSubmission.question_id a, AnswerSubmission.selected_answer a)) answers.

(** ** [app/services/db_service.py], continued *)

(** [get_test_questions]: the questions are returned as they are stored. *)
Definition get_test_questions (test_id : string) : M (option (list MCQuestion.t)) :=
  test_session ← get_test_session test_id;
  match test_session with
  | Some s => mret (Some (TestSessionDB.questions s))
  | None => mret None
  end.

(** The session written by [create_test_session]. *)
Definition new_session (env : Env) (w : World) (topic : string)
    (questions : list MCQuestion.t) (difficulty : DifficultyLevel)
    (time_limit_minutes : Z) : TestSessionDB.t :=
  TestSessionDB.mk (generate_id "test_" (uuid4_at env (uuids_drawn w)))
    topic questions difficulty IN_PROGRESS time_limit_minutes
    (utcnow_at env (clock_reads w)) None None None.

(** The world with another collection, one more id drawn and one more
    reading of the clock. *)
Definition world_after_create (w : World) (docs : list TestSessionDB.t) : World :=
  {| test_sessions := docs; stdout := stdout w;
     clock_reads := S (clock_reads w); uuids_drawn := S (uuids_drawn w);
     completions_made := completions_made w |}.

(** The world with another collection. *)
Definition with_sessions (w : World) (docs : list TestSessionDB.t) : World :=
  {| test_sessions := docs; stdout := stdout w;
     clock_reads := clock_reads w; uuids_drawn := uuids_drawn w;
     completions_made := completions_made w |}.

(** ** [app/services/llm_service.py], continued *)

(** The prompt of [generate_chat_suggestions]. *)
Definition suggestions_prompt (topic : string) : string :=
  "Based on the topic " +:+ quoted topic
  +:+ ", suggest 3 brief follow-up actions a user might want to take."
  +:+ nl +:+ nl
  +:+ "Format as JSON array of strings. Keep each suggestion under 10 words."
  +:+ nl +:+ nl
  +:+ "Example: [" +:+ quoted "Take a quiz on this topic" +:+ ", "
  +:+ quoted "Learn advanced concepts" +:+ ", "
  +:+ quoted "Get practice problems" +:+ "]"
  +:+ nl +:+ nl
  +:+ "Respond with ONLY the JSON array.".

(** The suggestions returned when anything fails. *)
Definition fallback_suggestions : json :=
  JList [JStr "Generate a quiz on this topic";
         JStr "Ask me more questions";
         JStr "Explain in simpler terms"].

(** [v[:3]]: the first three items of a list, the first three characters
    of a [str]; no other decoded value can be sliced, and the subscription
    raises [TypeError]. For a [dict], where the slice is looked up as a
    key, the exception is a [KeyError] from Python 3.12 on: the statements
    below do not depend on which of the two it is. *)
Definition slice3 (v : json) : result json :=
  match v with
  | JList l => Ok (JList (take 3 l))
  | JStr s => Ok (JStr (str_take 3 s))
  | _ => Raise TypeError
  end.

(** [generate_chat_suggestions]. *)
Definition generate_chat_suggestions (topic : string) : M json :=
  try_except
    (response ← chat_completion [("user", suggestions_prompt topic)] None
                  (Float.of_ratio false 7 10) 200;
     match response with
     | None => raise AttributeError
     | Some response =>
         env ← ask;
         match json_loads env (strip_fences response) with
         | None => raise JSONDecodeError
         | Some suggestions => lift (slice3 suggestions)
         end
     end)
    (fun e =>
       print (print_exc "⚠️ Suggestion generation failed: " e);;
       mret fallback_suggestions).

(** The request sent by [generate_chat_suggestions]. *)
Definition suggestions_request (env : Env) (topic : string) : ChatRequest.t :=
  ChatRequest.mk (default_model (settings env))
    [("user", suggestions_prompt topic)] (Float.of_ratio false 7 10) 200.

(** What a draft that was accepted holds, and how its explanation is read:
    ["explanation"] left out gives "", [null] gives no explanation. *)
Definition explanation_of (items : list (string * json)) : option (option string) :=
  match dict_get "explanation" items with
  | None => Some (Some "")
  | Some v => as_optional_str v
  end.

(** The session written by [generate_test]. *)
Definition generated_session (env : Env) (w1 : World) (request : MCQGenerationRequest.t)
    (questions : list MCQuestion.t) : TestSessionDB.t :=
  new_session env w1 (MCQGenerationRequest.topic request) questions
    (MCQGenerationRequest.difficulty request) (test_time_limit_minutes (settings env)).

(** The count that [generate_test] asks for. *)
Definition clamped_count (env : Env) (request : MCQGenerationRequest.t) : Z :=
  Z.min (MCQGenerationRequest.num_questions request) (max_mcq_count (settings env)).

(** ** [app/views/test_routes.py] *)

(** The text of an exception, where it is modelled: [str(e)] is the
    message for a [ValueError] and for an [Exception] built from one. *)
Definition exn_str (e : exn) : option string :=
  match e with
  | ValueError msg => Some msg
  | Exception msg => Some msg
  | _ => None
  end.

(** The [detail] of an [HTTPException]: a text, or [f"{prefix}{str(e)}"]
    for an exception whose text is not modelled. *)
Inductive http_detail :=
| detail_text (s : string)
| detail_exc (prefix : string) (e : exn).

Definition detail_of (prefix : string) (e : exn) : http_detail :=
  match exn_str e with
  | Some msg => detail_text (prefix +:+ msg)
  | None => detail_exc prefix e
  end.

(** What a route hands back to the framework: a body with the status code
    of the route, or an [HTTPException]. *)
Inductive http (A : Type) :=
| Respond (status_code : Z) (body : A)
| HTTPException (status_code : Z) (detail : http_detail).
Arguments Respond {A} status_code body.
Arguments HTTPException {A} status_code detail.

(** [except ValueError]: the exceptions that are instances of it. The
    [ValidationError] of pydantic and [JSONDecodeError] derive from it. *)
Definition is_ValueError (e : exn) : bool :=
  match e with
  | ValueError _ | ValidationError _ | JSONDecodeError => true
  | _ => false
  end.

Module TestStatusInfo.
(** The dictionary returned by the route [get_test_status]. *)
Record t := mk {
  test_id : string;
  topic : string;
  status : string;
  total_questions : Z;
  time_limit_minutes : Z;
  created_at : datetime
}.
End TestStatusInfo.

Module test_routes.

(** [generate_test]. *)
Definition generate_test (request : MCQGenerationRequest.t)
    : M (http MCQGenerationResponse.t) :=
  try_except
    (response ← generate_test request; mret (Respond 201 response))
    (fun e => mret (HTTPException 500 (detail_of "Failed to generate test: " e))).

(** [submit_test]. *)
Definition submit_test (submission : TestSubmission.t) : M (http TestResult.t) :=
  try_except
    (result ← submit_test submission; mret (Respond 200 result))
    (fun e =>
       if is_ValueError e then mret (HTTPException 400 (detail_of "" e))
       else mret (HTTPException 500 (detail_of "Failed to submit test: " e))).

(** [get_test]. *)
Definition get_test (test_id : string) : M (http MCQGenerationResponse.t) :=
  try_except
    (test ← get_test_details test_id;
     match test with
     | None => mret (HTTPException 404 (detail_text ("Test not found: " +:+ test_id)))
     | Some test => mret (Respond 200 test)
     end)
    (fun e => mret (HTTPException 500 (detail_of "Failed to retrieve test: " e))).

(** [get_test_status]; it calls the [get_test_result] of the controller. *)
Definition get_test_status (test_id : string) : M (http TestStatusInfo.t) :=
  try_except
    (test_details ← get_test_details test_id;
     match test_details with
     | None => mret (HTTPException 404 (detail_text ("Test not found: " +:+ test_id)))
     | Some test_details =>
         result ← get_test_result test_id;
         mret (Respond 200
                 (TestStatusInfo.mk test_id
                    (MCQGenerationResponse.topic test_details)
                    (match result with Some _ => "completed" | None => "in_progress" end)
                    (MCQGenerationResponse.total_questions test_details)
                    (MCQGenerationResponse.time_limit_minutes test_details)
                    (MCQGenerationResponse.created_at test_details)))
     end)
    (fun e => mret (HTTPException 500 (detail_of "Failed to get test status: " e))).

(** [get_test_result]. *)
Definition get_test_result (test_id : string) : M (http TestResult.t) :=
  try_except
    (result ← get_test_result test_id;
     match result with
     | None =>
         mret (HTTPException 404
                 (detail_text ("Result not found for test: " +:+ test_id
                               +:+ ". Test may not be submitted yet.")))
     | Some result => mret (Respond 200 result)
     end)
    (fun e => mret (HTTPException 500 (detail_of "Failed to retrieve result: " e))).

End test_routes.

(** ** The chat: models ([app/models/schemas.py]) *)

Module ChatMessage.
Record t := mk {
  role : string;
  content : string;
  timestamp : datetime
}.
#[global] Instance eq_dec : EqDecision t.
Proof. solve_decision. Defined.

(** [ChatMessage(role=..., content=..., timestamp=...)] with a content
    that may be [None]: [content] is declared [str]. *)
Definition new (role : string) (content : option string) (timestamp : datetime)
    : result t :=
  match content with
  | Some content => Ok (mk role content timestamp)
  | None => Raise (ValidationError "ChatMessage")
  end.
End ChatMessage.

Module schemas.
Module ChatRequest.
(** The request of the chat endpoint. *)
Record t := mk {
  message : string;
  session_id : option string
}.
End ChatRequest.
End schemas.

Module ChatResponse.
Record t := mk {
  message : string;
  session_id : string;
  suggestions : option (list string)
}.

(** [ChatResponse(message=..., session_id=..., suggestions=...)] with
    suggestions that come from a decoded text: the field is declared
    [Optional[List[str]]], which admits [None] and a list of [str]. *)
Definition new (message session_id : string) (suggestions : json) : result t :=
  match suggestions with
  | JNull => Ok (mk message session_id None)
  | JList l =>
      match mapM as_str l with
      | Some items => Ok (mk message session_id (Some items))
      | None => Raise (ValidationError "ChatResponse")
      end
  | _ => Raise (ValidationError "ChatResponse")
  end.
End ChatResponse.

Module ChatSessionDB.
Record t := mk {
  session_id : string;
  messages : list ChatMessage.t;
  created_at : datetime;
  updated_at : datetime
}.
#[global] Instance eq_dec : EqDecision t.
Proof. solve_decision. Defined.
End ChatSessionDB.

(** ** The world of the chat

    The collection [chat_sessions] beside the world of the tests, and the
    monad of the coroutines that use it. *)

Record ChatWorld := {
  world : World;
  chat_sessions : list ChatSessionDB.t
}.

Definition C (A : Type) : Type := Env -> ChatWorld -> ChatWorld * result A.

#[global] Instance C_ret : MRet C := fun A a _ cw => (cw, Ok a).

#[global] Instance C_bind : MBind C := fun A B f m env cw =>
  match m env cw with
  | (cw', Ok a) => f a env cw'
  | (cw', Raise e) => (cw', Raise e)
  end.

(** A coroutine that does not touch the chats. *)
Definition in_world {A} (m : M A) : C A := fun env cw =>
  match m env (world cw) with
  | (w', r) => ({| world := w'; chat_sessions := chat_sessions cw |}, r)
  end.

(** [try: body except Exception as e: handler(e)]. *)
Definition try_except_chat {A} (body : C A) (handler : exn -> C A) : C A :=
  fun env cw =>
    match body env cw with
    | (cw', Ok a) => (cw', Ok a)
    | (cw', Raise e) => handler e env cw'
    end.

Definition get_chat_sessions : C (list ChatSessionDB.t) := fun _ cw =>
  (cw, Ok (chat_sessions cw)).

Definition put_chat_sessions (docs : list ChatSessionDB.t) : C unit := fun _ cw =>
  ({| world := world cw; chat_sessions := docs |}, Ok tt).

(** ** [app/services/db_service.py]: the chat sessions *)

(** [find_one({"session_id": session_id})]. *)
Definition chat_find_one (session_id : string) (docs : list ChatSessionDB.t)
    : option ChatSessionDB.t :=
  List.find (fun d => bool_decide (ChatSessionDB.session_id d = session_id)) docs.

(** [update_one({"session_id": session_id}, ...)]. *)
Fixpoint chat_update_one (session_id : string)
    (update : ChatSessionDB.t -> ChatSessionDB.t)
    (docs : list ChatSessionDB.t) : list ChatSessionDB.t :=
  match docs with
  | [] => []
  | d :: rest =>
      if bool_decide (ChatSessionDB.session_id d = session_id) then update d :: rest
      else d :: chat_update_one session_id update rest
  end.

(** [create_chat_session]. *)
Definition create_chat_session (initial_message : option ChatMessage.t) : C string :=
  uuid ← in_world uuid4;
  let session_id := generate_id "chat_" uuid in
  created_at ← in_world utcnow;
  updated_at ← in_world utcnow;
  let session :=
    ChatSessionDB.mk session_id
      (match initial_message with Some m => [m] | None => [] end)
      created_at updated_at in
  docs ← get_chat_sessions;
  put_chat_sessions (docs ++ [session]);;
  mret session_id.

(** [get_chat_session]. The documents are those this code writes, with
    fields of the declared types, and [ChatSessionDB] has no validator of
    its own: the model built from a document found is the document. *)
Definition get_chat_session (session_id : string) : C (option ChatSessionDB.t) :=
  docs ← get_chat_sessions;
  mret (chat_find_one session_id docs).

(** The [$push] and the [$set] of [add_message_to_session]. *)
Definition push_message (message : ChatMessage.t) (now : datetime)
    (d : ChatSessionDB.t) : ChatSessionDB.t :=
  ChatSessionDB.mk (ChatSessionDB.session_id d)
    (ChatSessionDB.messages d ++ [message])
    (ChatSessionDB.created_at d) now.

(** [add_message_to_session]; the value returned is [modified_count > 0]. *)
Definition add_message_to_session (session_id : string) (message : ChatMessage.t)
    : C bool :=
  now ← in_world utcnow;
  docs ← get_chat_sessions;
  let docs' := chat_update_one session_id (push_message message now) docs in
  put_chat_sessions docs';;
  mret (negb (bool_decide (docs' = docs))).

(** [get_session_messages]. *)
Definition get_session_messages (session_id : string) : C (list ChatMessage.t) :=
  session ← get_chat_session session_id;
  match session with
  | Some session => mret (ChatSessionDB.messages session)
  | None => mret []
  end.

(** ** [app/controllers/chat_controller.py] *)

(** [s.lower()] on the first 256 code points. *)
Definition ascii_lower (c : ascii) : ascii :=
  let n := nat_of_ascii c in
  if (((65 <=? n) && (n <=? 90))
      || ((192 <=? n) && (n <=? 222) && negb (n =? 215)))%nat
  then ascii_of_nat (n + 32) else c.

Fixpoint lower (s : string) : string :=
  match s with
  | EmptyString => EmptyString
  | String c rest => String (ascii_lower c) (lower rest)
  end.

(** The content of the system message of [_build_llm_messages]. *)
Definition chat_system_prompt : string :=
  String.concat nl [
    "You are MCQ Genie, a helpful AI assistant specialized in education and learning.";
    "";
    "Your capabilities:";
    "1. Answer questions on any topic clearly and accurately";
    "2. Explain complex concepts in simple terms";
    "3. Help users learn through conversation";
    "4. Generate quiz questions when requested";
    "";
    "Guidelines:";
    "- Be conversational and friendly";
    "- Provide clear, concise explanations";
    "- Use examples when helpful";
    "- If user wants to test their knowledge, suggest generating a quiz";
    "- Stay on topic and educational";
    "";
    "Remember: Your goal is to help users learn effectively."
  ].

(** [_build_llm_messages]. *)
Definition _build_llm_messages (history : list ChatMessage.t) : list (string * string) :=
  ("system", chat_system_prompt)
  :: map (fun msg => (ChatMessage.role msg, ChatMessage.content msg)) history.

(** [_default_suggestions]. *)
Definition _default_suggestions : json :=
  JList [JStr "Generate a quiz on this topic";
         JStr "Explain in more detail";
         JStr "Give me some examples"].

Definition suggestion_keywords : list string :=
  ["explain"; "what is"; "how does"; "tell me about"; "learn"; "understand"].

(** [_generate_suggestions]. *)
Definition _generate_suggestions (user_message assistant_response : string) : M json :=
  if existsb (fun keyword => str_contains keyword (lower user_message))
       suggestion_keywords
  then
    try_except (generate_chat_suggestions user_message)
      (fun e =>
         print (print_exc "⚠️ Could not generate suggestions: " e);;
         mret _default_suggestions)
  else mret _default_suggestions.

(** The part of [process_chat_message] that follows the choice of the
    session: the two messages, the completion and the response. *)
Definition converse (request : schemas.ChatRequest.t) (session_id : string)
    : C ChatResponse.t :=
  now ← in_world utcnow;
  let user_message :=
    ChatMessage.mk "user" (schemas.ChatRequest.message request) now in
  add_message_to_session session_id user_message;;
  history ← get_session_messages session_id;
  let llm_messages := _build_llm_messages history in
  assistant_content ← in_world (chat_completion llm_messages None
                                  (Float.of_ratio false 7 10) 1000);
  now ← in_world utcnow;
  assistant_message ← in_world (lift (ChatMessage.new "assistant" assistant_content now));
  add_message_to_session session_id assistant_message;;
  suggestions ← in_world (_generate_suggestions (schemas.ChatRequest.message request)
                            (ChatMessage.content assistant_message));
  in_world (lift (ChatResponse.new (ChatMessage.content assistant_message)
                    session_id suggestions)).

(** [process_chat_message]. *)
Definition process_chat_message (request : schemas.ChatRequest.t) : C ChatResponse.t :=
  session_id ← match schemas.ChatRequest.session_id request with
               | Some session_id =>
                   if bool_decide (session_id = "") then create_chat_session None
                   else mret session_id
               | None => create_chat_session None
               end;
  session ← get_chat_session session_id;
  session_id ← match session with
               | Some _ => mret session_id
               | None => create_chat_session None
               end;
  converse request session_id.

(** [get_chat_history]. *)
Definition get_chat_history (session_id : string) : C (list ChatMessage.t) :=
  get_session_messages session_id.

(** [create_new_session]. *)
Definition create_new_session : C string :=
  create_chat_session None.

(** ** [app/views/chat_routes.py] *)

Module SessionCreated.
(** The dictionary returned by the route [create_chat_session]. *)
Record t := mk { session_id : string; message : string }.
End SessionCreated.

Module SessionExists.
(** The dictionary returned by the route [check_session_exists]. *)
Record t := mk { session_id : string; exists_ : bool; message_count : Z }.
End SessionExists.

Module chat_routes.

(** [send_message]. *)
Definition send_message (request : schemas.ChatRequest.t) : C (http ChatResponse.t) :=
  try_except_chat
    (response ← process_chat_message request; mret (Respond 200 response))
    (fun e => mret (HTTPException 500 (detail_of "Failed to process message: " e))).

(** [check_session_exists]; it calls the [get_chat_history] of the
    controller. *)
Definition check_session_exists (session_id : string) : C (http SessionExists.t) :=
  try_except_chat
    (messages ← get_chat_history session_id;
     mret (Respond 200
             (SessionExists.mk session_id (0 <? Z.of_nat (length messages))
                (Z.of_nat (length messages)))))
    (fun e => mret (Respond 200 (SessionExists.mk session_id false 0))).

(** [get_chat_history]. *)
Definition get_chat_history (session_id : string) : C (http (list ChatMessage.t)) :=
  try_except_chat
    (messages ← get_chat_history session_id;
     match messages with
     | [] => mret (HTTPException 404 (detail_text ("Session not found: " +:+ session_id)))
     | _ :: _ => mret (Respond 200 messages)
     end)
    (fun e => mret (HTTPException 500 (detail_of "Failed to retrieve history: " e))).

(** [create_chat_session]. *)
Definition create_chat_session : C (http SessionCreated.t) :=
  try_except_chat
    (session_id ← create_new_session;
     mret (Respond 201 (SessionCreated.mk session_id "New chat session created")))
    (fun e => mret (HTTPException 500 (detail_of "Failed to create session: " e))).

End chat_routes.

(** ** Notions used in the statements about the chat *)

(** The messages stored under an id. *)
Definition stored_messages (cw : ChatWorld) (session_id : string) : list ChatMessage.t :=
  match chat_find_one session_id (chat_sessions cw) with
  | Some s => ChatSessionDB.messages s
  | None => []
  end.

(** The request sent for a turn of the chat. *)
Definition chat_request (env : Env) (history : list ChatMessage.t) : ChatRequest.t :=
  ChatRequest.mk (default_model (settings env)) (_build_llm_messages history)
    (Float.of_ratio false 7 10) 1000.

(** A world of the chat with nothing stored but the given chats. *)
Definition chats_with (docs : list ChatSessionDB.t) : ChatWorld :=
  {| world := empty_world; chat_sessions := docs |}.

(** Suggestions as [generate_chat_suggestions] can return them: at most
    three items, or at most three characters. *)
Definition at_most_three (v : json) : bool :=
  match v with
  | JList l => (length l <=? 3)%nat
  | JStr s => (String.length s <=? 3)%nat
  | _ => false
  end.

(** Whether a message asks for suggestions of its own. *)
Definition mentions_keyword (user_message : string) : bool :=
  existsb (fun keyword => str_contains keyword (lower user_message)) suggestion_keywords.

(** The message stored for the user and for the assistant. *)
Definition user_message_at (request : schemas.ChatRequest.t) (now : datetime)
    : ChatMessage.t :=
  ChatMessage.mk "user" (schemas.ChatRequest.message request) now.

Definition assistant_message_at (content : string) (now : datetime) : ChatMessage.t :=
  ChatMessage.mk "assistant" content now.

(** What a turn of the chat leaves, by the answer of the endpoint:
    [history] is what the session holds once the message of the user is
    stored, the readings of the clock start at [n], and [found] and
    [outcome] are the session read afterwards and the outcome of the
    call. *)
Definition turn_outcome (env : Env) (session_id : string) (created_at : datetime)
    (history : list ChatMessage.t) (n : nat)
    (answer : result (option string))
    (found : option ChatSessionDB.t) (outcome : result ChatResponse.t) : Prop :=
  match answer with
  | Raise e =>
      outcome = Raise (Exception_of "Failed to get LLM response: " e) ∧
      found = Some (ChatSessionDB.mk session_id history created_at (utcnow_at env (S n)))
  | Ok None =>
      outcome = Raise (ValidationError "ChatMessage") ∧
      found = Some (ChatSessionDB.mk session_id history created_at (utcnow_at env (S n)))
  | Ok (Some content) =>
      found = Some (ChatSessionDB.mk session_id
                      (history ++ [assistant_message_at content (utcnow_at env (S (S n)))])
                      created_at (utcnow_at env (S (S (S n))))) ∧
      (outcome = Raise (ValidationError "ChatResponse") ∨
       exists items,
         outcome = Ok (ChatResponse.mk content session_id (Some items)) ∧
         (length items <= 3)%nat)
  end.

(** * Properties *)

(** ** Scoring *)

Lemma correct_in_app (l1 l2 : list QuestionResult.t) :
  correct_in (l1 ++ l2) = correct_in l1 + correct_in l2.
Proof.
  unfold correct_in. rewrite List.filter_app, length_app. lia.
Qed.

Lemma correct_in_bounds (l : list QuestionResult.t) :
  0 <= correct_in l <= Z.of_nat (length l).
Proof.
  unfold correct_in. pose proof (List.filter_length_le QuestionResult.is_correct l). lia.
Qed.

(** The loop appends the results of the questions in their order and adds
    the number of correct ones to the counter. *)
Lemma evaluate_loop_eq (m : gmap string string) (qs : list MCQuestion.t)
    (acc : list QuestionResult.t) (c : Z) :
  evaluate_loop m qs acc c =
  (acc ++ map (evaluate_question m) qs,
   c + correct_in (map (evaluate_question m) qs)).
Proof.
  revert acc c. induction qs as [|q qs IH]; intros acc c; simpl.
  - rewrite app_nil_r. unfold correct_in. simpl. f_equal. lia.
  - rewrite IH. rewrite <- app_assoc. simpl. f_equal.
    change (evaluate_question m q :: map (evaluate_question m) qs)
      with ([evaluate_question m q] ++ map (evaluate_question m) qs).
    rewrite correct_in_app. unfold correct_in at 2. simpl.
    case_bool_decide; simpl; lia.
Qed.

Lemma evaluate_at_eq (qs : list MCQuestion.t) (answers : list AnswerSubmission.t)
    (topic : string) (now : datetime) :
  let rs := map (evaluate_question (answer_map_of answers)) qs in
  evaluate_at qs answers topic now =
  TestResult.mk (reported_test_id qs) topic (Z.of_nat (length qs))
    (correct_in rs) (Z.of_nat (length qs) - correct_in rs)
    (calculate_score_percentage (correct_in rs) (Z.of_nat (length qs)))
    rs now.
Proof.
  unfold evaluate_at. rewrite evaluate_loop_eq. simpl. reflexivity.
Qed.

Lemma _evaluate_test_run (qs : list MCQuestion.t) (answers : list AnswerSubmission.t)
    (topic : string) (env : Env) (w : World) :
  _evaluate_test qs answers topic env w =
  (tick w, Ok (evaluate_at qs answers topic (utcnow_at env (clock_reads w)))).
Proof. reflexivity. Qed.

(** Folding the same answers over two maps that agree at [k] gives two
    maps that agree at [k]. *)
Lemma fold_answers_lookup_congr (k : string) (l : list AnswerSubmission.t) :
  forall m m' : gmap string string,
    m !! k = m' !! k ->
    foldl record_answer m l !! k = foldl record_answer m' l !! k.
Proof.
  induction l as [|a l IH]; intros m m' Hk; simpl; [exact Hk|].
  apply IH. unfold record_answer.
  destruct (decide (AnswerSubmission.question_id a = k)) as [->|Hne].
  - by rewrite !lookup_insert_eq.
  - by rewrite !lookup_insert_ne.
Qed.

(** Answers to other questions leave the entry of [k] as it was. *)
Lemma fold_answers_lookup_other (k : string) (l : list AnswerSubmission.t) :
  forall m : gmap string string,
    k ∉ answered_ids l ->
    foldl record_answer m l !! k = m !! k.
Proof.
  induction l as [|a l IH]; intros m Hk; simpl; [reflexivity|].
  unfold answered_ids in Hk. simpl in Hk.
  apply not_elem_of_cons in Hk as [Hne Hk].
  rewrite IH by exact Hk. unfold record_answer.
  by rewrite lookup_insert_ne.
Qed.

Lemma answer_map_of_unanswered (k : string) (answers : list AnswerSubmission.t) :
  k ∉ answered_ids answers -> answer_map_of answers !! k = None.
Proof.
  intros Hk. unfold answer_map_of.
  change (foldl record_answer ∅ answers !! k = None).
  rewrite fold_answers_lookup_other by exact Hk. apply lookup_empty.
Qed.

Lemma answer_map_of_stray (k : string) (l1 l2 : list AnswerSubmission.t)
    (a : AnswerSubmission.t) :
  AnswerSubmission.question_id a ≠ k ->
  answer_map_of (l1 ++ a :: l2) !! k = answer_map_of (l1 ++ l2) !! k.
Proof.
  intros Hne. unfold answer_map_of.
  change (foldl record_answer ∅ (l1 ++ a :: l2) !! k =
          foldl record_answer ∅ (l1 ++ l2) !! k).
  rewrite !foldl_app. simpl. apply fold_answers_lookup_congr.
  unfold record_answer. by rewrite lookup_insert_ne.
Qed.

(** A question is evaluated from the entry of its own id alone. *)
Lemma evaluate_question_ext (m m' : gmap string string) (q : MCQuestion.t) :
  m !! MCQuestion.question_id q = m' !! MCQuestion.question_id q ->
  evaluate_question m q = evaluate_question m' q.
Proof. intros H. unfold evaluate_question. by rewrite H. Qed.

Lemma evaluate_questions_ext (m m' : gmap string string) (qs : list MCQuestion.t) :
  (forall k, k ∈ question_ids qs -> m !! k = m' !! k) ->
  map (evaluate_question m) qs = map (evaluate_question m') qs.
Proof.
  intros H. induction qs as [|q qs IH]; simpl; [reflexivity|].
  f_equal.
  - apply evaluate_question_ext, H. unfold question_ids. simpl. apply list_elem_of_here.
  - apply IH. intros k Hk. apply H. unfold question_ids. simpl.
    by apply list_elem_of_further.
Qed.

Lemma evaluate_at_ext (qs : list MCQuestion.t) (answers answers' : list AnswerSubmission.t)
    (topic : string) (now : datetime) :
  (forall k, k ∈ question_ids qs ->
             answer_map_of answers !! k = answer_map_of answers' !! k) ->
  evaluate_at qs answers topic now = evaluate_at qs answers' topic now.
Proof.
  intros H. rewrite !evaluate_at_eq. cbv zeta.
  by rewrite (evaluate_questions_ext _ _ qs H).
Qed.

(** The result of a question without a submitted answer. *)
Lemma evaluate_question_unanswered (m : gmap string string) (q : MCQuestion.t) :
  m !! MCQuestion.question_id q = None ->
  MCQuestion.valid q = true ->
  QuestionResult.selected_answer (evaluate_question m q) = "Not answered" ∧
  QuestionResult.is_correct (evaluate_question m q) = false.
Proof.
  intros Hm Hv. unfold evaluate_question. rewrite Hm. simpl. split; [reflexivity|].
  apply bool_decide_eq_false. intros Heq.
  unfold MCQuestion.valid in Hv. apply andb_true_iff in Hv as [_ Hv].
  apply bool_decide_eq_true in Hv. rewrite <- Heq in Hv.
  revert Hv. by apply (bool_decide_eq_false_1 ("" ∈ option_ids)).
Qed.

Lemma str_split_head (s : string) :
  exists pieces, str_split "_" s = before_underscore s :: pieces.
Proof.
  induction s as [|c s [pieces IH]]; simpl.
  - by exists [].
  - case_bool_decide.
    + by eexists.
    + rewrite IH. by eexists.
Qed.

Lemma reported_test_id_cons (q : MCQuestion.t) (qs : list MCQuestion.t) :
  reported_test_id (q :: qs) = before_underscore (MCQuestion.question_id q).
Proof.
  simpl. destruct (str_split_head (MCQuestion.question_id q)) as [pieces ->].
  reflexivity.
Qed.

(** No id built by [generate_id("test_")] is what [split("_")[0]] keeps of
    a string: it has an underscore in fifth position. *)
Lemma before_underscore_not_test_id (s uuid : string) :
  before_underscore s ≠ generate_id "test_" uuid.
Proof.
  unfold generate_id. simpl.
  destruct s as [|c1 [|c2 [|c3 [|c4 [|c5 s]]]]]; simpl;
    repeat case_bool_decide; try discriminate.
  intros Heq. injection Heq as _ _ _ _ H5 _. congruence.
Qed.

(** C10. For every questions/answers input, [_evaluate_test] returns a
    [TestResult] in which [total_questions] is the number of questions and
    the number of results, [correct_answers + wrong_answers] is
    [total_questions], and the result at each index carries the
    [question_id], [question_text], [correct_answer] and [explanation] of
    the question at that index. *)
Theorem evaluate_result_invariants (qs : list MCQuestion.t)
    (answers : list AnswerSubmission.t) (topic : string) (env : Env) (w : World) :
  exists r w',
    _evaluate_test qs answers topic env w = (w', Ok r) ∧
    TestResult.total_questions r = Z.of_nat (length qs) ∧
    length (TestResult.results r) = length qs ∧
    TestResult.correct_answers r + TestResult.wrong_answers r
      = TestResult.total_questions r ∧
    0 <= TestResult.correct_answers r <= TestResult.total_questions r ∧
    forall (i : nat) (q : MCQuestion.t),
      qs !! i = Some q ->
      exists qr,
        TestResult.results r !! i = Some qr ∧
        QuestionResult.question_id qr = MCQuestion.question_id q ∧
        QuestionResult.question_text qr = MCQuestion.question_text q ∧
        QuestionResult.correct_answer qr = MCQuestion.correct_answer q ∧
        QuestionResult.explanation qr = MCQuestion.explanation q.
Proof.
  rewrite _evaluate_test_run, evaluate_at_eq. cbv zeta.
  eexists _, _. split; [reflexivity|]. simpl.
  pose proof (correct_in_bounds (map (evaluate_question (answer_map_of answers)) qs)) as Hb.
  rewrite length_map in Hb.
  repeat split; try lia.
  - by rewrite length_map.
  - intros i q Hq. exists (evaluate_question (answer_map_of answers) q).
    split; [|by repeat split].
    by rewrite list_lookup_fmap, Hq.
Qed.

(** C3. An answer whose [question_id] does not occur among the questions
    has no effect on the result of [_evaluate_test], wherever it stands in
    the submission; and a question (as the model validates it) without a
    submitted answer yields a result whose [selected_answer] is the text
    "Not answered" and whose [is_correct] is false. *)
Theorem unmatched_answers_and_questions
    (qs : list MCQuestion.t) (l1 l2 : list AnswerSubmission.t)
    (stray : AnswerSubmission.t) (answers : list AnswerSubmission.t)
    (i : nat) (q : MCQuestion.t) (topic : string) (env : Env) (w : World) :
  AnswerSubmission.question_id stray ∉ question_ids qs ->
  qs !! i = Some q ->
  MCQuestion.valid q = true ->
  MCQuestion.question_id q ∉ answered_ids answers ->
  _evaluate_test qs (l1 ++ stray :: l2) topic env w
    = _evaluate_test qs (l1 ++ l2) topic env w
  ∧ exists r w' qr,
      _evaluate_test qs answers topic env w = (w', Ok r) ∧
      TestResult.results r !! i = Some qr ∧
      QuestionResult.question_id qr = MCQuestion.question_id q ∧
      QuestionResult.selected_answer qr = "Not answered" ∧
      QuestionResult.is_correct qr = false.
Proof.
  intros Hstray Hq Hvalid Hunanswered. split.
  - rewrite !_evaluate_test_run. do 2 f_equal.
    apply evaluate_at_ext. intros k Hk. apply answer_map_of_stray.
    intros Heq. apply Hstray. by rewrite Heq.
  - rewrite _evaluate_test_run, evaluate_at_eq. cbv zeta.
    eexists _, _, (evaluate_question (answer_map_of answers) q).
    split; [reflexivity|]. simpl.
    split; [by rewrite list_lookup_fmap, Hq|].
    split; [reflexivity|].
    apply evaluate_question_unanswered; [|exact Hvalid].
    by apply answer_map_of_unanswered.
Qed.

Lemma unmatched_answers_and_questions_witness :
  let answers := [AnswerSubmission.mk "q_1" "B"] in
  let stray := AnswerSubmission.mk "q_9" "A" in
  _evaluate_test sample_questions ([] ++ stray :: answers) "Photosynthesis"
      (env_answering (Ok None)) empty_world
    = _evaluate_test sample_questions ([] ++ answers) "Photosynthesis"
        (env_answering (Ok None)) empty_world
  ∧ exists r w' qr,
      _evaluate_test sample_questions answers "Photosynthesis"
        (env_answering (Ok None)) empty_world = (w', Ok r) ∧
      TestResult.results r !! 2%nat = Some qr ∧
      QuestionResult.question_id qr = "q_3" ∧
      QuestionResult.selected_answer qr = "Not answered" ∧
      QuestionResult.is_correct qr = false.
Proof.
  intros answers stray.
  apply (unmatched_answers_and_questions sample_questions [] answers stray answers
           2%nat (MCQuestion.mk "q_3" "Which gas do plants absorb?"
                    (sample_options "Oxygen" "Nitrogen" "Carbon dioxide" "Helium")
                    "C" None MEDIUM)
           "Photosynthesis" (env_answering (Ok None)) empty_world).
  - vm_compute. intros H. repeat (inversion H as [|? ? ? H']; subst; clear H; rename H' into H).
  - reflexivity.
  - reflexivity.
  - vm_compute. intros H. repeat (inversion H as [|? ? ? H']; subst; clear H; rename H' into H).
Defined.

(** C5, as stated, fails: two runs of [_evaluate_test] on the same
    questions and answers, one after the other, return results that differ
    in [completed_at], the reading of the clock taken by each run. *)
Lemma evaluate_twice_differs :
  let env := env_answering (Ok None) in
  let answers := [AnswerSubmission.mk "q_1" "B"] in
  let '(w1, first) := _evaluate_test sample_questions answers "Photosynthesis" env empty_world in
  let '(_, second) := _evaluate_test sample_questions answers "Photosynthesis" env w1 in
  first ≠ second.
Proof. vm_compute. discriminate. Qed.

(** C5, amended. Two runs of [_evaluate_test] on identical questions,
    answers and topic, in any two environments and worlds, both return a
    result, and the two results agree on every field other than
    [completed_at], the results included, in the order of the questions;
    [completed_at] is the clock reading of each run. A run reads the clock
    once and leaves the collection and the standard output as they were. *)
Theorem evaluate_deterministic_up_to_clock (qs : list MCQuestion.t)
    (answers : list AnswerSubmission.t) (topic : string)
    (env1 env2 : Env) (w1 w2 : World) :
  exists r1 r2,
    _evaluate_test qs answers topic env1 w1 = (tick w1, Ok r1) ∧
    _evaluate_test qs answers topic env2 w2 = (tick w2, Ok r2) ∧
    TestResult.test_id r1 = TestResult.test_id r2 ∧
    TestResult.topic r1 = TestResult.topic r2 ∧
    TestResult.total_questions r1 = TestResult.total_questions r2 ∧
    TestResult.correct_answers r1 = TestResult.correct_answers r2 ∧
    TestResult.wrong_answers r1 = TestResult.wrong_answers r2 ∧
    TestResult.score_percentage r1 = TestResult.score_percentage r2 ∧
    TestResult.results r1 = TestResult.results r2 ∧
    TestResult.completed_at r1 = utcnow_at env1 (clock_reads w1) ∧
    TestResult.completed_at r2 = utcnow_at env2 (clock_reads w2).
Proof.
  rewrite !_evaluate_test_run, !evaluate_at_eq. cbv zeta.
  eexists _, _. split; [reflexivity|]. split; [reflexivity|]. simpl.
  by repeat split.
Qed.

(** ** The score percentage *)

(** C4, as stated, fails: for 23 correct of 160 the code returns 14.37,
    while [round(100 * 23 / 160, 2)] is 14.38, on the exact quotient 14.375
    with either rule for ties and as a Python expression. *)
Lemma score_23_of_160 :
  calculate_score_percentage 23 160 = Float.of_hundredths 1437 ∧
  exact_score_even 23 160 = Float.of_hundredths 1438 ∧
  exact_score_up 23 160 = Float.of_hundredths 1438 ∧
  formula_score 23 160 = Float.of_hundredths 1438 ∧
  Float.of_hundredths 1437 ≠ Float.of_hundredths 1438.
Proof. vm_compute. repeat split. discriminate. Qed.

Lemma scores_agree_below_160 :
  forallb scores_agree_for (seq 1 159) = true.
Proof. vm_compute. reflexivity. Qed.

Lemma score_agrees_below_160 (correct total : Z) :
  0 <= correct <= total -> 0 < total < 160 ->
  score_agrees correct total = true.
Proof.
  intros Hc Ht.
  pose proof scores_agree_below_160 as H.
  rewrite forallb_forall in H.
  specialize (H (Z.to_nat total)).
  unfold scores_agree_for in H. rewrite forallb_forall in H.
  specialize (H ltac:(apply in_seq; lia) (Z.to_nat correct) ltac:(apply in_seq; lia)).
  by rewrite !Z2Nat.id in H by lia.
Qed.

(** C4, amended. With no question the score is 0.0, whatever the count of
    correct answers, and nothing is divided. For [0 <= correct <= total]
    and [0 < total < 160] (the configured maximum is 50 questions) the
    score is [100 * correct / total] brought to two decimals with ties to
    the even hundredth, and it is what [round(100 * correct / total, 2)]
    evaluates to. In particular 0 of 5 gives 0.0, 3 of 5 gives 60.0 and 2 of
    3 gives 66.67. From 160 questions on the score may be one hundredth
    away from the formula. *)
Theorem score_percentage_small_totals (correct total : Z) :
  0 <= correct <= total -> total < 160 ->
  (total = 0 -> calculate_score_percentage correct total = Float.zero) ∧
  (0 < total ->
     calculate_score_percentage correct total = exact_score_even correct total ∧
     calculate_score_percentage correct total = formula_score correct total) ∧
  (forall c, calculate_score_percentage c 0 = Float.zero) ∧
  calculate_score_percentage 0 5 = Float.zero ∧
  calculate_score_percentage 3 5 = Float.of_hundredths 6000 ∧
  calculate_score_percentage 2 3 = Float.of_hundredths 6667.
Proof.
  intros Hc Ht. split; [|split; [|split; [|by vm_compute]]].
  - by intros ->.
  - intros Hpos.
    pose proof (score_agrees_below_160 correct total Hc (conj Hpos Ht)) as H.
    unfold score_agrees in H. cbv zeta in H. apply andb_true_iff in H as [H1 H2].
    apply bool_decide_eq_true in H1, H2. by split.
  - reflexivity.
Qed.

Lemma score_percentage_small_totals_witness :
  calculate_score_percentage 2 3 = exact_score_even 2 3 ∧
  calculate_score_percentage 2 3 = formula_score 2 3.
Proof.
  apply (score_percentage_small_totals 2 3); lia.
Defined.

(** ** Submission *)

Lemma get_test_session_run (test_id : string) (env : Env) (w : World) :
  get_test_session test_id env w =
  (w, match find_one test_id (test_sessions w) with
      | Some d =>
          if TestSessionDB.valid d then Ok (Some d)
          else Raise (ValidationError "TestSessionDB")
      | None => Ok None
      end).
Proof.
  unfold get_test_session, get_collection, mbind, M_bind. simpl.
  destruct (find_one test_id (test_sessions w)) as [d|]; [|reflexivity].
  by destruct (TestSessionDB.valid d).
Qed.

(** [update_one] rewrites the document that [find_one] returns. *)
Lemma find_one_update_one (test_id : string)
    (set : TestSessionDB.t -> TestSessionDB.t) (docs : list TestSessionDB.t)
    (d : TestSessionDB.t) :
  (forall x, TestSessionDB.test_id (set x) = TestSessionDB.test_id x) ->
  find_one test_id docs = Some d ->
  find_one test_id (update_one test_id set docs) = Some (set d).
Proof.
  intros Hid. unfold find_one.
  induction docs as [|x docs IH]; simpl; [discriminate|].
  case_bool_decide as Hx; simpl.
  - intros [= ->]. rewrite Hid. by rewrite bool_decide_eq_true_2.
  - intros Hd. rewrite bool_decide_eq_false_2 by exact Hx. by apply IH.
Qed.

Lemma find_one_update_one_other (test_id other : string)
    (set : TestSessionDB.t -> TestSessionDB.t) (docs : list TestSessionDB.t) :
  (forall x, TestSessionDB.test_id (set x) = TestSessionDB.test_id x) ->
  other ≠ test_id ->
  find_one other (update_one test_id set docs) = find_one other docs.
Proof.
  intros Hid Hne. unfold find_one.
  induction docs as [|x docs IH]; simpl; [reflexivity|].
  case_bool_decide as Hx; simpl.
  - rewrite Hid. rewrite !bool_decide_eq_false_2 by congruence. reflexivity.
  - case_bool_decide; [reflexivity|exact IH].
Qed.

Lemma find_one_test_id (test_id : string) (docs : list TestSessionDB.t)
    (d : TestSessionDB.t) :
  find_one test_id docs = Some d -> TestSessionDB.test_id d = test_id.
Proof.
  unfold find_one. intros H. apply List.find_some in H as [_ H].
  by apply bool_decide_eq_true in H.
Qed.

Lemma submit_loaded_run (env : Env) (w : World) (submission : TestSubmission.t)
    (s : TestSessionDB.t) :
  submit_loaded submission (Some s) env w =
  match TestSessionDB.status s with
  | COMPLETED => (w, Raise (ValueError "Test already submitted"))
  | EXPIRED => (w, Raise (ValueError "Test has expired"))
  | IN_PROGRESS => (world_after_submit env w submission s, Ok (result_of env w submission s))
  end.
Proof.
  unfold submit_loaded. destruct (TestSessionDB.status s); reflexivity.
Qed.

Lemma submit_test_run (env : Env) (w : World) (submission : TestSubmission.t)
    (s : TestSessionDB.t) :
  find_one (TestSubmission.test_id submission) (test_sessions w) = Some s ->
  TestSessionDB.valid s = true ->
  submit_test submission env w = submit_loaded submission (Some s) env w.
Proof.
  intros Hfind Hvalid. unfold submit_test, mbind, M_bind.
  rewrite get_test_session_run, Hfind, Hvalid. reflexivity.
Qed.

(** C6. A submission to a session whose status is completed or expired is
    rejected with an error and the world is left as it was: the session
    keeps its status, answers, result and [submitted_at]. A submission to a
    session in progress succeeds with the evaluation of its answers, and
    the session read back afterwards is completed and holds the submitted
    answers, the returned result and the time of the write, its other
    fields unchanged. *)
Theorem submit_state_machine (env : Env) (w : World)
    (submission : TestSubmission.t) (s : TestSessionDB.t) :
  find_one (TestSubmission.test_id submission) (test_sessions w) = Some s ->
  TestSessionDB.valid s = true ->
  match TestSessionDB.status s with
  | COMPLETED =>
      submit_test submission env w = (w, Raise (ValueError "Test already submitted"))
  | EXPIRED =>
      submit_test submission env w = (w, Raise (ValueError "Test has expired"))
  | IN_PROGRESS =>
      exists r w' s',
        submit_test submission env w = (w', Ok r) ∧
        r = result_of env w submission s ∧
        find_one (TestSubmission.test_id submission) (test_sessions w') = Some s' ∧
        TestSessionDB.status s' = COMPLETED ∧
        TestSessionDB.answers s' = Some (TestSubmission.answers submission) ∧
        TestSessionDB.result s' = Some r ∧
        TestSessionDB.submitted_at s' = Some (utcnow_at env (S (clock_reads w))) ∧
        TestSessionDB.test_id s' = TestSessionDB.test_id s ∧
        TestSessionDB.topic s' = TestSessionDB.topic s ∧
        TestSessionDB.questions s' = TestSessionDB.questions s ∧
        TestSessionDB.difficulty s' = TestSessionDB.difficulty s ∧
        TestSessionDB.time_limit_minutes s' = TestSessionDB.time_limit_minutes s ∧
        TestSessionDB.created_at s' = TestSessionDB.created_at s ∧
        (forall other, other ≠ TestSubmission.test_id submission ->
           find_one other (test_sessions w') = find_one other (test_sessions w)) ∧
        stdout w' = stdout w
  end.
Proof.
  intros Hfind Hvalid.
  rewrite (submit_test_run env w submission s Hfind Hvalid), submit_loaded_run.
  destruct (TestSessionDB.status s); try reflexivity.
  eexists _, _, _. split; [reflexivity|]. split; [reflexivity|].
  split.
  { simpl. apply find_one_update_one; [reflexivity|exact Hfind]. }
  simpl. repeat split.
  intros other Hne. by apply find_one_update_one_other.
Qed.

Lemma submit_state_machine_witness :
  let env := env_answering (Ok None) in
  let submission :=
    TestSubmission.mk "test_0001"
      [AnswerSubmission.mk "q_1" "B"; AnswerSubmission.mk "q_2" "B";
       AnswerSubmission.mk "q_3" "A"] in
  (exists r w' s',
     submit_test submission env (world_with [sample_session IN_PROGRESS]) = (w', Ok r) ∧
     TestResult.correct_answers r = 2 ∧
     TestResult.wrong_answers r = 1 ∧
     TestResult.score_percentage r = Float.of_hundredths 6667 ∧
     find_one "test_0001" (test_sessions w') = Some s' ∧
     TestSessionDB.status s' = COMPLETED ∧
     TestSessionDB.result s' = Some r) ∧
  submit_test submission env (world_with [sample_session COMPLETED])
    = (world_with [sample_session COMPLETED], Raise (ValueError "Test already submitted")) ∧
  submit_test submission env (world_with [sample_session EXPIRED])
    = (world_with [sample_session EXPIRED], Raise (ValueError "Test has expired")).
Proof.
  intros env submission. split; [|split].
  - destruct (submit_state_machine env (world_with [sample_session IN_PROGRESS])
                submission (sample_session IN_PROGRESS) eq_refl eq_refl)
      as (r & w' & s' & Hrun & Hr & Hfind & Hstatus & _ & Hres & _).
    exists r, w', s'. rewrite Hr. repeat split; try assumption.
    + by rewrite <- Hr.
    + by rewrite <- Hr.
  - exact (submit_state_machine env (world_with [sample_session COMPLETED])
             submission (sample_session COMPLETED) eq_refl eq_refl).
  - exact (submit_state_machine env (world_with [sample_session EXPIRED])
             submission (sample_session EXPIRED) eq_refl eq_refl).
Defined.

(** ** Two submissions to one session *)

Section TwoSubmissions.

Variable env : Env.

(** [submit_test] is its two steps run back to back. *)
Lemma submit_test_steps (w : World) (submission : TestSubmission.t) :
  let '(w1, t1) := step env (Pending submission) w in
  let '(w2, t2) := step env t1 w1 in
  exists outcome, t2 = Done outcome ∧ submit_test submission env w = (w2, outcome).
Proof.
  unfold step, submit_test, mbind, M_bind.
  destruct (get_test_session (TestSubmission.test_id submission) env w) as [w1 [s|e]].
  - destruct (submit_loaded submission s env w1) as [w2 outcome]. by exists outcome.
  - by exists (Raise e).
Qed.

Lemma step_pending (w : World) (submission : TestSubmission.t)
    (s : TestSessionDB.t) :
  find_one (TestSubmission.test_id submission) (test_sessions w) = Some s ->
  TestSessionDB.valid s = true ->
  step env (Pending submission) w = (w, Loaded submission (Some s)).
Proof.
  intros Hfind Hvalid. unfold step.
  by rewrite get_test_session_run, Hfind, Hvalid.
Qed.

Lemma step_loaded (w : World) (submission : TestSubmission.t)
    (s : TestSessionDB.t) :
  step env (Loaded submission (Some s)) w =
  match TestSessionDB.status s with
  | COMPLETED => (w, Done (Raise (ValueError "Test already submitted")))
  | EXPIRED => (w, Done (Raise (ValueError "Test has expired")))
  | IN_PROGRESS =>
      (world_after_submit env w submission s, Done (Ok (result_of env w submission s)))
  end.
Proof.
  unfold step. rewrite submit_loaded_run. by destruct (TestSessionDB.status s).
Qed.

Lemma stored_result_after_submit (w : World)
    (submission : TestSubmission.t) (s d : TestSessionDB.t) :
  find_one (TestSubmission.test_id submission) (test_sessions w) = Some d ->
  stored_result (world_after_submit env w submission s) (TestSubmission.test_id submission)
  = Some (result_of env w submission s).
Proof.
  intros Hfind. unfold stored_result, world_after_submit. simpl.
  by rewrite (find_one_update_one _ _ _ d) by (reflexivity || exact Hfind).
Qed.

Lemma find_one_after_submit (w : World)
    (submission : TestSubmission.t) (s d : TestSessionDB.t) :
  find_one (TestSubmission.test_id submission) (test_sessions w) = Some d ->
  find_one (TestSubmission.test_id submission)
    (test_sessions (world_after_submit env w submission s))
  = Some (set_submission (TestSubmission.answers submission)
            (result_of env w submission s) (utcnow_at env (S (clock_reads w))) d).
Proof.
  intros Hfind. unfold world_after_submit. simpl.
  by apply find_one_update_one.
Qed.

Lemma valid_after_submit (answers : list AnswerSubmission.t) (r : TestResult.t)
    (now : datetime) (d : TestSessionDB.t) :
  TestSessionDB.valid d = true ->
  forallb AnswerSubmission.valid answers = true ->
  TestSessionDB.valid (set_submission answers r now d) = true.
Proof.
  unfold TestSessionDB.valid. simpl. intros Hd Ha.
  apply andb_true_iff in Hd as [Hq _]. by rewrite Hq, Ha.
Qed.

(** One request after the other: the first one is accepted, the second
    one finds the session completed. *)
Lemma submissions_in_turn (w : World)
    (first second : TestSubmission.t) (s : TestSessionDB.t) :
  TestSubmission.test_id second = TestSubmission.test_id first ->
  find_one (TestSubmission.test_id first) (test_sessions w) = Some s ->
  TestSessionDB.valid s = true ->
  TestSessionDB.status s = IN_PROGRESS ->
  forallb AnswerSubmission.valid (TestSubmission.answers first) = true ->
  let w' := world_after_submit env w first s in
  step env (Loaded first (Some s)) w = (w', Done (Ok (result_of env w first s))) ∧
  (exists s', step env (Pending second) w' = (w', Loaded second (Some s')) ∧
     step env (Loaded second (Some s')) w'
       = (w', Done (Raise (ValueError "Test already submitted")))) ∧
  stored_result w' (TestSubmission.test_id first) = Some (result_of env w first s).
Proof.
  intros Hid Hfind Hvalid Hstatus Hanswers w'.
  split; [by rewrite step_loaded, Hstatus|].
  split; [|by apply (stored_result_after_submit w first s s)].
  eexists. split.
  - apply step_pending.
    + rewrite Hid. apply (find_one_after_submit w first s s Hfind).
    + by apply valid_after_submit.
  - by rewrite step_loaded.
Qed.

(** Both requests have read the session in progress before either
    writes: both are accepted, and the second write replaces what the first
    one stored. *)
Lemma submissions_overlapping (w : World)
    (first second : TestSubmission.t) (s : TestSessionDB.t) :
  TestSubmission.test_id second = TestSubmission.test_id first ->
  find_one (TestSubmission.test_id first) (test_sessions w) = Some s ->
  TestSessionDB.status s = IN_PROGRESS ->
  let w1 := world_after_submit env w first s in
  let w2 := world_after_submit env w1 second s in
  step env (Loaded first (Some s)) w = (w1, Done (Ok (result_of env w first s))) ∧
  step env (Loaded second (Some s)) w1 = (w2, Done (Ok (result_of env w1 second s))) ∧
  stored_result w2 (TestSubmission.test_id first) = Some (result_of env w1 second s).
Proof.
  intros Hid Hfind Hstatus w1 w2.
  split; [by rewrite step_loaded, Hstatus|].
  split; [by rewrite step_loaded, Hstatus|].
  rewrite <- Hid. subst w2.
  eapply stored_result_after_submit.
  rewrite Hid. apply (find_one_after_submit w first s s Hfind).
Qed.

End TwoSubmissions.

(** Runs a schedule with the equations of its steps. *)
Ltac run_steps H1 H2 H3 H4 :=
  repeat (progress (cbn [run_schedule]; rewrite ?H1, ?H2, ?H3, ?H4)).

(** C7, as stated, fails: when the event loop resumes the second request
    between the read and the write of the first one, both submissions to
    the session in progress are accepted, each with a result, none is
    rejected, and the result left in the store is that of the second
    write, not that of the first. *)
Lemma concurrent_submissions_both_accepted :
  let env := env_answering (Ok None) in
  let a :=
    TestSubmission.mk "test_0001"
      [AnswerSubmission.mk "q_1" "B"; AnswerSubmission.mk "q_2" "B";
       AnswerSubmission.mk "q_3" "A"] in
  let b :=
    TestSubmission.mk "test_0001"
      [AnswerSubmission.mk "q_1" "A"; AnswerSubmission.mk "q_2" "A";
       AnswerSubmission.mk "q_3" "A"] in
  let '(w', ta, tb) :=
    run_schedule env [First; Second; First; Second]
      (world_with [sample_session IN_PROGRESS]) (Pending a) (Pending b) in
  exists ra rb,
    ta = Done (Ok ra) ∧ tb = Done (Ok rb) ∧
    TestResult.correct_answers ra = 2 ∧ TestResult.correct_answers rb = 0 ∧
    stored_result w' "test_0001" = Some rb ∧
    stored_result w' "test_0001" ≠ Some ra.
Proof.
  vm_compute. eexists _, _. repeat split. discriminate.
Qed.

(** C7, amended. Two submissions to the same session in progress, each a
    read of the session followed by the checks and the write. When one
    request runs both its steps before the other starts, exactly that one
    is accepted with its result, the other is rejected as already
    submitted, and the stored result is the accepted one. When both
    requests read before either writes, both are accepted, each with the
    evaluation of its own answers, and the stored result is the one written
    last. *)
Theorem two_submissions_schedules (env : Env) (w : World)
    (a b : TestSubmission.t) (s : TestSessionDB.t) :
  TestSubmission.test_id b = TestSubmission.test_id a ->
  find_one (TestSubmission.test_id a) (test_sessions w) = Some s ->
  TestSessionDB.valid s = true ->
  TestSessionDB.status s = IN_PROGRESS ->
  forallb AnswerSubmission.valid (TestSubmission.answers a) = true ->
  forallb AnswerSubmission.valid (TestSubmission.answers b) = true ->
  let id := TestSubmission.test_id a in
  let rejected := Done (Raise (ValueError "Test already submitted")) in
  (exists w',
     run_schedule env [First; First; Second; Second] w (Pending a) (Pending b)
       = (w', Done (Ok (result_of env w a s)), rejected) ∧
     stored_result w' id = Some (result_of env w a s)) ∧
  (exists w',
     run_schedule env [Second; Second; First; First] w (Pending a) (Pending b)
       = (w', rejected, Done (Ok (result_of env w b s))) ∧
     stored_result w' id = Some (result_of env w b s)) ∧
  (forall schedule,
     schedule ∈ [[First; Second; First; Second]; [Second; First; First; Second]] ->
     let ra := result_of env w a s in
     let rb := result_of env (world_after_submit env w a s) b s in
     exists w',
       run_schedule env schedule w (Pending a) (Pending b)
         = (w', Done (Ok ra), Done (Ok rb)) ∧
       stored_result w' id = Some rb) ∧
  (forall schedule,
     schedule ∈ [[First; Second; Second; First]; [Second; First; Second; First]] ->
     let rb := result_of env w b s in
     let ra := result_of env (world_after_submit env w b s) a s in
     exists w',
       run_schedule env schedule w (Pending a) (Pending b)
         = (w', Done (Ok ra), Done (Ok rb)) ∧
       stored_result w' id = Some ra).
Proof.
  intros Hid Hfind Hvalid Hstatus Ha Hb id rejected.
  assert (Hfind' : find_one (TestSubmission.test_id b) (test_sessions w) = Some s)
    by (by rewrite Hid).
  pose proof (step_pending env w a s Hfind Hvalid) as Hread_a.
  pose proof (step_pending env w b s Hfind' Hvalid) as Hread_b.
  split; [|split; [|split]].
  - destruct (submissions_in_turn env w a b s Hid Hfind Hvalid Hstatus Ha)
      as (Hwrite & (s' & Hread & Hreject) & Hstored).
    eexists. run_steps Hread_a Hwrite Hread Hreject. by split.
  - destruct (submissions_in_turn env w b a s (eq_sym Hid) Hfind' Hvalid Hstatus Hb)
      as (Hwrite & (s' & Hread & Hreject) & Hstored).
    eexists. run_steps Hread_b Hwrite Hread Hreject.
    split; [reflexivity|]. subst id. by rewrite <- Hid.
  - intros schedule Hin ra rb.
    destruct (submissions_overlapping env w a b s Hid Hfind Hstatus)
      as (Hwrite_a & Hwrite_b & Hstored).
    apply elem_of_cons in Hin as [->|Hin];
      [|apply elem_of_cons in Hin as [->|Hin]; [|by apply elem_of_nil in Hin]];
      eexists; run_steps Hread_a Hread_b Hwrite_a Hwrite_b; by split.
  - intros schedule Hin rb ra.
    destruct (submissions_overlapping env w b a s (eq_sym Hid) Hfind' Hstatus)
      as (Hwrite_b & Hwrite_a & Hstored).
    apply elem_of_cons in Hin as [->|Hin];
      [|apply elem_of_cons in Hin as [->|Hin]; [|by apply elem_of_nil in Hin]];
      eexists; run_steps Hread_a Hread_b Hwrite_a Hwrite_b;
      (split; [reflexivity|]); subst id; by rewrite <- Hid.
Qed.

Lemma two_submissions_schedules_witness :
  let env := env_answering (Ok None) in
  let w := world_with [sample_session IN_PROGRESS] in
  let a :=
    TestSubmission.mk "test_0001"
      [AnswerSubmission.mk "q_1" "B"; AnswerSubmission.mk "q_2" "B";
       AnswerSubmission.mk "q_3" "A"] in
  let b := TestSubmission.mk "test_0001" [AnswerSubmission.mk "q_1" "A"] in
  exists w',
    run_schedule env [First; First; Second; Second] w (Pending a) (Pending b)
      = (w', Done (Ok (result_of env w a (sample_session IN_PROGRESS))),
         Done (Raise (ValueError "Test already submitted"))) ∧
    stored_result w' "test_0001"
      = Some (result_of env w a (sample_session IN_PROGRESS)).
Proof.
  intros env w a b.
  exact (proj1 (two_submissions_schedules env w a b (sample_session IN_PROGRESS)
                  eq_refl eq_refl eq_refl eq_refl eq_refl eq_refl)).
Defined.

(** ** The public view *)

Lemma empty_not_option_id : "" ∉ option_ids.
Proof. by apply (bool_decide_eq_false_1 ("" ∈ option_ids)). Qed.

Lemma public_question_raises (q : MCQuestion.t) :
  public_question q = Raise (ValidationError "MCQuestion").
Proof.
  unfold public_question, MCQuestion.new. simpl.
  by destruct (bool_decide (length (MCQuestion.options q) = 4%nat)).
Qed.

Lemma prepare_nonempty_raises (q : MCQuestion.t) (qs : list MCQuestion.t) :
  _prepare_public_questions (q :: qs) = Raise (ValidationError "MCQuestion").
Proof.
  unfold _prepare_public_questions. simpl. by rewrite public_question_raises.
Qed.

(** C1 (the code departs from the claim). The view that the claim
    describes is refused by the validator of [correct_answer], which admits
    A, B, C and D only: building the public copy of any question raises
    [ValidationError], so [_prepare_public_questions] raises on every list
    that holds a question, and returns a view, the empty one, for the empty
    list only. *)
Theorem public_view_is_refused (q : MCQuestion.t) (qs : list MCQuestion.t) :
  _prepare_public_questions (q :: qs) = Raise (ValidationError "MCQuestion") ∧
  MCQuestion.valid (scrubbed q) = false ∧
  _prepare_public_questions [] = Ok [].
Proof.
  split; [|split].
  - apply prepare_nonempty_raises.
  - unfold MCQuestion.valid, scrubbed. simpl. apply andb_false_r.
  - reflexivity.
Qed.

(** Retrieval of the details of a stored session with at least one
    question raises as well. *)
Lemma get_test_details_raises (env : Env) (w : World) (test_id : string)
    (s : TestSessionDB.t) (q : MCQuestion.t) (qs : list MCQuestion.t) :
  find_one test_id (test_sessions w) = Some s ->
  TestSessionDB.valid s = true ->
  TestSessionDB.questions s = q :: qs ->
  get_test_details test_id env w = (w, Raise (ValidationError "MCQuestion")).
Proof.
  intros Hfind Hvalid Hqs. unfold get_test_details, mbind, M_bind.
  rewrite get_test_session_run, Hfind, Hvalid, Hqs. unfold lift.
  by rewrite prepare_nonempty_raises.
Qed.

(** ** Generation *)

Lemma option_of_ok (mcq : json) (letter : string) (o : MCQOption.t) :
  option_of mcq letter = Ok o -> MCQOption.option_id o = letter.
Proof.
  unfold option_of, MCQOption.new, mbind, result_bind.
  destruct (subscript mcq "options") as [opts|]; [|discriminate].
  destruct (subscript opts letter) as [text|]; [|discriminate].
  destruct (as_str text); [|discriminate].
  by intros [= <-].
Qed.

Lemma MCQuestion_new_ok (question_id : string) (question_text : json)
    (options : list MCQOption.t) (correct_answer explanation : json)
    (difficulty : DifficultyLevel) (q : MCQuestion.t) :
  MCQuestion.new question_id question_text options correct_answer explanation difficulty
    = Ok q ->
  MCQuestion.question_id q = question_id ∧
  MCQuestion.options q = options ∧
  length options = 4%nat ∧
  correct_answer = JStr (MCQuestion.correct_answer q) ∧
  MCQuestion.correct_answer q ∈ option_ids ∧
  MCQuestion.difficulty q = difficulty ∧
  MCQuestion.valid q = true.
Proof.
  unfold MCQuestion.new, MCQuestion.validate_correct_answer, MCQuestion.valid.
  destruct (as_str question_text); [|discriminate].
  case_bool_decide as Hlen; [|discriminate].
  destruct correct_answer as [| | | |answer| |]; simpl; try discriminate.
  destruct (as_optional_str explanation); [|discriminate].
  case_bool_decide as Hanswer; [|discriminate].
  intros [= <-]. simpl.
  rewrite !bool_decide_eq_true_2 by assumption. by repeat split.
Qed.

(** What a question built from a draft looks like. *)
Lemma question_of_ok (idx : nat) (mcq : json) (difficulty : DifficultyLevel)
    (q : MCQuestion.t) :
  question_of idx mcq difficulty = Ok q ->
  MCQuestion.question_id q = "q_" +:+ pretty (Z.of_nat idx + 1) ∧
  length (MCQuestion.options q) = 4%nat ∧
  map MCQOption.option_id (MCQuestion.options q) = option_ids ∧
  MCQuestion.correct_answer q ∈ option_ids ∧
  subscript mcq "correct_answer" = Ok (JStr (MCQuestion.correct_answer q)) ∧
  MCQuestion.difficulty q = difficulty ∧
  MCQuestion.valid q = true.
Proof.
  unfold question_of, mbind, result_bind.
  destruct (subscript mcq "question") as [text|]; [|discriminate].
  destruct (option_of mcq "A") as [a|] eqn:Ha; [|discriminate].
  destruct (option_of mcq "B") as [b|] eqn:Hb; [|discriminate].
  destruct (option_of mcq "C") as [c|] eqn:Hc; [|discriminate].
  destruct (option_of mcq "D") as [d|] eqn:Hd; [|discriminate].
  destruct (subscript mcq "correct_answer") as [answer|]; [|discriminate].
  destruct (get_or mcq "explanation" (JStr "")) as [expl|]; [|discriminate].
  intros Hnew. apply MCQuestion_new_ok in Hnew
    as (Hid & Hopts & Hlen & Hanswer & Hin & Hdiff & Hvalid).
  rewrite Hopts. simpl.
  rewrite (option_of_ok _ _ _ Ha), (option_of_ok _ _ _ Hb),
    (option_of_ok _ _ _ Hc), (option_of_ok _ _ _ Hd).
  repeat split; try assumption. by rewrite Hanswer.
Qed.

(** The loop appends one question per draft, in the order of the drafts,
    numbered from the index it starts at. *)
Lemma questions_loop_ok (difficulty : DifficultyLevel) (mcqs : list json) :
  forall (idx : nat) (acc qs : list MCQuestion.t),
    questions_loop idx mcqs difficulty acc = Ok qs ->
    exists built,
      qs = acc ++ built ∧
      length built = length mcqs ∧
      forall (i : nat) (q : MCQuestion.t),
        built !! i = Some q ->
        exists mcq, mcqs !! i = Some mcq ∧
                    question_of (idx + i) mcq difficulty = Ok q.
Proof.
  induction mcqs as [|mcq mcqs IH]; intros idx acc qs; simpl.
  - intros [= <-]. exists []. rewrite app_nil_r. repeat split. intros i q Hq.
    by rewrite lookup_nil in Hq.
  - unfold mbind, result_bind.
    destruct (question_of idx mcq difficulty) as [question|] eqn:Hq; [|discriminate].
    intros Hloop. apply IH in Hloop as (built & -> & Hlen & Hbuilt).
    exists (question :: built). rewrite <- app_assoc. simpl.
    split; [reflexivity|]. split; [by rewrite Hlen|].
    intros [|i] q Hi; simpl in Hi.
    + injection Hi as <-. exists mcq. by rewrite Nat.add_0_r.
    + apply Hbuilt in Hi as (mcq' & Hmcq & Hof). exists mcq'. split; [exact Hmcq|].
      by rewrite <- Nat.add_succ_comm.
Qed.

Lemma chat_completion_run (messages : list (string * string))
    (model : option string) (temperature : spec_float) (max_tokens : Z)
    (env : Env) (w : World) :
  chat_completion messages model temperature max_tokens env w =
  match completions_create env (completions_made w)
          (ChatRequest.mk (model_or_default env model) messages temperature max_tokens) with
  | Ok content => (after_completion w, Ok content)
  | Raise e =>
      (printing (after_completion w) [print_exc "❌ LLM Error: " e],
       Raise (Exception_of "Failed to get LLM response: " e))
  end.
Proof.
  unfold chat_completion, try_except, client_create, mbind, M_bind, ask, print, raise.
  fold (model_or_default env model).
  by destruct (completions_create env (completions_made w) _).
Qed.

Lemma _parse_mcq_response_run (response : string) (env : Env) (w : World) :
  _parse_mcq_response response env w =
  match json_loads env (strip_fences response) with
  | Some (JList mcqs) => (w, Ok mcqs)
  | Some _ => (w, Raise (ValueError "Response is not a list"))
  | None =>
      (printing w (parse_failure_lines (strip_fences response)),
       Raise (Exception "Failed to parse MCQ response as JSON"))
  end.
Proof.
  unfold _parse_mcq_response, mbind, M_bind, ask, print, raise, printing,
    parse_failure_lines.
  destruct (json_loads env (strip_fences response)) as [[|?|?|?|?|mcqs|?]|];
    try reflexivity.
  cbv beta iota zeta. cbn [test_sessions stdout clock_reads uuids_drawn completions_made].
  by rewrite <- app_assoc.
Qed.

Lemma generate_mcqs_run (topic : string) (num_questions : Z)
    (difficulty : DifficultyLevel) (env : Env) (w : World) :
  generate_mcqs topic num_questions difficulty env w =
  match chat_completion
          [("system", _build_mcq_system_prompt difficulty);
           ("user", _build_mcq_user_prompt topic num_questions)]
          None (Float.of_ratio false 8 10) 4000 env w with
  | (w1, Raise e) => generation_failure w1 e
  | (w1, Ok None) => generation_failure w1 AttributeError
  | (w1, Ok (Some text)) =>
      match _parse_mcq_response text env w1 with
      | (w2, Raise e) => generation_failure w2 e
      | (w2, Ok mcqs_data) =>
          match questions_loop 0 mcqs_data difficulty [] with
          | Ok questions => (w2, Ok questions)
          | Raise e => generation_failure w2 e
          end
      end
  end.
Proof.
  unfold generate_mcqs, try_except, mbind, M_bind, lift, raise, print,
    generation_failure, printing.
  destruct (chat_completion _ None _ 4000 env w) as [w1 [[text|]|e]];
    [|reflexivity|reflexivity].
  destruct (_parse_mcq_response text env w1) as [w2 [mcqs_data|e]]; [|reflexivity].
  destruct (questions_loop 0 mcqs_data difficulty []); reflexivity.
Qed.

(** A successful [generate_mcqs]: the endpoint answered with a text, the
    text without its fences decoded to an array, and every draft of the
    array was accepted; nothing was printed. *)
Lemma generate_mcqs_ok (topic : string) (num_questions : Z)
    (difficulty : DifficultyLevel) (env : Env) (w w' : World)
    (qs : list MCQuestion.t) :
  generate_mcqs topic num_questions difficulty env w = (w', Ok qs) ->
  exists text mcqs,
    completions_create env (completions_made w)
      (mcq_request env topic num_questions difficulty) = Ok (Some text) ∧
    json_loads env (strip_fences text) = Some (JList mcqs) ∧
    questions_loop 0 mcqs difficulty [] = Ok qs ∧
    w' = after_completion w.
Proof.
  rewrite generate_mcqs_run, chat_completion_run. unfold generation_failure.
  change (ChatRequest.mk (model_or_default env None) _ _ 4000)
    with (mcq_request env topic num_questions difficulty).
  destruct (completions_create env (completions_made w) _) as [[text|]|e];
    try discriminate.
  rewrite _parse_mcq_response_run.
  destruct (json_loads env (strip_fences text)) as [[|?|?|?|?|mcqs|?]|] eqn:Hloads;
    try discriminate.
  destruct (questions_loop 0 mcqs difficulty []) as [built|] eqn:Hloop;
    try discriminate.
  intros [= <- <-]. by exists text, mcqs.
Qed.

(** The questions of a successful [generate_mcqs] satisfy the constraints
    of their model, so the session stored with them is read back without
    a validation error. *)
Lemma generated_questions_valid (topic : string) (num_questions : Z)
    (difficulty : DifficultyLevel) (env : Env) (w w' : World)
    (qs : list MCQuestion.t) :
  generate_mcqs topic num_questions difficulty env w = (w', Ok qs) ->
  forallb MCQuestion.valid qs = true.
Proof.
  intros Hgen. apply generate_mcqs_ok in Hgen as (text & mcqs & _ & _ & Hloop & _).
  apply questions_loop_ok in Hloop as (built & -> & _ & Hbuilt).
  apply forallb_forall. intros q Hq. simpl in Hq.
  apply list_elem_of_In, list_elem_of_lookup in Hq as [i Hi].
  apply Hbuilt in Hi as (mcq & _ & Hof).
  by apply question_of_ok in Hof as (_ & _ & _ & _ & _ & _ & Hvalid).
Qed.

(** C2, as stated, fails: asked for 3 questions, with a completion that
    holds one draft, [generate_mcqs] succeeds with one question; and
    [generate_test], whose public view admits no question, succeeds on the
    empty array only, with no question at all. *)
Lemma generate_fewer_than_requested :
  let one := env_answering (Ok (Some ("[" +:+ capital_draft +:+ "]"))) in
  let none := env_answering (Ok (Some "[]")) in
  let request := MCQGenerationRequest.mk "Geography" 3 MEDIUM None in
  MCQGenerationRequest.valid request = true ∧
  (exists w' q,
     generate_mcqs "Geography" 3 MEDIUM one empty_world = (w', Ok [q]) ∧
     MCQuestion.valid q = true) ∧
  (exists w' response,
     generate_test request none empty_world = (w', Ok response) ∧
     MCQGenerationResponse.questions response = [] ∧
     MCQGenerationResponse.total_questions response = 0).
Proof.
  vm_compute. split; [reflexivity|]. split; eexists _, _; by split.
Qed.

(** C2, amended. A successful [generate_mcqs], whatever the count asked
    for, returns one question for each element of the array decoded from
    the completion, in the order of the array: as many questions as the
    model answered with. Each has exactly 4 options whose ids are A, B, C, D
    in this order, a [correct_answer] among A, B, C, D, the id "q_" followed
    by its 1-based position, and the requested difficulty. *)
Theorem generated_questions_shape (topic : string) (num_questions : Z)
    (difficulty : DifficultyLevel) (env : Env) (w w' : World)
    (qs : list MCQuestion.t) :
  generate_mcqs topic num_questions difficulty env w = (w', Ok qs) ->
  exists text mcqs,
    completions_create env (completions_made w)
      (mcq_request env topic num_questions difficulty) = Ok (Some text) ∧
    json_loads env (strip_fences text) = Some (JList mcqs) ∧
    length qs = length mcqs ∧
    forall (i : nat) (q : MCQuestion.t),
      qs !! i = Some q ->
      MCQuestion.question_id q = "q_" +:+ pretty (Z.of_nat i + 1) ∧
      length (MCQuestion.options q) = 4%nat ∧
      map MCQOption.option_id (MCQuestion.options q) = ["A"; "B"; "C"; "D"] ∧
      MCQuestion.correct_answer q ∈ ["A"; "B"; "C"; "D"] ∧
      MCQuestion.difficulty q = difficulty.
Proof.
  intros Hgen. apply generate_mcqs_ok in Hgen as (text & mcqs & Hreply & Hloads & Hloop & _).
  exists text, mcqs. split; [exact Hreply|]. split; [exact Hloads|].
  apply questions_loop_ok in Hloop as (built & -> & Hlen & Hbuilt).
  split; [exact Hlen|].
  intros i q Hq. simpl in Hq. apply Hbuilt in Hq as (mcq & _ & Hof).
  apply question_of_ok in Hof as (Hid & Hlen4 & Hopts & Hanswer & _ & Hdiff & _).
  by repeat split.
Qed.

Lemma generated_questions_shape_witness :
  exists w' qs,
    generate_mcqs "Basics" 2 EASY two_drafts_env empty_world = (w', Ok qs) ∧
    length qs = 2%nat ∧
    forall (i : nat) (q : MCQuestion.t),
      qs !! i = Some q ->
      MCQuestion.question_id q = "q_" +:+ pretty (Z.of_nat i + 1) ∧
      length (MCQuestion.options q) = 4%nat ∧
      map MCQOption.option_id (MCQuestion.options q) = ["A"; "B"; "C"; "D"] ∧
      MCQuestion.correct_answer q ∈ ["A"; "B"; "C"; "D"] ∧
      MCQuestion.difficulty q = EASY.
Proof.
  eexists _, _.
  assert (Hrun : generate_mcqs "Basics" 2 EASY two_drafts_env empty_world
                 = (?[w], Ok ?[qs])) by (vm_compute; reflexivity).
  destruct (generated_questions_shape "Basics" 2 EASY two_drafts_env empty_world _ _ Hrun)
    as (text & mcqs & _ & _ & _ & Hshape).
  split; [exact Hrun|]. split; [reflexivity|]. exact Hshape.
Defined.

(** With a question in hand [generate_test] does not answer: the session
    has been stored, with its answers, when the public view is refused. *)
Lemma generate_test_refused (request : MCQGenerationRequest.t) (env : Env)
    (w w1 : World) (q : MCQuestion.t) (qs : list MCQuestion.t) :
  generate_mcqs (MCQGenerationRequest.topic request)
    (Z.min (MCQGenerationRequest.num_questions request) (max_mcq_count (settings env)))
    (MCQGenerationRequest.difficulty request) env w = (w1, Ok (q :: qs)) ->
  exists w2,
    generate_test request env w = (w2, Raise (ValidationError "MCQuestion")) ∧
    test_sessions w2 =
      test_sessions w1 ++
      [TestSessionDB.mk (generate_id "test_" (uuid4_at env (uuids_drawn w1)))
         (MCQGenerationRequest.topic request) (q :: qs)
         (MCQGenerationRequest.difficulty request) IN_PROGRESS
         (test_time_limit_minutes (settings env))
         (utcnow_at env (clock_reads w1)) None None None].
Proof.
  intros Hgen. unfold generate_test, mbind, M_bind, ask. rewrite Hgen.
  unfold create_test_session, mbind, M_bind, uuid4, utcnow, get_collection,
    put_collection, lift, mret, M_ret.
  cbn [test_sessions stdout clock_reads uuids_drawn completions_made].
  rewrite prepare_nonempty_raises. by eexists.
Qed.

(** ** The response parser *)

Lemma str_take_length (n : nat) (s : string) :
  (String.length (str_take n s) <= n)%nat.
Proof.
  revert s. induction n as [|n IH]; intros [|c s]; simpl; try lia.
  specialize (IH s). lia.
Qed.

(** C8, as stated, fails: on a text that cannot be decoded the exception
    raised carries a fixed message in which no part of the text occurs (the
    snippet goes to the standard output), and on a text that decodes to a
    value other than an array the exception carries another fixed message
    and nothing is printed. *)
Lemma parse_failure_payload_has_no_snippet :
  let env := env_answering (Ok None) in
  _parse_mcq_response "#oops#" env empty_world
    = (printing empty_world
         [print_exc "❌ JSON Parse Error: " JSONDecodeError;
          print_line "Response was: #oops#..."],
       Raise (Exception "Failed to parse MCQ response as JSON")) ∧
  str_contains "#oops#" "Failed to parse MCQ response as JSON" = false ∧
  str_contains "#" "Failed to parse MCQ response as JSON" = false ∧
  _parse_mcq_response "{}" env empty_world
    = (empty_world, Raise (ValueError "Response is not a list")) ∧
  str_contains "{}" "Response is not a list" = false.
Proof. vm_compute. by repeat split. Qed.

(** C8, amended. The parser decodes the text, without its fences, once.
    When the text cannot be decoded it prints two lines, the second one
    holding the first 200 characters at most of that text followed by
    "...", and raises an exception with the fixed message "Failed to parse
    MCQ response as JSON". When the text decodes to a value that is not an
    array it raises [ValueError] with the fixed message "Response is not a
    list" and prints nothing. When it decodes to an array it returns the
    elements. In no case does it ask for another text or decode again. *)
Theorem parse_failure_report (response : string) (env : Env) (w : World) :
  let text := strip_fences response in
  let snippet := str_take 200 text in
  (String.length snippet <= 200)%nat ∧
  match json_loads env text with
  | None =>
      _parse_mcq_response response env w
      = (printing w [print_exc "❌ JSON Parse Error: " JSONDecodeError;
                     print_line ("Response was: " +:+ snippet +:+ "...")],
         Raise (Exception "Failed to parse MCQ response as JSON"))
  | Some (JList mcqs) => _parse_mcq_response response env w = (w, Ok mcqs)
  | Some _ =>
      _parse_mcq_response response env w
      = (w, Raise (ValueError "Response is not a list"))
  end.
Proof.
  intros text snippet. split; [apply str_take_length|].
  rewrite _parse_mcq_response_run. fold text.
  by destruct (json_loads env text) as [[|?|?|?|?|mcqs|?]|].
Qed.

(** ** The id reported by an evaluation *)

(** C9. For a question list that is not empty, the [test_id] of the result
    of [_evaluate_test] is what stands before the first underscore in the id
    of the first question; it is never an id of a session, which
    [generate_id("test_")] builds with an underscore in it. For questions
    built by the loop of [generate_mcqs] it is the constant "q". For the
    empty list it is "unknown". *)
Theorem reported_test_id_from_question_id
    (q : MCQuestion.t) (rest : list MCQuestion.t)
    (mcqs : list json) (difficulty : DifficultyLevel) (generated : list MCQuestion.t)
    (answers : list AnswerSubmission.t) (topic uuid : string)
    (env : Env) (w : World) :
  questions_loop 0 mcqs difficulty [] = Ok generated ->
  generated ≠ [] ->
  (exists r w',
     _evaluate_test (q :: rest) answers topic env w = (w', Ok r) ∧
     TestResult.test_id r = before_underscore (MCQuestion.question_id q) ∧
     TestResult.test_id r ≠ generate_id "test_" uuid) ∧
  (exists r w',
     _evaluate_test generated answers topic env w = (w', Ok r) ∧
     TestResult.test_id r = "q" ∧
     TestResult.test_id r ≠ generate_id "test_" uuid) ∧
  (exists r w',
     _evaluate_test [] answers topic env w = (w', Ok r) ∧
     TestResult.test_id r = "unknown").
Proof.
  intros Hloop Hne. split; [|split].
  - rewrite _evaluate_test_run, evaluate_at_eq. cbv zeta.
    eexists _, _. split; [reflexivity|]. cbn [TestResult.test_id].
    rewrite reported_test_id_cons. split; [reflexivity|].
    apply before_underscore_not_test_id.
  - rewrite _evaluate_test_run, evaluate_at_eq. cbv zeta.
    eexists _, _. split; [reflexivity|]. cbn [TestResult.test_id].
    apply questions_loop_ok in Hloop as (built & -> & _ & Hbuilt).
    destruct built as [|first built]; [done|].
    destruct (Hbuilt 0%nat first eq_refl) as (mcq & _ & Hof).
    apply question_of_ok in Hof as (Hid & _).
    cbn [app]. rewrite reported_test_id_cons, Hid.
    split; [reflexivity|]. by unfold generate_id.
  - rewrite _evaluate_test_run, evaluate_at_eq. cbv zeta.
    eexists _, _. by split.
Qed.

Lemma reported_test_id_from_question_id_witness :
  exists generated,
    questions_loop 0 two_drafts MEDIUM [] = Ok generated ∧
    generated ≠ [] ∧
    exists r w',
      _evaluate_test generated [AnswerSubmission.mk "q_1" "B"] "Basics"
        two_drafts_env empty_world = (w', Ok r) ∧
      TestResult.test_id r = "q" ∧
      TestResult.test_id r ≠ generate_id "test_" "00000000-0000-4000-8000-100000000000".
Proof.
  eexists.
  assert (Hloop : questions_loop 0 two_drafts MEDIUM [] = Ok ?[gs])
    by (vm_compute; reflexivity).
  match type of Hloop with
  | _ = Ok ?g => assert (Hne : g ≠ []) by discriminate
  end.
  split; [exact Hloop|]. split; [exact Hne|].
  exact (proj1 (proj2 (reported_test_id_from_question_id
                         (MCQuestion.mk "q_1" "" [] "A" None MEDIUM) []
                         two_drafts MEDIUM _ [AnswerSubmission.mk "q_1" "B"] "Basics"
                         "00000000-0000-4000-8000-100000000000"
                         two_drafts_env empty_world Hloop Hne))).
Defined.
(** * Further properties *)

(** ** The score percentage, continued *)

Lemma iter_shr_1_zero (p : positive) :
  SpecFloat.iter_pos shr_1 p (Build_shr_record 0 false false) = Build_shr_record 0 false false.
Proof.
  induction p as [p IH|p IH|]; simpl; by rewrite ?IH.
Qed.

Lemma shr_zero (e n : Z) :
  fst (shr (Build_shr_record 0 false false) e n) = Build_shr_record 0 false false.
Proof.
  unfold shr. destruct n; simpl; [reflexivity| |reflexivity]. apply iter_shr_1_zero.
Qed.

Lemma binary_round_aux_zero (s : bool) (e : Z) :
  binary_round_aux Float.prec Float.emax s 0 e loc_Exact = S754_zero s.
Proof.
  unfold binary_round_aux, shr_fexp. cbn [shr_record_of_loc].
  destruct (shr _ e _) as [mrs e1] eqn:H1.
  pose proof (shr_zero e (fexp Float.prec Float.emax (Zdigits2 0 + e) - e)) as Hz.
  rewrite H1 in Hz. simpl in Hz. subst mrs.
  cbn [shr_m loc_of_shr_record round_nearest_even shr_record_of_loc].
  destruct (shr _ e1 _) as [mrs e2] eqn:H2.
  pose proof (shr_zero e1 (fexp Float.prec Float.emax (Zdigits2 0 + e1) - e1)) as Hz.
  rewrite H2 in Hz. simpl in Hz. by subst mrs.
Qed.

(** The quotient of zero by a positive integer is the float zero. *)
Lemma int_truediv_zero (total : Z) :
  0 < total -> Float.int_truediv 0 total = S754_zero false.
Proof.
  intros Ht. unfold Float.int_truediv, Float.of_ratio, SFdiv_core_binary.
  replace (Z.ltb total 0) with false by (symmetry; apply Z.ltb_ge; lia).
  cbn [Z.ltb Z.compare Z.abs xorb Zdigits2].
  assert (Hm : forall s : Z, match s with Zpos _ => Z.shiftl 0 s | _ => 0 end = 0)
    by (intros [|p|p]; [reflexivity|apply Z.shiftl_0_l|reflexivity]).
  rewrite Hm. cbn [Z.div_eucl].
  replace (new_location (Z.abs total) 0) with loc_Exact
    by (unfold new_location, new_location_even, new_location_odd;
        by destruct (Z.even (Z.abs total))).
  apply binary_round_aux_zero.
Qed.

(** X1. With no correct answer the score is 0.0, whatever the number of
    questions, zero included. *)
Theorem score_zero_correct (total : Z) :
  0 <= total -> calculate_score_percentage 0 total = Float.zero.
Proof.
  intros Ht. unfold calculate_score_percentage.
  destruct (Z.eqb_spec total 0) as [->|Hne]; [reflexivity|].
  rewrite int_truediv_zero by lia. reflexivity.
Qed.

Lemma score_zero_correct_witness : calculate_score_percentage 0 1000 = Float.zero.
Proof. apply (score_zero_correct 1000). lia. Defined.

Lemma all_from_spec (check : Z -> bool) (count : nat) :
  forall h k, all_from check h count = true ->
              h <= k < h + Z.of_nat count -> check k = true.
Proof.
  induction count as [|count IH]; intros h k Hall Hk; [lia|].
  cbn [all_from] in Hall. apply andb_true_iff in Hall as [Hh Hrest].
  destruct (Z.eq_dec k h) as [->|Hne]; [exact Hh|].
  apply (IH (h + 1)); [exact Hrest|lia].
Qed.

Lemma hundredths_within_percent :
  all_from (fun h => within_percent (Float.of_hundredths h)) 0 (Z.to_nat 10001) = true.
Proof. vm_compute. reflexivity. Qed.

Lemma div_half_even_bounds (n d : Z) :
  0 < d -> 0 <= n <= 10000 * d -> 0 <= Float.div_half_even n d <= 10000.
Proof.
  intros Hd Hn. unfold Float.div_half_even.
  pose proof (Z.div_mod n d ltac:(lia)) as Hdm.
  pose proof (Z.mod_pos_bound n d Hd) as Hr.
  assert (Hq : 0 <= n / d <= 10000).
  { split; [apply Z.div_pos; lia|].
    apply Z.div_le_upper_bound; lia. }
  destruct (Z.eq_dec (n / d) 10000) as [Heq|Hne].
  - assert (n mod d = 0) by nia.
    replace (2 * (n mod d) ?= d) with Lt by (symmetry; apply Z.compare_lt_iff; lia).
    lia.
  - destruct (2 * (n mod d) ?= d); [destruct (Z.even (n / d))| |]; lia.
Qed.

(** X2. For [0 <= correct <= total] and [0 < total < 160] the score is a
    number of hundredths between 0 and 10000 written as a float, it lies
    between 0.0 and 100.0, and it is 100.0 when every answer is correct. *)
Theorem score_within_percent (correct total : Z) :
  0 <= correct <= total -> 0 < total < 160 ->
  (exists h, 0 <= h <= 10000 ∧
             calculate_score_percentage correct total = Float.of_hundredths h) ∧
  within_percent (calculate_score_percentage correct total) = true ∧
  (correct = total -> calculate_score_percentage correct total = hundred).
Proof.
  intros Hc Ht.
  pose proof (score_agrees_below_160 correct total Hc Ht) as H.
  unfold score_agrees in H. cbv zeta in H. apply andb_true_iff in H as [H _].
  apply bool_decide_eq_true in H. rewrite H. unfold exact_score_even.
  pose proof (div_half_even_bounds (100 * correct * 100) total ltac:(lia) ltac:(lia)) as Hh.
  split; [by eexists|]. split.
  - apply (all_from_spec _ (Z.to_nat 10001) 0 _ hundredths_within_percent).
    rewrite Z2Nat.id by lia. lia.
  - intros ->. unfold Float.div_half_even.
    replace (100 * total * 100) with (10000 * total) by lia.
    rewrite Z.div_mul, Z.mod_mul by lia.
    replace (2 * 0 ?= total) with Lt by (symmetry; apply Z.compare_lt_iff; lia).
    by vm_compute.
Qed.

Lemma score_within_percent_witness :
  within_percent (calculate_score_percentage 7 9) = true.
Proof. apply (score_within_percent 7 9); lia. Defined.

(** ** Scoring, continued *)

(** The entry of a question id is the selection of the last answer given
    to it. *)
Lemma answer_map_of_last (l1 l2 : list AnswerSubmission.t) (a : AnswerSubmission.t) :
  AnswerSubmission.question_id a ∉ answered_ids l2 ->
  answer_map_of (l1 ++ a :: l2) !! AnswerSubmission.question_id a
  = Some (AnswerSubmission.selected_answer a).
Proof.
  intros Hlast. unfold answer_map_of.
  change (foldl record_answer ∅ (l1 ++ a :: l2) !! AnswerSubmission.question_id a
          = Some (AnswerSubmission.selected_answer a)).
  rewrite foldl_app. simpl.
  rewrite fold_answers_lookup_other by exact Hlast.
  unfold record_answer. apply lookup_insert_eq.
Qed.

(** X3. When a question is answered more than once the last answer
    counts: the result of the question shows the selection of the last
    answer that names it, marked correct exactly when that selection is the
    correct answer. *)
Theorem last_answer_counts (qs : list MCQuestion.t)
    (l1 l2 : list AnswerSubmission.t) (a : AnswerSubmission.t)
    (i : nat) (q : MCQuestion.t) (topic : string) (env : Env) (w : World) :
  qs !! i = Some q ->
  AnswerSubmission.question_id a = MCQuestion.question_id q ->
  AnswerSubmission.valid a = true ->
  AnswerSubmission.question_id a ∉ answered_ids l2 ->
  exists r w' qr,
    _evaluate_test qs (l1 ++ a :: l2) topic env w = (w', Ok r) ∧
    TestResult.results r !! i = Some qr ∧
    QuestionResult.selected_answer qr = AnswerSubmission.selected_answer a ∧
    QuestionResult.is_correct qr
      = bool_decide (AnswerSubmission.selected_answer a = MCQuestion.correct_answer q).
Proof.
  intros Hq Hid Hvalid Hlast.
  rewrite _evaluate_test_run, evaluate_at_eq. cbv zeta.
  eexists _, _, _. split; [reflexivity|]. cbn [TestResult.results].
  split; [by rewrite list_lookup_fmap, Hq|].
  unfold evaluate_question. rewrite <- Hid, answer_map_of_last by exact Hlast.
  cbn [default from_option id QuestionResult.selected_answer QuestionResult.is_correct].
  unfold id. split; [|reflexivity].
  rewrite bool_decide_eq_false_2; [reflexivity|].
  intros Hempty. unfold AnswerSubmission.valid in Hvalid.
  apply bool_decide_eq_true in Hvalid. rewrite Hempty in Hvalid.
  by apply empty_not_option_id.
Qed.

Lemma last_answer_counts_witness :
  exists r w' qr,
    _evaluate_test sample_questions
      ([AnswerSubmission.mk "q_2" "A"] ++ AnswerSubmission.mk "q_2" "B" :: [])
      "Photosynthesis" (env_answering (Ok None)) empty_world = (w', Ok r) ∧
    TestResult.results r !! 1%nat = Some qr ∧
    QuestionResult.selected_answer qr = "B" ∧
    QuestionResult.is_correct qr = true.
Proof.
  apply (last_answer_counts sample_questions [AnswerSubmission.mk "q_2" "A"] []
           (AnswerSubmission.mk "q_2" "B") 1%nat
           (MCQuestion.mk "q_2" "What is 2 + 2?" (sample_options "3" "4" "5" "22")
              "B" (Some "") MEDIUM)
           "Photosynthesis" (env_answering (Ok None)) empty_world);
    [reflexivity|reflexivity|reflexivity|].
  intros H. by apply elem_of_nil in H.
Defined.

(** The map of the answers, read off their pairs. *)
Lemma answer_map_of_list_to_map (answers : list AnswerSubmission.t) :
  answer_map_of answers = list_to_map (reverse (answer_pairs answers)).
Proof.
  unfold answer_map_of, answer_pairs.
  induction answers as [|a answers IH] using rev_ind; [reflexivity|].
  rewrite foldl_app, map_app, reverse_app. simpl. by rewrite IH.
Qed.

Lemma answer_pairs_ids (answers : list AnswerSubmission.t) :
  (answer_pairs answers).*1 = answered_ids answers.
Proof.
  unfold answer_pairs, answered_ids. rewrite <- list_fmap_compose. reflexivity.
Qed.

(** X4. When no question is answered twice, the order of the answers in
    the submission does not matter: a submission and any rearrangement of
    it are evaluated alike. *)
Theorem answer_order_irrelevant (qs : list MCQuestion.t)
    (answers answers' : list AnswerSubmission.t)
    (topic : string) (env : Env) (w : World) :
  NoDup (answered_ids answers) ->
  answers ≡ₚ answers' ->
  _evaluate_test qs answers topic env w = _evaluate_test qs answers' topic env w.
Proof.
  intros Hnodup Hperm. rewrite !_evaluate_test_run. do 2 f_equal.
  apply evaluate_at_ext. intros k _. f_equal.
  rewrite !answer_map_of_list_to_map.
  apply list_to_map_proper.
  - by rewrite fmap_reverse, answer_pairs_ids, reverse_Permutation.
  - rewrite !reverse_Permutation. unfold answer_pairs. by apply Permutation_map.
Qed.

Lemma answer_order_irrelevant_witness :
  _evaluate_test sample_questions
    [AnswerSubmission.mk "q_1" "B"; AnswerSubmission.mk "q_3" "A"]
    "Photosynthesis" (env_answering (Ok None)) empty_world
  = _evaluate_test sample_questions
      [AnswerSubmission.mk "q_3" "A"; AnswerSubmission.mk "q_1" "B"]
      "Photosynthesis" (env_answering (Ok None)) empty_world.
Proof.
  apply answer_order_irrelevant.
  - apply (bool_decide_unpack _). by vm_compute.
  - apply perm_swap.
Defined.

Lemma correct_in_none (rs : list QuestionResult.t) :
  Forall (fun r => QuestionResult.is_correct r = false) rs -> correct_in rs = 0.
Proof.
  unfold correct_in. induction 1 as [|r rs Hr _ IH]; [reflexivity|].
  simpl. by rewrite Hr.
Qed.

Lemma correct_in_all (rs : list QuestionResult.t) :
  Forall (fun r => QuestionResult.is_correct r = true) rs ->
  correct_in rs = Z.of_nat (length rs).
Proof.
  unfold correct_in. induction 1 as [|r rs Hr _ IH]; [reflexivity|].
  simpl. rewrite Hr. simpl. lia.
Qed.

(** X5. An empty submission, evaluated against questions that satisfy
    their model: every question is reported as "Not answered" and
    incorrect, no answer is correct, all are wrong, and the score is 0.0,
    whatever the number of questions. *)
Theorem empty_submission (qs : list MCQuestion.t) (topic : string)
    (env : Env) (w : World) :
  forallb MCQuestion.valid qs = true ->
  exists r w',
    _evaluate_test qs [] topic env w = (w', Ok r) ∧
    TestResult.correct_answers r = 0 ∧
    TestResult.wrong_answers r = Z.of_nat (length qs) ∧
    TestResult.score_percentage r = Float.zero ∧
    length (TestResult.results r) = length qs ∧
    Forall (fun qr => QuestionResult.selected_answer qr = "Not answered" ∧
                      QuestionResult.is_correct qr = false)
           (TestResult.results r).
Proof.
  intros Hvalid. rewrite _evaluate_test_run, evaluate_at_eq. cbv zeta.
  eexists _, _. split; [reflexivity|].
  cbn [TestResult.correct_answers TestResult.wrong_answers
         TestResult.score_percentage TestResult.results].
  assert (Hall : Forall (fun qr => QuestionResult.selected_answer qr = "Not answered" ∧
                                   QuestionResult.is_correct qr = false)
                        (map (evaluate_question (answer_map_of [])) qs)).
  { apply Forall_fmap, Forall_forall. intros q Hq.
    apply evaluate_question_unanswered; [reflexivity|].
    rewrite forallb_forall in Hvalid. apply Hvalid. by apply list_elem_of_In. }
  rewrite correct_in_none by (eapply Forall_impl; [exact Hall|by intros ? [_ ?]]).
  assert (Hscore : forall total, 0 <= total ->
            calculate_score_percentage 0 total = Float.zero).
  { intros total Htotal. unfold calculate_score_percentage.
    destruct (Z.eqb_spec total 0) as [->|Hne]; [reflexivity|].
    rewrite int_truediv_zero by lia. reflexivity. }
  rewrite Hscore by lia.
  repeat split; [lia|by rewrite length_map|exact Hall].
Qed.

Lemma empty_submission_witness :
  exists r w',
    _evaluate_test sample_questions [] "Photosynthesis"
      (env_answering (Ok None)) empty_world = (w', Ok r) ∧
    TestResult.correct_answers r = 0 ∧
    TestResult.wrong_answers r = 3 ∧
    TestResult.score_percentage r = Float.zero.
Proof.
  destruct (empty_submission sample_questions "Photosynthesis"
              (env_answering (Ok None)) empty_world eq_refl)
    as (r & w' & Hrun & Hc & Hw & Hs & _).
  by exists r, w'.
Defined.

(** With distinct ids the entry of an id is the selection of its answer. *)
Lemma answer_map_of_lookup_nodup (answers : list AnswerSubmission.t)
    (a : AnswerSubmission.t) :
  NoDup (answered_ids answers) ->
  a ∈ answers ->
  answer_map_of answers !! AnswerSubmission.question_id a
  = Some (AnswerSubmission.selected_answer a).
Proof.
  intros Hnodup Hin. rewrite answer_map_of_list_to_map.
  apply list_elem_of_split in Hin as (l1 & l2 & ->).
  apply elem_of_list_to_map_1.
  - by rewrite fmap_reverse, answer_pairs_ids, reverse_Permutation.
  - rewrite elem_of_reverse. unfold answer_pairs. rewrite map_app. simpl.
    apply elem_of_app. right. apply list_elem_of_here.
Qed.

(** X6. Answering every question with its correct answer, the ids of the
    questions being distinct, gives a result with every question correct
    and none wrong. *)
Theorem perfect_submission (qs : list MCQuestion.t) (topic : string)
    (env : Env) (w : World) :
  NoDup (question_ids qs) ->
  exists r w',
    _evaluate_test qs (perfect_answers qs) topic env w = (w', Ok r) ∧
    TestResult.correct_answers r = Z.of_nat (length qs) ∧
    TestResult.wrong_answers r = 0 ∧
    Forall (fun qr => QuestionResult.is_correct qr = true) (TestResult.results r).
Proof.
  intros Hnodup. rewrite _evaluate_test_run, evaluate_at_eq. cbv zeta.
  eexists _, _. split; [reflexivity|].
  cbn [TestResult.correct_answers TestResult.wrong_answers TestResult.results].
  assert (Hids : answered_ids (perfect_answers qs) = question_ids qs).
  { unfold answered_ids, perfect_answers, question_ids.
    rewrite <- list_fmap_compose. reflexivity. }
  assert (Hall : Forall (fun qr => QuestionResult.is_correct qr = true)
                        (map (evaluate_question (answer_map_of (perfect_answers qs))) qs)).
  { apply Forall_fmap, Forall_forall. intros q Hq.
    change (QuestionResult.is_correct
              (evaluate_question (answer_map_of (perfect_answers qs)) q) = true).
    unfold evaluate_question. cbn [QuestionResult.is_correct].
    pose proof (answer_map_of_lookup_nodup (perfect_answers qs)
                  (AnswerSubmission.mk (MCQuestion.question_id q)
                     (MCQuestion.correct_answer q))) as Hlook.
    simpl in Hlook. rewrite Hlook.
    - by apply bool_decide_eq_true_2.
    - by rewrite Hids.
    - unfold perfect_answers.
      apply (list_elem_of_fmap_2 (fun q => AnswerSubmission.mk (MCQuestion.question_id q)
                                        (MCQuestion.correct_answer q))). exact Hq. }
  rewrite correct_in_all by exact Hall. rewrite length_map.
  repeat split; [lia|exact Hall].
Qed.

Lemma perfect_submission_witness :
  exists r w',
    _evaluate_test sample_questions (perfect_answers sample_questions)
      "Photosynthesis" (env_answering (Ok None)) empty_world = (w', Ok r) ∧
    TestResult.correct_answers r = 3 ∧
    TestResult.wrong_answers r = 0.
Proof.
  destruct (perfect_submission sample_questions "Photosynthesis"
              (env_answering (Ok None)) empty_world
              ltac:(apply (bool_decide_unpack _); by vm_compute))
    as (r & w' & Hrun & Hc & Hw & _).
  by exists r, w'.
Defined.

(** ** The store *)

Lemma with_sessions_same (w : World) : with_sessions w (test_sessions w) = w.
Proof. by destruct w. Qed.

Lemma find_one_app (test_id : string) (docs more : list TestSessionDB.t) :
  find_one test_id (docs ++ more) =
  match find_one test_id docs with
  | Some d => Some d
  | None => find_one test_id more
  end.
Proof.
  unfold find_one. induction docs as [|d docs IH]; simpl; [reflexivity|].
  by case_bool_decide.
Qed.

Lemma update_one_missing (test_id : string)
    (set : TestSessionDB.t -> TestSessionDB.t) (docs : list TestSessionDB.t) :
  find_one test_id docs = None -> update_one test_id set docs = docs.
Proof.
  unfold find_one. induction docs as [|d docs IH]; simpl; [reflexivity|].
  case_bool_decide; [discriminate|]. intros Hrest. by rewrite IH.
Qed.

(** [update_one] changes the collection exactly when it changes the
    document it finds. *)
Lemma update_one_same_iff (test_id : string)
    (set : TestSessionDB.t -> TestSessionDB.t) (docs : list TestSessionDB.t)
    (d : TestSessionDB.t) :
  find_one test_id docs = Some d ->
  update_one test_id set docs = docs <-> set d = d.
Proof.
  unfold find_one. induction docs as [|x docs IH]; simpl; [discriminate|].
  case_bool_decide.
  - intros [= ->]. split; [by intros [= ->]|by intros ->].
  - intros Hd. rewrite <- (IH Hd). split; [by intros [= ->]|by intros ->].
Qed.

Lemma create_test_session_run (topic : string) (questions : list MCQuestion.t)
    (difficulty : DifficultyLevel) (time_limit_minutes : Z) (env : Env) (w : World) :
  create_test_session topic questions difficulty time_limit_minutes env w =
  (world_after_create w
     (test_sessions w ++ [new_session env w topic questions difficulty time_limit_minutes]),
   Ok (generate_id "test_" (uuid4_at env (uuids_drawn w)))).
Proof. reflexivity. Qed.

(** X7. A session created under an id that the collection does not hold
    yet, with questions that satisfy their model, is read back as it was
    written: in progress, with the questions in their order and their
    correct answers, without answers or result; [get_test_questions]
    returns those questions, correct answers included; [get_test_result]
    finds no result; and the sessions stored before are found as before. *)
Theorem create_then_get (topic : string) (questions : list MCQuestion.t)
    (difficulty : DifficultyLevel) (time_limit_minutes : Z) (env : Env) (w : World) :
  let id := generate_id "test_" (uuid4_at env (uuids_drawn w)) in
  find_one id (test_sessions w) = None ->
  forallb MCQuestion.valid questions = true ->
  exists w',
    create_test_session topic questions difficulty time_limit_minutes env w = (w', Ok id) ∧
    get_test_session id env w'
      = (w', Ok (Some (TestSessionDB.mk id topic questions difficulty IN_PROGRESS
                         time_limit_minutes (utcnow_at env (clock_reads w))
                         None None None))) ∧
    get_test_questions id env w' = (w', Ok (Some questions)) ∧
    get_test_result id env w' = (w', Ok None) ∧
    forall other, other ≠ id ->
      find_one other (test_sessions w') = find_one other (test_sessions w).
Proof.
  intros id Hfresh Hvalid. rewrite create_test_session_run. eexists. split; [reflexivity|].
  assert (Hget : get_test_session id env
                   (world_after_create w
                      (test_sessions w ++
                       [new_session env w topic questions difficulty time_limit_minutes]))
                 = (world_after_create w
                      (test_sessions w ++
                       [new_session env w topic questions difficulty time_limit_minutes]),
                    Ok (Some (new_session env w topic questions difficulty time_limit_minutes)))).
  { rewrite get_test_session_run. cbn [test_sessions world_after_create].
    rewrite find_one_app, Hfresh. unfold find_one, new_session. cbn [List.find TestSessionDB.test_id].
    rewrite bool_decide_eq_true_2 by reflexivity.
    unfold TestSessionDB.valid. cbn [TestSessionDB.questions TestSessionDB.answers].
    by rewrite Hvalid. }
  split; [exact Hget|].
  split; [unfold get_test_questions, mbind, M_bind; by rewrite Hget|].
  split; [unfold get_test_result, db_get_test_result, mbind, M_bind; by rewrite Hget|].
  intros other Hne. cbn [test_sessions world_after_create].
  rewrite find_one_app. destruct (find_one other (test_sessions w)); [reflexivity|].
  unfold find_one, new_session. cbn [List.find TestSessionDB.test_id].
  by rewrite bool_decide_eq_false_2 by (intros Heq; by apply Hne).
Qed.

Lemma create_then_get_witness :
  exists w',
    create_test_session "Photosynthesis" sample_questions MEDIUM 30
      (env_answering (Ok None)) empty_world
      = (w', Ok "test_00000000-0000-4000-8000-100000000000") ∧
    get_test_questions "test_00000000-0000-4000-8000-100000000000"
      (env_answering (Ok None)) w' = (w', Ok (Some sample_questions)).
Proof.
  destruct (create_then_get "Photosynthesis" sample_questions MEDIUM 30
              (env_answering (Ok None)) empty_world eq_refl eq_refl)
    as (w' & Hcreate & _ & Hquestions & _).
  exists w'. split; [exact Hcreate|exact Hquestions].
Defined.

Lemma unknown_id_submit (submission : TestSubmission.t) (env : Env) (w : World) :
  find_one (TestSubmission.test_id submission) (test_sessions w) = None ->
  submit_test submission env w
    = (w, Raise (ValueError ("Test not found: " +:+ TestSubmission.test_id submission))) ∧
  get_test_session (TestSubmission.test_id submission) env w = (w, Ok None).
Proof.
  intros Hnone.
  assert (Hget : get_test_session (TestSubmission.test_id submission) env w = (w, Ok None))
    by (by rewrite get_test_session_run, Hnone).
  split; [|exact Hget].
  unfold submit_test, mbind, M_bind. by rewrite Hget.
Qed.

(** X8. An id that the collection does not hold: [get_test_session],
    [get_test_details], [get_test_questions] and [get_test_result] return
    [None], [submit_test] raises [ValueError] with the message "Test not
    found: " followed by the id, [mark_test_expired] returns [False], and
    none of them changes the world; [submit_test_answers] returns [False]
    after one reading of the clock and leaves the collection as it was. *)
Theorem unknown_test_id (test_id : string) (submission : TestSubmission.t)
    (answers : list AnswerSubmission.t) (result : TestResult.t)
    (env : Env) (w : World) :
  find_one test_id (test_sessions w) = None ->
  TestSubmission.test_id submission = test_id ->
  get_test_session test_id env w = (w, Ok None) ∧
  get_test_details test_id env w = (w, Ok None) ∧
  get_test_questions test_id env w = (w, Ok None) ∧
  get_test_result test_id env w = (w, Ok None) ∧
  submit_test submission env w = (w, Raise (ValueError ("Test not found: " +:+ test_id))) ∧
  mark_test_expired test_id env w = (w, Ok false) ∧
  submit_test_answers test_id answers result env w = (tick w, Ok false).
Proof.
  intros Hnone Hid.
  assert (Hget : get_test_session test_id env w = (w, Ok None))
    by (by rewrite get_test_session_run, Hnone).
  split; [exact Hget|].
  split; [unfold get_test_details, mbind, M_bind; by rewrite Hget|].
  split; [unfold get_test_questions, mbind, M_bind; by rewrite Hget|].
  split; [unfold get_test_result, db_get_test_result, mbind, M_bind; by rewrite Hget|].
  split; [unfold submit_test, mbind, M_bind; rewrite Hid, Hget; unfold submit_loaded;
          by rewrite Hid|].
  split.
  - unfold mark_test_expired, mbind, M_bind, get_collection, put_collection, mret, M_ret.
    rewrite update_one_missing by exact Hnone.
    rewrite bool_decide_eq_true_2 by reflexivity. by destruct w.
  - unfold submit_test_answers, mbind, M_bind, utcnow, get_collection, put_collection,
      mret, M_ret. cbn [test_sessions stdout clock_reads uuids_drawn completions_made].
    rewrite update_one_missing by exact Hnone.
    by rewrite bool_decide_eq_true_2 by reflexivity.
Qed.

Lemma unknown_test_id_witness :
  submit_test (TestSubmission.mk "test_9999" []) (env_answering (Ok None))
    (world_with [sample_session IN_PROGRESS])
  = (world_with [sample_session IN_PROGRESS],
     Raise (ValueError "Test not found: test_9999")).
Proof.
  exact (proj1 (proj2 (proj2 (proj2 (proj2
    (unknown_test_id "test_9999" (TestSubmission.mk "test_9999" []) []
       (evaluate_at [] [] "" 0) (env_answering (Ok None))
       (world_with [sample_session IN_PROGRESS]) eq_refl eq_refl)))))).
Defined.

(** X9. [mark_test_expired] on a stored session sets its status to
    expired and leaves its other fields, a stored result included, as they
    were; it returns [True] exactly when the session was not expired
    already; and any submission to the session is rejected afterwards with
    "Test has expired", without effect. *)
Theorem expire_then_submit (env : Env) (w : World) (submission : TestSubmission.t)
    (s : TestSessionDB.t) :
  find_one (TestSubmission.test_id submission) (test_sessions w) = Some s ->
  TestSessionDB.valid s = true ->
  let id := TestSubmission.test_id submission in
  let w' := with_sessions w (update_one id set_expired (test_sessions w)) in
  mark_test_expired id env w
    = (w', Ok (negb (bool_decide (TestSessionDB.status s = EXPIRED)))) ∧
  find_one id (test_sessions w') = Some (set_expired s) ∧
  TestSessionDB.status (set_expired s) = EXPIRED ∧
  TestSessionDB.result (set_expired s) = TestSessionDB.result s ∧
  TestSessionDB.answers (set_expired s) = TestSessionDB.answers s ∧
  TestSessionDB.questions (set_expired s) = TestSessionDB.questions s ∧
  submit_test submission env w' = (w', Raise (ValueError "Test has expired")).
Proof.
  intros Hfind Hvalid id w'.
  assert (Hfind' : find_one id (test_sessions w') = Some (set_expired s))
    by (by apply find_one_update_one).
  split.
  - unfold mark_test_expired, mbind, M_bind, get_collection, put_collection, mret, M_ret.
    fold id. fold (with_sessions w (update_one id set_expired (test_sessions w))).
    do 3 f_equal. apply bool_decide_ext.
    rewrite (update_one_same_iff id set_expired (test_sessions w) s Hfind).
    unfold set_expired. destruct s; cbn. split; [by intros [= ->]|by intros ->].
  - split; [exact Hfind'|]. do 4 (split; [reflexivity|]).
    rewrite (submit_test_run env w' submission (set_expired s) Hfind' Hvalid).
    by rewrite submit_loaded_run.
Qed.

Lemma expire_then_submit_witness :
  let submission := TestSubmission.mk "test_0001" [AnswerSubmission.mk "q_1" "B"] in
  let env := env_answering (Ok None) in
  mark_test_expired "test_0001" env (world_with [sample_session IN_PROGRESS])
    = (world_with [sample_session EXPIRED], Ok true) ∧
  submit_test submission env (world_with [sample_session EXPIRED])
    = (world_with [sample_session EXPIRED], Raise (ValueError "Test has expired")).
Proof.
  intros submission env.
  destruct (expire_then_submit env (world_with [sample_session IN_PROGRESS]) submission
              (sample_session IN_PROGRESS) eq_refl eq_refl)
    as (Hmark & _ & _ & _ & _ & _ & Hsubmit).
  split; [exact Hmark|exact Hsubmit].
Defined.

(** X10. After an accepted submission, with answers that satisfy their
    model, [get_test_result] returns the result that [submit_test]
    returned; a second submission to the same session is rejected as
    already submitted and changes nothing, so the result read afterwards is
    still the first one. *)
Theorem submit_then_get_result (env : Env) (w : World)
    (submission again : TestSubmission.t) (s : TestSessionDB.t) :
  find_one (TestSubmission.test_id submission) (test_sessions w) = Some s ->
  TestSessionDB.valid s = true ->
  TestSessionDB.status s = IN_PROGRESS ->
  forallb AnswerSubmission.valid (TestSubmission.answers submission) = true ->
  TestSubmission.test_id again = TestSubmission.test_id submission ->
  exists r w',
    submit_test submission env w = (w', Ok r) ∧
    get_test_result (TestSubmission.test_id submission) env w' = (w', Ok (Some r)) ∧
    submit_test again env w' = (w', Raise (ValueError "Test already submitted")).
Proof.
  intros Hfind Hvalid Hstatus Hanswers Hid.
  rewrite (submit_test_run env w submission s Hfind Hvalid), submit_loaded_run, Hstatus.
  eexists _, _. split; [reflexivity|].
  pose proof (find_one_after_submit env w submission s s Hfind) as Hfind'.
  assert (Hvalid' : TestSessionDB.valid
                      (set_submission (TestSubmission.answers submission)
                         (result_of env w submission s)
                         (utcnow_at env (S (clock_reads w))) s) = true)
    by (by apply valid_after_submit).
  split.
  - unfold get_test_result, db_get_test_result, mbind, M_bind.
    by rewrite get_test_session_run, Hfind', Hvalid'.
  - rewrite <- Hid in Hfind'.
    rewrite (submit_test_run env _ again _ Hfind' Hvalid').
    by rewrite submit_loaded_run.
Qed.

Lemma submit_then_get_result_witness :
  let env := env_answering (Ok None) in
  let submission :=
    TestSubmission.mk "test_0001"
      [AnswerSubmission.mk "q_1" "B"; AnswerSubmission.mk "q_2" "B";
       AnswerSubmission.mk "q_3" "A"] in
  exists r w',
    submit_test submission env (world_with [sample_session IN_PROGRESS]) = (w', Ok r) ∧
    get_test_result "test_0001" env w' = (w', Ok (Some r)) ∧
    submit_test submission env w' = (w', Raise (ValueError "Test already submitted")).
Proof.
  intros env submission.
  exact (submit_then_get_result env (world_with [sample_session IN_PROGRESS])
           submission submission (sample_session IN_PROGRESS)
           eq_refl eq_refl eq_refl eq_refl eq_refl).
Defined.

(** ** Generation, continued *)

Lemma printing_nil (w : World) : printing w [] = w.
Proof. destruct w. unfold printing. cbn. by rewrite app_nil_r. Qed.

Lemma printing_printing (w : World) (l1 l2 : list stdout_line) :
  printing (printing w l1) l2 = printing w (l1 ++ l2).
Proof. unfold printing. cbn. by rewrite <- app_assoc. Qed.

(** The world after [generate_mcqs]: one completion received, and the
    lines of the failure, if any, printed. *)
Lemma generate_mcqs_world (topic : string) (num_questions : Z)
    (difficulty : DifficultyLevel) (env : Env) (w : World) :
  exists lines,
    fst (generate_mcqs topic num_questions difficulty env w)
    = printing (after_completion w) lines.
Proof.
  rewrite generate_mcqs_run, chat_completion_run. unfold generation_failure.
  destruct (completions_create env (completions_made w) _) as [[text|]|e];
    [|by eexists|cbn [fst]; rewrite printing_printing; by eexists].
  rewrite _parse_mcq_response_run.
  destruct (json_loads env (strip_fences text)) as [[|?|?|?|?|mcqs|?]|];
    try (cbn [fst]; rewrite ?printing_printing; by eexists).
  destruct (questions_loop 0 mcqs difficulty []);
    [exists []; by rewrite printing_nil|by eexists].
Qed.

(** X11. [generate_mcqs] asks for one completion and never touches the
    collection. It succeeds, printing nothing, when the completion has a
    text that decodes, without its fences, to an array whose drafts are all
    accepted. Every failure is printed and raised again as one exception
    whose message starts with "Failed to generate MCQs: ": the failure of
    the endpoint (itself printed and wrapped by [chat_completion]), a
    completion without content, a text that cannot be decoded, a decoded
    value that is not an array, or the first draft that is refused. *)
Theorem generate_mcqs_outcomes (topic : string) (num_questions : Z)
    (difficulty : DifficultyLevel) (env : Env) (w : World) :
  let w1 := after_completion w in
  let failed lines cause :=
    (printing w1 (lines ++ [print_exc "❌ MCQ Generation Error: " cause]),
     Raise (Exception_of "Failed to generate MCQs: " cause)) in
  generate_mcqs topic num_questions difficulty env w =
  match completions_create env (completions_made w)
          (mcq_request env topic num_questions difficulty) with
  | Raise e =>
      failed [print_exc "❌ LLM Error: " e] (Exception_of "Failed to get LLM response: " e)
  | Ok None => failed [] AttributeError
  | Ok (Some text) =>
      match json_loads env (strip_fences text) with
      | None =>
          failed (parse_failure_lines (strip_fences text))
                 (Exception "Failed to parse MCQ response as JSON")
      | Some (JList mcqs) =>
          match questions_loop 0 mcqs difficulty [] with
          | Ok questions => (w1, Ok questions)
          | Raise cause => failed [] cause
          end
      | Some _ => failed [] (ValueError "Response is not a list")
      end
  end.
Proof.
  intros w1 failed. subst failed. cbv beta.
  rewrite generate_mcqs_run, chat_completion_run. unfold generation_failure.
  change (ChatRequest.mk (model_or_default env None) _ _ 4000)
    with (mcq_request env topic num_questions difficulty).
  fold w1.
  destruct (completions_create env (completions_made w) _) as [[text|]|e].
  - rewrite _parse_mcq_response_run.
    destruct (json_loads env (strip_fences text)) as [[|?|?|?|?|mcqs|?]|];
      try reflexivity;
      try (by destruct (questions_loop 0 _ difficulty []));
      unfold printing; cbn [test_sessions stdout clock_reads uuids_drawn completions_made];
      by rewrite <- app_assoc.
  - reflexivity.
  - unfold printing. cbn [test_sessions stdout clock_reads uuids_drawn completions_made].
    by rewrite <- app_assoc.
Qed.

Lemma option_of_text (mcq : json) (letter : string) (o : MCQOption.t) :
  option_of mcq letter = Ok o ->
  exists opts,
    subscript mcq "options" = Ok opts ∧
    subscript opts letter = Ok (JStr (MCQOption.text o)) ∧
    MCQOption.option_id o = letter.
Proof.
  unfold option_of, MCQOption.new, mbind, result_bind.
  destruct (subscript mcq "options") as [opts|]; [|discriminate].
  destruct (subscript opts letter) as [[|?|?|?|s|?|?]|] eqn:Htext; try discriminate.
  simpl. intros [= <-]. by exists opts.
Qed.

Lemma subscript_ok (v : json) (key : string) (x : json) :
  subscript v key = Ok x -> exists items, v = JDict items ∧ dict_get key items = Some x.
Proof.
  destruct v as [|?|?|?|?|?|items]; try discriminate. simpl.
  destruct (dict_get key items) as [y|] eqn:Hy; [|discriminate].
  intros [= <-]. by exists items.
Qed.

Lemma question_of_content (idx : nat) (mcq : json) (difficulty : DifficultyLevel)
    (q : MCQuestion.t) :
  question_of idx mcq difficulty = Ok q ->
  exists items opts,
    mcq = JDict items ∧
    dict_get "question" items = Some (JStr (MCQuestion.question_text q)) ∧
    dict_get "options" items = Some (JDict opts) ∧
    map (fun o => (MCQOption.option_id o, dict_get (MCQOption.option_id o) opts))
        (MCQuestion.options q)
      = map (fun o => (MCQOption.option_id o, Some (JStr (MCQOption.text o))))
            (MCQuestion.options q) ∧
    dict_get "correct_answer" items = Some (JStr (MCQuestion.correct_answer q)) ∧
    explanation_of items = Some (MCQuestion.explanation q).
Proof.
  unfold question_of, mbind, result_bind.
  destruct (subscript mcq "question") as [text|] eqn:Htext; [|discriminate].
  destruct (option_of mcq "A") as [a|] eqn:Ha; [|discriminate].
  destruct (option_of mcq "B") as [b|] eqn:Hb; [|discriminate].
  destruct (option_of mcq "C") as [c|] eqn:Hc; [|discriminate].
  destruct (option_of mcq "D") as [d|] eqn:Hd; [|discriminate].
  destruct (subscript mcq "correct_answer") as [answer|] eqn:Hanswer; [|discriminate].
  destruct (get_or mcq "explanation" (JStr "")) as [expl|] eqn:Hexpl; [|discriminate].
  apply subscript_ok in Htext as (items & -> & Hq).
  apply option_of_text in Ha as (oa & Hoa & Hta & Hia).
  apply option_of_text in Hb as (ob & Hob & Htb & Hib).
  apply option_of_text in Hc as (oc & Hoc & Htc & Hic).
  apply option_of_text in Hd as (od & Hod & Htd & Hid).
  rewrite Hoa in Hob, Hoc, Hod.
  injection Hob as <-. injection Hoc as <-. injection Hod as <-.
  apply subscript_ok in Hoa as (items' & [= <-] & Hopts).
  apply subscript_ok in Hta as (opts & -> & Hga).
  apply subscript_ok in Htb as (? & [= <-] & Hgb).
  apply subscript_ok in Htc as (? & [= <-] & Hgc).
  apply subscript_ok in Htd as (? & [= <-] & Hgd).
  apply subscript_ok in Hanswer as (? & [= <-] & Hganswer).
  simpl in Hexpl. injection Hexpl as <-.
  unfold MCQuestion.new, MCQuestion.validate_correct_answer.
  destruct (as_str text) as [t|] eqn:Ht; [|discriminate].
  rewrite bool_decide_eq_true_2 by reflexivity.
  destruct (as_str answer) as [ans|] eqn:Hans; [|discriminate].
  destruct (as_optional_str _) as [expl|] eqn:Hexpl; [|discriminate].
  case_bool_decide; [|discriminate].
  intros [= <-]. exists items, opts. cbn.
  destruct text; try discriminate. injection Ht as ->.
  destruct answer; try discriminate. injection Hans as ->.
  rewrite Hia, Hib, Hic, Hid, Hga, Hgb, Hgc, Hgd.
  repeat split; try assumption.
  unfold explanation_of. by destruct (dict_get "explanation" items).
Qed.

(** X12. The questions of a successful [generate_mcqs] carry what the
    drafts hold: the draft at each position is an object whose "question" is
    the text of the question, whose "options" object gives the text of each
    of the four options under its letter, and whose "correct_answer" is the
    correct answer; the explanation is the one of the draft, the empty text
    when the draft has none and absent when the draft gives [null]. *)
Theorem generated_questions_content (topic : string) (num_questions : Z)
    (difficulty : DifficultyLevel) (env : Env) (w w' : World)
    (qs : list MCQuestion.t) :
  generate_mcqs topic num_questions difficulty env w = (w', Ok qs) ->
  exists text mcqs,
    completions_create env (completions_made w)
      (mcq_request env topic num_questions difficulty) = Ok (Some text) ∧
    json_loads env (strip_fences text) = Some (JList mcqs) ∧
    forall (i : nat) (q : MCQuestion.t),
      qs !! i = Some q ->
      exists items opts,
        mcqs !! i = Some (JDict items) ∧
        dict_get "question" items = Some (JStr (MCQuestion.question_text q)) ∧
        dict_get "options" items = Some (JDict opts) ∧
        map (fun o => (MCQOption.option_id o, dict_get (MCQOption.option_id o) opts))
            (MCQuestion.options q)
          = map (fun o => (MCQOption.option_id o, Some (JStr (MCQOption.text o))))
                (MCQuestion.options q) ∧
        dict_get "correct_answer" items = Some (JStr (MCQuestion.correct_answer q)) ∧
        explanation_of items = Some (MCQuestion.explanation q).
Proof.
  intros Hgen. apply generate_mcqs_ok in Hgen as (text & mcqs & Hreply & Hloads & Hloop & _).
  exists text, mcqs. split; [exact Hreply|]. split; [exact Hloads|].
  apply questions_loop_ok in Hloop as (built & -> & _ & Hbuilt).
  intros i q Hq. simpl in Hq. apply Hbuilt in Hq as (mcq & Hmcq & Hof).
  apply question_of_content in Hof as (items & opts & -> & Hrest).
  by exists items, opts.
Qed.

Lemma generated_questions_content_witness :
  exists w' qs q,
    generate_mcqs "Basics" 2 EASY two_drafts_env empty_world = (w', Ok qs) ∧
    qs !! 1%nat = Some q ∧
    MCQuestion.question_text q = "What is 2 + 2?" ∧
    exists items,
      two_drafts !! 1%nat = Some (JDict items) ∧
      dict_get "question" items = Some (JStr (MCQuestion.question_text q)) ∧
      explanation_of items = Some (MCQuestion.explanation q).
Proof.
  eexists _, _, _.
  assert (Hrun : generate_mcqs "Basics" 2 EASY two_drafts_env empty_world
                 = (?[w], Ok ?[qs])) by (vm_compute; reflexivity).
  destruct (generated_questions_content "Basics" 2 EASY two_drafts_env empty_world _ _ Hrun)
    as (text & mcqs & Hreply & Hloads & Hcontent).
  split; [exact Hrun|]. split; [reflexivity|]. split; [reflexivity|].
  destruct (Hcontent 1%nat _ eq_refl) as (items & opts & Hmcq & Hq & _ & _ & _ & Hexpl).
  exists items. split; [|split; [exact Hq|exact Hexpl]].
  injection Hreply as <-. rewrite <- Hmcq. unfold two_drafts.
  vm_compute in Hloads. injection Hloads as <-. by vm_compute.
Defined.

(** X13. [generate_test] asks [generate_mcqs] for the requested count
    lowered to the configured maximum. When the generation fails, the same
    exception leaves [generate_test] and nothing has been stored: no id has
    been drawn and the collection is as it was. When the generation returns
    no question, [generate_test] stores a session without questions and
    answers with its id, no question and a total of 0. *)
Theorem generate_test_outcomes (request : MCQGenerationRequest.t)
    (env : Env) (w : World) :
  match generate_mcqs (MCQGenerationRequest.topic request) (clamped_count env request)
          (MCQGenerationRequest.difficulty request) env w with
  | (w1, Raise e) =>
      generate_test request env w = (w1, Raise e) ∧
      test_sessions w1 = test_sessions w ∧
      uuids_drawn w1 = uuids_drawn w
  | (w1, Ok []) =>
      generate_test request env w
      = (tick (world_after_create w1 (test_sessions w1 ++ [generated_session env w1 request []])),
         Ok (MCQGenerationResponse.mk
               (generate_id "test_" (uuid4_at env (uuids_drawn w1)))
               (MCQGenerationRequest.topic request) [] 0
               (test_time_limit_minutes (settings env))
               (utcnow_at env (S (clock_reads w1)))))
  | (w1, Ok (q :: qs)) =>
      exists w2, generate_test request env w = (w2, Raise (ValidationError "MCQuestion"))
  end.
Proof.
  destruct (generate_mcqs_world (MCQGenerationRequest.topic request)
              (clamped_count env request) (MCQGenerationRequest.difficulty request)
              env w) as [lines Hworld].
  destruct (generate_mcqs _ _ _ env w) as [w1 [[|q qs]|e]] eqn:Hgen.
  - unfold generate_test, mbind, M_bind, ask. fold (clamped_count env request).
    rewrite Hgen. reflexivity.
  - destruct (generate_test_refused request env w w1 q qs Hgen) as (w2 & Hrun & _).
    by exists w2.
  - simpl in Hworld. subst w1. split; [|by split].
    unfold generate_test, mbind, M_bind, ask. fold (clamped_count env request).
    by rewrite Hgen.
Qed.

(** ** The fences of a completion *)

Lemma str_app_nil (t : string) : "" +:+ t = t.
Proof. reflexivity. Qed.

Lemma str_app_cons (c : ascii) (s t : string) : String c s +:+ t = String c (s +:+ t).
Proof. reflexivity. Qed.

Lemma str_length_app (s t : string) :
  String.length (s +:+ t) = (String.length s + String.length t)%nat.
Proof.
  induction s as [|c s IH]; [reflexivity|].
  rewrite str_app_cons. simpl. by rewrite IH.
Qed.

Lemma str_drop_app (s t : string) : str_drop (String.length s) (s +:+ t) = t.
Proof.
  induction s as [|c s IH]; [by destruct t|].
  rewrite str_app_cons. exact IH.
Qed.

Lemma str_take_app (s t : string) : str_take (String.length s) (s +:+ t) = s.
Proof.
  induction s as [|c s IH]; [by destruct t|].
  rewrite str_app_cons. simpl. by rewrite IH.
Qed.

Lemma str_app_assoc (s t u : string) : (s +:+ t) +:+ u = s +:+ (t +:+ u).
Proof.
  induction s as [|c s IH]; [reflexivity|].
  rewrite !str_app_cons. by rewrite IH.
Qed.

Lemma str_app_empty (s t : string) : s +:+ t = "" -> t = "".
Proof. by destruct s. Qed.

(** Text that ends with text without trailing whitespace has none. *)
Lemma rstrip_app_kept (s t : string) :
  t ≠ "" -> rstrip t = t -> rstrip (s +:+ t) = s +:+ t.
Proof.
  intros Hne Ht. induction s as [|c s IH]; [exact Ht|].
  rewrite str_app_cons. simpl. rewrite IH. destruct (s +:+ t) eqn:Hst; [|reflexivity].
  by apply str_app_empty in Hst.
Qed.

(** A trailing whitespace character is removed. *)
Lemma rstrip_app_space (s : string) (c : ascii) :
  isspace c = true -> rstrip (s +:+ String c "") = rstrip s.
Proof.
  intros Hc. induction s as [|a s IH]; [by rewrite str_app_nil; simpl; rewrite Hc|].
  rewrite str_app_cons. simpl. by rewrite IH.
Qed.

Lemma lstrip_length (s : string) : (String.length (lstrip s) <= String.length s)%nat.
Proof.
  induction s as [|c s IH]; simpl; [lia|]. destruct (isspace c); simpl; lia.
Qed.

(** Text without leading whitespace keeps its head when text follows. *)
Lemma lstrip_app_kept (s t : string) :
  s ≠ "" -> lstrip s = s -> lstrip (s +:+ t) = s +:+ t.
Proof.
  destruct s as [|c s]; [done|]. intros _. rewrite str_app_cons. simpl.
  destruct (isspace c); [|reflexivity].
  intros H. pose proof (lstrip_length s) as Hlen. rewrite H in Hlen. simpl in Hlen. lia.
Qed.

Lemma endswith_app (s p : string) : endswith p (s +:+ p) = true.
Proof.
  unfold endswith. rewrite str_length_app.
  replace (String.length s + String.length p - String.length p)%nat
    with (String.length s) by lia.
  rewrite str_drop_app. rewrite bool_decide_eq_true_2 by reflexivity.
  rewrite andb_true_r. apply Nat.leb_le. lia.
Qed.

(** What starts with a text starts with its beginning. *)
Lemma startswith_app_l (p1 p2 s : string) :
  startswith (p1 +:+ p2) s = true -> startswith p1 s = true.
Proof.
  unfold startswith. revert s.
  induction p1 as [|a p1 IH]; intros s; [intros _; by destruct s|].
  rewrite str_app_cons. destruct s as [|b s]; simpl; [done|].
  destruct (Ascii.ascii_dec a b); [apply IH|done].
Qed.

(** The body between two fence lines comes out as it is. *)
Lemma unwrap_body (body : string) :
  lstrip body = body -> rstrip body = body ->
  strip (str_take (String.length ((nl +:+ body +:+ nl) +:+ "```") - 3)
                  ((nl +:+ body +:+ nl) +:+ "```")) = body.
Proof.
  intros Hl Hr. rewrite str_length_app.
  replace (String.length (nl +:+ body +:+ nl) + String.length "```" - 3)%nat
    with (String.length (nl +:+ body +:+ nl)) by (simpl; lia).
  rewrite str_take_app. unfold strip.
  change (nl +:+ body +:+ nl) with (String (ascii_of_nat 10) (body +:+ nl)).
  change (lstrip (String (ascii_of_nat 10) (body +:+ nl))) with (lstrip (body +:+ nl)).
  destruct (decide (body = "")) as [->|Hne]; [reflexivity|].
  rewrite lstrip_app_kept by assumption.
  unfold nl. by rewrite rstrip_app_space.
Qed.

(** X14. A body without outer whitespace, put between a line with the
    fence (tagged [json] or not) and a line with the closing fence, is what
    [strip_fences] returns; a body that neither starts nor ends with a
    fence is returned as it is. *)
Theorem strip_fences_unwraps (body : string) :
  lstrip body = body -> rstrip body = body ->
  strip_fences ("```json" +:+ nl +:+ body +:+ nl +:+ "```") = body ∧
  strip_fences ("```" +:+ nl +:+ body +:+ nl +:+ "```") = body ∧
  (startswith "```" body = false -> endswith "```" body = false ->
   strip_fences body = body).
Proof.
  intros Hl Hr.
  assert (Hstrip : forall head : string,
             head ≠ "" -> lstrip head = head ->
             strip (head +:+ nl +:+ body +:+ nl +:+ "```")
             = head +:+ nl +:+ body +:+ nl +:+ "```").
  { intros head Hne Hhead. unfold strip.
    rewrite lstrip_app_kept by assumption.
    rewrite <- !str_app_assoc. by apply rstrip_app_kept. }
  split; [|split].
  - unfold strip_fences. rewrite (Hstrip "```json") by done.
    change (startswith "```json" ("```json" +:+ nl +:+ body +:+ nl +:+ "```")) with true.
    cbv iota.
    change (str_drop 7 ("```json" +:+ nl +:+ body +:+ nl +:+ "```"))
      with (nl +:+ body +:+ nl +:+ "```").
    change (startswith "```" (nl +:+ body +:+ nl +:+ "```")) with false.
    cbv iota.
    replace (nl +:+ body +:+ nl +:+ "```") with ((nl +:+ body +:+ nl) +:+ "```")
      by (by rewrite !str_app_assoc).
    rewrite endswith_app. by apply unwrap_body.
  - unfold strip_fences. rewrite (Hstrip "```") by done.
    change (startswith "```json" ("```" +:+ nl +:+ body +:+ nl +:+ "```")) with false.
    cbv iota.
    change (startswith "```" ("```" +:+ nl +:+ body +:+ nl +:+ "```")) with true.
    cbv iota.
    change (str_drop 3 ("```" +:+ nl +:+ body +:+ nl +:+ "```"))
      with (nl +:+ body +:+ nl +:+ "```").
    replace (nl +:+ body +:+ nl +:+ "```") with ((nl +:+ body +:+ nl) +:+ "```")
      by (by rewrite !str_app_assoc).
    rewrite endswith_app. by apply unwrap_body.
  - intros Hstart Hend. unfold strip_fences, strip. rewrite Hl, Hr.
    assert (Hjson : startswith "```json" body = false).
    { destruct (startswith "```json" body) eqn:Htag; [|reflexivity].
      apply (startswith_app_l "```" "json") in Htag. congruence. }
    by rewrite Hjson, Hstart, Hend, Hl, Hr.
Qed.

Lemma strip_fences_unwraps_witness :
  strip_fences ("```json" +:+ nl +:+ "[1, 2]" +:+ nl +:+ "```") = "[1, 2]".
Proof.
  exact (proj1 (strip_fences_unwraps "[1, 2]" eq_refl eq_refl)).
Defined.

(** ** Suggestions *)

(** X15. [generate_chat_suggestions] never raises and never touches the
    collection. It asks for one completion; when the completion has a text
    that decodes, without its fences, to an array, it returns the first
    three items of the array at most; when the text decodes to a string, it
    returns the first three characters of the string; in every other case
    (failure of the endpoint, no content, text that cannot be decoded,
    another value) it prints the failure and returns the three fixed
    suggestions. *)
Theorem suggestions_never_fail (topic : string) (env : Env) (w : World) :
  let w1 := after_completion w in
  let run := generate_chat_suggestions topic env w in
  let fallback lines cause :=
    (printing w1 (lines ++ [print_exc "⚠️ Suggestion generation failed: " cause]),
     Ok fallback_suggestions) in
  match completions_create env (completions_made w) (suggestions_request env topic) with
  | Raise e =>
      run = fallback [print_exc "❌ LLM Error: " e]
              (Exception_of "Failed to get LLM response: " e)
  | Ok None => run = fallback [] AttributeError
  | Ok (Some text) =>
      match json_loads env (strip_fences text) with
      | None => run = fallback [] JSONDecodeError
      | Some (JList l) => run = (w1, Ok (JList (take 3 l)))
      | Some (JStr s) => run = (w1, Ok (JStr (str_take 3 s)))
      | Some (JDict _) => exists cause, run = fallback [] cause
      | Some _ => run = fallback [] TypeError
      end
  end.
Proof.
  intros w1 run fallback. subst run fallback. cbv beta.
  unfold generate_chat_suggestions, try_except, mbind, M_bind.
  rewrite chat_completion_run.
  change (ChatRequest.mk (model_or_default env None) _ _ 200)
    with (suggestions_request env topic).
  fold w1.
  destruct (completions_create env (completions_made w) _) as [[text|]|e].
  - unfold ask, lift, raise.
    destruct (json_loads env (strip_fences text)) as [[|?|?|?|?|?|?]|];
      try reflexivity.
    by exists TypeError.
  - reflexivity.
  - unfold print, mret, M_ret, printing.
    cbn [test_sessions stdout clock_reads uuids_drawn completions_made].
    by rewrite <- app_assoc.
Qed.

(** ** The routes of the tests *)

(** X16. The route [submit_test] never raises. It answers 400 with the
    detail "Test not found: " followed by the id for an id that is not
    stored, 400 "Test already submitted" for a completed session, 400 "Test
    has expired" for an expired one, all three without any effect, and 200
    with the result for a session in progress. *)
Theorem submit_route_answers (submission : TestSubmission.t) (env : Env) (w : World) :
  let id := TestSubmission.test_id submission in
  match find_one id (test_sessions w) with
  | None =>
      test_routes.submit_test submission env w
      = (w, Ok (HTTPException 400 (detail_text ("Test not found: " +:+ id))))
  | Some s =>
      TestSessionDB.valid s = true ->
      match TestSessionDB.status s with
      | COMPLETED =>
          test_routes.submit_test submission env w
          = (w, Ok (HTTPException 400 (detail_text "Test already submitted")))
      | EXPIRED =>
          test_routes.submit_test submission env w
          = (w, Ok (HTTPException 400 (detail_text "Test has expired")))
      | IN_PROGRESS =>
          test_routes.submit_test submission env w
          = (world_after_submit env w submission s,
             Ok (Respond 200 (result_of env w submission s)))
      end
  end.
Proof.
  intros id. unfold test_routes.submit_test, try_except, mbind, M_bind.
  destruct (find_one id (test_sessions w)) as [s|] eqn:Hfind.
  - intros Hvalid.
    rewrite (submit_test_run env w submission s Hfind Hvalid), submit_loaded_run.
    by destruct (TestSessionDB.status s).
  - destruct (unknown_id_submit submission env w Hfind) as [-> _]. reflexivity.
Qed.

Lemma submit_route_answers_witness :
  let submission := TestSubmission.mk "test_0001" [AnswerSubmission.mk "q_1" "B"] in
  test_routes.submit_test submission (env_answering (Ok None))
    (world_with [sample_session COMPLETED])
  = (world_with [sample_session COMPLETED],
     Ok (HTTPException 400 (detail_text "Test already submitted"))).
Proof.
  intros submission.
  exact (submit_route_answers submission (env_answering (Ok None))
           (world_with [sample_session COMPLETED]) eq_refl).
Defined.

(** X17. The route [get_test] never raises and changes nothing. It
    answers 404 "Test not found: " followed by the id for an id that is not
    stored, 200 with an empty list of questions for a stored session that
    has no question, and 500 for every stored session that has a question:
    the public copy of the first question is refused by its model. *)
Theorem get_test_route_answers (test_id : string) (env : Env) (w : World) :
  test_routes.get_test test_id env w =
  (w, Ok match find_one test_id (test_sessions w) with
         | None => HTTPException 404 (detail_text ("Test not found: " +:+ test_id))
         | Some s =>
             if TestSessionDB.valid s then
               match TestSessionDB.questions s with
               | [] =>
                   Respond 200
                     (MCQGenerationResponse.mk (TestSessionDB.test_id s)
                        (TestSessionDB.topic s) [] 0
                        (TestSessionDB.time_limit_minutes s)
                        (TestSessionDB.created_at s))
               | _ :: _ =>
                   HTTPException 500
                     (detail_exc "Failed to retrieve test: " (ValidationError "MCQuestion"))
               end
             else
               HTTPException 500
                 (detail_exc "Failed to retrieve test: " (ValidationError "TestSessionDB"))
         end).
Proof.
  unfold test_routes.get_test, try_except, get_test_details, mbind, M_bind.
  rewrite get_test_session_run.
  destruct (find_one test_id (test_sessions w)) as [s|]; [|reflexivity].
  destruct (TestSessionDB.valid s); [|reflexivity].
  destruct (TestSessionDB.questions s) as [|q qs] eqn:Hqs; [reflexivity|].
  unfold lift. by rewrite prepare_nonempty_raises.
Qed.

(** X18. The route [get_test_result] never raises and changes nothing. It
    answers 200 with the stored result when the session is stored with a
    result, and 404 "Result not found for test: ..." both for an id that is
    not stored and for a session without a result, whatever its status. *)
Theorem result_route_answers (test_id : string) (env : Env) (w : World) :
  test_routes.get_test_result test_id env w =
  (w, Ok match find_one test_id (test_sessions w) with
         | Some s =>
             if TestSessionDB.valid s then
               match TestSessionDB.result s with
               | Some r => Respond 200 r
               | None =>
                   HTTPException 404
                     (detail_text ("Result not found for test: " +:+ test_id
                                   +:+ ". Test may not be submitted yet."))
               end
             else
               HTTPException 500
                 (detail_exc "Failed to retrieve result: " (ValidationError "TestSessionDB"))
         | None =>
             HTTPException 404
               (detail_text ("Result not found for test: " +:+ test_id
                             +:+ ". Test may not be submitted yet."))
         end).
Proof.
  unfold test_routes.get_test_result, try_except, get_test_result, db_get_test_result,
    mbind, M_bind.
  rewrite get_test_session_run.
  destruct (find_one test_id (test_sessions w)) as [s|]; [|reflexivity].
  destruct (TestSessionDB.valid s); [|reflexivity].
  by destruct (TestSessionDB.result s).
Qed.

(** X19. The route [get_test_status] never raises and changes nothing. It
    answers 404 for an id that is not stored and 500 for a stored session
    that has a question. For a stored session without questions it answers
    with the status "completed" when a result is stored and "in_progress"
    otherwise: the stored status is not read, so an expired session
    without a result is reported as in progress. *)
Theorem status_route_answers (test_id : string) (env : Env) (w : World) :
  test_routes.get_test_status test_id env w =
  (w, Ok match find_one test_id (test_sessions w) with
         | None => HTTPException 404 (detail_text ("Test not found: " +:+ test_id))
         | Some s =>
             if TestSessionDB.valid s then
               match TestSessionDB.questions s with
               | [] =>
                   Respond 200
                     (TestStatusInfo.mk test_id (TestSessionDB.topic s)
                        (match TestSessionDB.result s with
                         | Some _ => "completed"
                         | None => "in_progress"
                         end)
                        0 (TestSessionDB.time_limit_minutes s)
                        (TestSessionDB.created_at s))
               | _ :: _ =>
                   HTTPException 500
                     (detail_exc "Failed to get test status: " (ValidationError "MCQuestion"))
               end
             else
               HTTPException 500
                 (detail_exc "Failed to get test status: " (ValidationError "TestSessionDB"))
         end).
Proof.
  unfold test_routes.get_test_status, try_except, get_test_details, get_test_result,
    db_get_test_result, mbind, M_bind.
  rewrite !get_test_session_run.
  destruct (find_one test_id (test_sessions w)) as [s|] eqn:Hfind; [|reflexivity].
  destruct (TestSessionDB.valid s) eqn:Hvalid; [|reflexivity].
  destruct (TestSessionDB.questions s) as [|q qs] eqn:Hqs.
  - cbn. rewrite get_test_session_run, Hfind, Hvalid. by destruct (TestSessionDB.result s).
  - unfold lift. by rewrite prepare_nonempty_raises.
Qed.

(** X20. The route [generate_test] never raises. A failure of the
    generation is answered with 500 and nothing is stored. When the
    generation returns at least one question, the session is stored with
    those questions and the route still answers 500, since the public copy
    of the questions is refused; it answers 201 only when the generation
    returns no question. *)
Theorem generate_route_answers (request : MCQGenerationRequest.t)
    (env : Env) (w : World) :
  match generate_mcqs (MCQGenerationRequest.topic request) (clamped_count env request)
          (MCQGenerationRequest.difficulty request) env w with
  | (w1, Raise e) =>
      test_routes.generate_test request env w
      = (w1, Ok (HTTPException 500 (detail_of "Failed to generate test: " e))) ∧
      test_sessions w1 = test_sessions w
  | (w1, Ok []) =>
      test_routes.generate_test request env w
      = (tick (world_after_create w1 (test_sessions w1 ++ [generated_session env w1 request []])),
         Ok (Respond 201
               (MCQGenerationResponse.mk
                  (generate_id "test_" (uuid4_at env (uuids_drawn w1)))
                  (MCQGenerationRequest.topic request) [] 0
                  (test_time_limit_minutes (settings env))
                  (utcnow_at env (S (clock_reads w1))))))
  | (w1, Ok (q :: qs)) =>
      test_routes.generate_test request env w
      = (world_after_create w1
           (test_sessions w1 ++ [generated_session env w1 request (q :: qs)]),
         Ok (HTTPException 500
               (detail_exc "Failed to generate test: " (ValidationError "MCQuestion"))))
  end.
Proof.
  destruct (generate_mcqs_world (MCQGenerationRequest.topic request)
              (clamped_count env request) (MCQGenerationRequest.difficulty request)
              env w) as [lines Hworld].
  destruct (generate_mcqs _ _ _ env w) as [w1 [[|q qs]|e]] eqn:Hgen.
  - unfold test_routes.generate_test, try_except, generate_test, mbind, M_bind, ask.
    fold (clamped_count env request). rewrite Hgen. reflexivity.
  - unfold test_routes.generate_test, try_except, generate_test, mbind, M_bind, ask.
    fold (clamped_count env request). rewrite Hgen.
    rewrite create_test_session_run. unfold lift.
    by rewrite prepare_nonempty_raises.
  - simpl in Hworld. subst w1. split; [|reflexivity].
    unfold test_routes.generate_test, try_except, generate_test, mbind, M_bind, ask.
    fold (clamped_count env request). by rewrite Hgen.
Qed.

(** ** The chat sessions *)

Lemma get_chat_session_run (session_id : string) (env : Env) (cw : ChatWorld) :
  get_chat_session session_id env cw
  = (cw, Ok (chat_find_one session_id (chat_sessions cw))).
Proof. reflexivity. Qed.

Lemma get_session_messages_run (session_id : string) (env : Env) (cw : ChatWorld) :
  get_session_messages session_id env cw = (cw, Ok (stored_messages cw session_id)).
Proof.
  unfold get_session_messages, stored_messages, mbind, C_bind.
  rewrite get_chat_session_run.
  by destruct (chat_find_one session_id (chat_sessions cw)).
Qed.

Lemma add_message_to_session_run (session_id : string) (message : ChatMessage.t)
    (env : Env) (cw : ChatWorld) :
  let docs' :=
    chat_update_one session_id
      (push_message message (utcnow_at env (clock_reads (world cw))))
      (chat_sessions cw) in
  add_message_to_session session_id message env cw
  = ({| world := tick (world cw); chat_sessions := docs' |},
     Ok (negb (bool_decide (docs' = chat_sessions cw)))).
Proof. reflexivity. Qed.

Lemma create_chat_session_run (initial_message : option ChatMessage.t)
    (env : Env) (cw : ChatWorld) :
  create_chat_session initial_message env cw
  = ({| world := tick (world_after_create (world cw) (test_sessions (world cw)));
        chat_sessions :=
          chat_sessions cw ++
          [ChatSessionDB.mk
             (generate_id "chat_" (uuid4_at env (uuids_drawn (world cw))))
             (match initial_message with Some m => [m] | None => [] end)
             (utcnow_at env (clock_reads (world cw)))
             (utcnow_at env (S (clock_reads (world cw))))] |},
     Ok (generate_id "chat_" (uuid4_at env (uuids_drawn (world cw))))).
Proof. reflexivity. Qed.

Lemma chat_find_one_app (session_id : string) (docs more : list ChatSessionDB.t) :
  chat_find_one session_id (docs ++ more) =
  match chat_find_one session_id docs with
  | Some d => Some d
  | None => chat_find_one session_id more
  end.
Proof.
  unfold chat_find_one. induction docs as [|d docs IH]; simpl; [reflexivity|].
  by case_bool_decide.
Qed.

Lemma chat_find_one_session_id (session_id : string) (docs : list ChatSessionDB.t)
    (s : ChatSessionDB.t) :
  chat_find_one session_id docs = Some s -> ChatSessionDB.session_id s = session_id.
Proof.
  unfold chat_find_one. intros Hfind. apply find_some in Hfind as [_ Hid].
  by apply bool_decide_eq_true_1 in Hid.
Qed.

Lemma chat_find_one_update_one (session_id : string)
    (update : ChatSessionDB.t -> ChatSessionDB.t) (docs : list ChatSessionDB.t)
    (s : ChatSessionDB.t) :
  chat_find_one session_id docs = Some s ->
  ChatSessionDB.session_id (update s) = session_id ->
  chat_find_one session_id (chat_update_one session_id update docs) = Some (update s).
Proof.
  unfold chat_find_one. intros Hfind Hkept.
  induction docs as [|d docs IH]; simpl in *; [discriminate|].
  case_bool_decide as Hd; simpl.
  - injection Hfind as ->. by rewrite bool_decide_eq_true_2.
  - rewrite bool_decide_eq_false_2 by exact Hd. by apply IH.
Qed.

Lemma chat_find_one_update_one_other (session_id other : string)
    (update : ChatSessionDB.t -> ChatSessionDB.t) (docs : list ChatSessionDB.t) :
  other ≠ session_id ->
  (forall d, ChatSessionDB.session_id (update d) = ChatSessionDB.session_id d) ->
  chat_find_one other (chat_update_one session_id update docs) = chat_find_one other docs.
Proof.
  unfold chat_find_one. intros Hne Hkept.
  induction docs as [|d docs IH]; simpl; [reflexivity|].
  case_bool_decide as Hd; simpl.
  - rewrite Hkept, Hd. by rewrite !bool_decide_eq_false_2 by (intros Heq; by apply Hne).
  - by rewrite IH.
Qed.

Lemma chat_update_one_missing (session_id : string)
    (update : ChatSessionDB.t -> ChatSessionDB.t) (docs : list ChatSessionDB.t) :
  chat_find_one session_id docs = None -> chat_update_one session_id update docs = docs.
Proof.
  unfold chat_find_one. induction docs as [|d docs IH]; simpl; [reflexivity|].
  case_bool_decide; [discriminate|]. intros Hrest. by rewrite IH.
Qed.

Lemma chat_update_one_changes (session_id : string)
    (update : ChatSessionDB.t -> ChatSessionDB.t) (docs : list ChatSessionDB.t)
    (s : ChatSessionDB.t) :
  chat_find_one session_id docs = Some s ->
  update s ≠ s ->
  chat_update_one session_id update docs ≠ docs.
Proof.
  unfold chat_find_one. induction docs as [|d docs IH]; simpl; [discriminate|].
  case_bool_decide.
  - intros [= ->] Hne [= Heq]. by apply Hne.
  - intros Hfind Hne [= Heq]. by apply IH.
Qed.

Lemma push_message_changes (message : ChatMessage.t) (now : datetime)
    (s : ChatSessionDB.t) :
  push_message message now s ≠ s.
Proof.
  intros Heq. apply (f_equal (fun d => length (ChatSessionDB.messages d))) in Heq.
  unfold push_message in Heq. cbn [ChatSessionDB.messages] in Heq.
  rewrite length_app in Heq. simpl in Heq. lia.
Qed.

(** X21. [add_message_to_session] on a stored session returns [True] and
    puts the message after the messages the session held, which are kept
    in their order; [updated_at] becomes the reading of the clock, the id
    and [created_at] are kept, and the other sessions are found as before.
    The tests are not touched. *)
Theorem add_message_appends (session_id : string) (message : ChatMessage.t)
    (env : Env) (cw : ChatWorld) (s : ChatSessionDB.t) :
  chat_find_one session_id (chat_sessions cw) = Some s ->
  exists cw',
    add_message_to_session session_id message env cw = (cw', Ok true) ∧
    get_chat_session session_id env cw'
      = (cw', Ok (Some (ChatSessionDB.mk session_id
                          (ChatSessionDB.messages s ++ [message])
                          (ChatSessionDB.created_at s)
                          (utcnow_at env (clock_reads (world cw)))))) ∧
    get_session_messages session_id env cw'
      = (cw', Ok (ChatSessionDB.messages s ++ [message])) ∧
    world cw' = tick (world cw) ∧
    forall other, other ≠ session_id ->
      chat_find_one other (chat_sessions cw') = chat_find_one other (chat_sessions cw).
Proof.
  intros Hfind. rewrite add_message_to_session_run. cbv zeta. eexists.
  pose proof (chat_find_one_session_id _ _ _ Hfind) as Hid.
  assert (Hfind' :
    chat_find_one session_id
      (chat_update_one session_id
         (push_message message (utcnow_at env (clock_reads (world cw))))
         (chat_sessions cw))
    = Some (ChatSessionDB.mk session_id (ChatSessionDB.messages s ++ [message])
              (ChatSessionDB.created_at s) (utcnow_at env (clock_reads (world cw))))).
  { rewrite (chat_find_one_update_one _ _ _ s Hfind) by exact Hid.
    unfold push_message. by rewrite Hid. }
  split.
  - do 2 f_equal. rewrite bool_decide_eq_false_2; [reflexivity|].
    apply (chat_update_one_changes _ _ _ s Hfind), push_message_changes.
  - split; [by rewrite get_chat_session_run; cbn [chat_sessions]; rewrite Hfind'|].
    split; [rewrite get_session_messages_run; unfold stored_messages;
            cbn [chat_sessions]; by rewrite Hfind'|].
    split; [reflexivity|].
    intros other Hne. cbn [chat_sessions].
    by apply chat_find_one_update_one_other.
Qed.

Lemma add_message_appends_witness :
  let hello := ChatMessage.mk "user" "Hello" 1699999990 in
  let again := ChatMessage.mk "user" "What is osmosis?" 1699999995 in
  exists cw',
    add_message_to_session "chat_1" again (env_answering (Ok None))
      (chats_with [ChatSessionDB.mk "chat_1" [hello] 1699999990 1699999990])
    = (cw', Ok true) ∧
    get_session_messages "chat_1" (env_answering (Ok None)) cw'
    = (cw', Ok [hello; again]).
Proof.
  intros hello again.
  destruct (add_message_appends "chat_1" again (env_answering (Ok None))
              (chats_with [ChatSessionDB.mk "chat_1" [hello] 1699999990 1699999990])
              _ eq_refl) as (cw' & Hadd & _ & Hmessages & _).
  exists cw'. split; [exact Hadd|exact Hmessages].
Defined.

(** X22. An id that the chats do not hold: [get_chat_session] returns
    [None], [get_session_messages] and [get_chat_history] return the empty
    list, and [add_message_to_session] returns [False] and stores nothing:
    the message is dropped, the chats are left as they were. *)
Theorem unknown_chat_session (session_id : string) (message : ChatMessage.t)
    (env : Env) (cw : ChatWorld) :
  chat_find_one session_id (chat_sessions cw) = None ->
  get_chat_session session_id env cw = (cw, Ok None) ∧
  get_session_messages session_id env cw = (cw, Ok []) ∧
  get_chat_history session_id env cw = (cw, Ok []) ∧
  add_message_to_session session_id message env cw
    = ({| world := tick (world cw); chat_sessions := chat_sessions cw |}, Ok false).
Proof.
  intros Hnone.
  assert (Hmessages : get_session_messages session_id env cw = (cw, Ok []))
    by (rewrite get_session_messages_run; unfold stored_messages; by rewrite Hnone).
  split; [by rewrite get_chat_session_run, Hnone|].
  split; [exact Hmessages|]. split; [exact Hmessages|].
  rewrite add_message_to_session_run. cbv zeta.
  rewrite chat_update_one_missing by exact Hnone.
  by rewrite bool_decide_eq_true_2 by reflexivity.
Qed.

Lemma unknown_chat_session_witness :
  add_message_to_session "chat_2" (ChatMessage.mk "user" "Hello" 1699999990)
    (env_answering (Ok None)) (chats_with [ChatSessionDB.mk "chat_1" [] 0 0])
  = ({| world := tick empty_world;
        chat_sessions := [ChatSessionDB.mk "chat_1" [] 0 0] |}, Ok false).
Proof.
  exact (proj2 (proj2 (proj2
    (unknown_chat_session "chat_2" (ChatMessage.mk "user" "Hello" 1699999990)
       (env_answering (Ok None)) (chats_with [ChatSessionDB.mk "chat_1" [] 0 0])
       eq_refl)))).
Defined.

Lemma chat_find_one_created (id other : string) (docs : list ChatSessionDB.t)
    (s : ChatSessionDB.t) :
  ChatSessionDB.session_id s = id ->
  chat_find_one id docs = None ->
  chat_find_one id (docs ++ [s]) = Some s ∧
  (other ≠ id -> chat_find_one other (docs ++ [s]) = chat_find_one other docs).
Proof.
  intros Hid Hfresh. rewrite !chat_find_one_app, Hfresh. unfold chat_find_one at 1 3.
  cbn [List.find]. rewrite Hid. split.
  - by rewrite bool_decide_eq_true_2.
  - intros Hne. rewrite bool_decide_eq_false_2 by (intros Heq; by apply Hne).
    by destruct (chat_find_one other docs).
Qed.

(** X23. A chat session created under an id that the chats do not hold
    yet is read back with the initial message as its only message, or
    without messages when none was given; its two dates are two successive
    readings of the clock; the sessions stored before are found as before
    and the tests are not touched. *)
Theorem create_chat_then_get (initial_message : option ChatMessage.t)
    (env : Env) (cw : ChatWorld) :
  let id := generate_id "chat_" (uuid4_at env (uuids_drawn (world cw))) in
  let messages := match initial_message with Some m => [m] | None => [] end in
  chat_find_one id (chat_sessions cw) = None ->
  exists cw',
    create_chat_session initial_message env cw = (cw', Ok id) ∧
    get_chat_session id env cw'
      = (cw', Ok (Some (ChatSessionDB.mk id messages
                          (utcnow_at env (clock_reads (world cw)))
                          (utcnow_at env (S (clock_reads (world cw))))))) ∧
    get_session_messages id env cw' = (cw', Ok messages) ∧
    test_sessions (world cw') = test_sessions (world cw) ∧
    forall other, other ≠ id ->
      chat_find_one other (chat_sessions cw') = chat_find_one other (chat_sessions cw).
Proof.
  intros id messages Hfresh. rewrite create_chat_session_run. fold id messages.
  eexists. split; [reflexivity|].
  set (s := ChatSessionDB.mk id messages _ _).
  destruct (chat_find_one_created id id (chat_sessions cw) s eq_refl Hfresh) as [Hfind _].
  split; [by rewrite get_chat_session_run; cbn [chat_sessions]; rewrite Hfind|].
  split; [rewrite get_session_messages_run; unfold stored_messages;
          cbn [chat_sessions]; by rewrite Hfind|].
  split; [reflexivity|].
  intros other Hne. cbn [chat_sessions].
  by apply (chat_find_one_created id other (chat_sessions cw) s eq_refl Hfresh).
Qed.

Lemma create_chat_then_get_witness :
  let hello := ChatMessage.mk "user" "Hello" 1699999990 in
  exists cw',
    create_chat_session (Some hello) (env_answering (Ok None)) (chats_with [])
    = (cw', Ok "chat_00000000-0000-4000-8000-100000000000") ∧
    get_session_messages "chat_00000000-0000-4000-8000-100000000000"
      (env_answering (Ok None)) cw' = (cw', Ok [hello]).
Proof.
  intros hello.
  destruct (create_chat_then_get (Some hello) (env_answering (Ok None)) (chats_with [])
              eq_refl) as (cw' & Hcreate & _ & Hmessages & _).
  exists cw'. split; [exact Hcreate|exact Hmessages].
Defined.

(** ** A turn of the chat *)

Lemma generate_chat_suggestions_ok (topic : string) (env : Env) (w : World) :
  exists w' v,
    generate_chat_suggestions topic env w = (w', Ok v) ∧
    test_sessions w' = test_sessions w ∧
    at_most_three v = true.
Proof.
  unfold generate_chat_suggestions, try_except, mbind, M_bind.
  rewrite chat_completion_run.
  destruct (completions_create env (completions_made w) _) as [[text|]|e].
  - unfold ask, lift, raise.
    destruct (json_loads env (strip_fences text)) as [[| | | |s|l|]|];
      try (eexists _, _; split; [reflexivity|by split]).
    + eexists _, _. split; [reflexivity|]. split; [reflexivity|].
      cbn [slice3 at_most_three]. apply Nat.leb_le, str_take_length.
    + eexists _, _. split; [reflexivity|]. split; [reflexivity|].
      cbn [slice3 at_most_three]. apply Nat.leb_le. rewrite length_take. lia.
  - eexists _, _. split; [reflexivity|by split].
  - eexists _, _. split; [reflexivity|by split].
Qed.

Lemma _generate_suggestions_ok (user_message assistant_response : string)
    (env : Env) (w : World) :
  exists w' v,
    _generate_suggestions user_message assistant_response env w = (w', Ok v) ∧
    test_sessions w' = test_sessions w ∧
    at_most_three v = true.
Proof.
  unfold _generate_suggestions. fold (mentions_keyword user_message).
  destruct (mentions_keyword user_message).
  - destruct (generate_chat_suggestions_ok user_message env w) as (w' & v & Hrun & Hw & Hv).
    exists w', v. unfold try_except. by rewrite Hrun.
  - exists w, _default_suggestions. by split.
Qed.

Lemma ChatResponse_new_ok (message session_id : string) (v : json) :
  at_most_three v = true ->
  ChatResponse.new message session_id v = Raise (ValidationError "ChatResponse") ∨
  exists items,
    ChatResponse.new message session_id v
      = Ok (ChatResponse.mk message session_id (Some items)) ∧
    (length items <= 3)%nat.
Proof.
  destruct v as [| | | |s|l|]; try discriminate; intros Hv; [by left|].
  cbn [ChatResponse.new at_most_three] in *.
  destruct (mapM as_str l) as [items|] eqn:Hitems; [|by left].
  right. exists items. split; [reflexivity|].
  apply length_mapM in Hitems. apply Nat.leb_le in Hv. lia.
Qed.

Lemma converse_run (request : schemas.ChatRequest.t) (session_id : string)
    (env : Env) (cw : ChatWorld) (s : ChatSessionDB.t) :
  chat_find_one session_id (chat_sessions cw) = Some s ->
  let n := clock_reads (world cw) in
  let history :=
    ChatSessionDB.messages s ++ [user_message_at request (utcnow_at env n)] in
  exists cw' r,
    converse request session_id env cw = (cw', r) ∧
    test_sessions (world cw') = test_sessions (world cw) ∧
    (forall other, other ≠ session_id ->
       chat_find_one other (chat_sessions cw') = chat_find_one other (chat_sessions cw)) ∧
    turn_outcome env session_id (ChatSessionDB.created_at s) history n
      (completions_create env (completions_made (world cw)) (chat_request env history))
      (chat_find_one session_id (chat_sessions cw')) r.
Proof.
  intros Hfind n history.
  pose proof (chat_find_one_session_id _ _ _ Hfind) as Hid.
  destruct cw as [w chats]. cbn [world chat_sessions] in *.
  set (user := user_message_at request (utcnow_at env n)).
  set (chats1 := chat_update_one session_id
                   (push_message user (utcnow_at env (S n))) chats).
  assert (Hfind1 : chat_find_one session_id chats1
                   = Some (ChatSessionDB.mk session_id history
                             (ChatSessionDB.created_at s) (utcnow_at env (S n)))).
  { unfold chats1. rewrite (chat_find_one_update_one _ _ _ s Hfind) by exact Hid.
    unfold push_message. by rewrite Hid. }
  assert (Hother1 : forall other, other ≠ session_id ->
            chat_find_one other chats1 = chat_find_one other chats)
    by (intros other Hne; by apply chat_find_one_update_one_other).
  unfold converse, mbind, C_bind.
  change (in_world utcnow env {| world := w; chat_sessions := chats |})
    with ({| world := tick w; chat_sessions := chats |}, Ok (utcnow_at env n)).
  cbv beta iota. fold (user_message_at request (utcnow_at env n)). fold user.
  rewrite add_message_to_session_run. cbv zeta beta iota.
  cbn [world chat_sessions tick clock_reads]. fold n. fold chats1.
  rewrite get_session_messages_run. unfold stored_messages at 1.
  cbn [chat_sessions]. rewrite Hfind1. cbn [ChatSessionDB.messages].
  unfold in_world at 1. cbn [world]. rewrite chat_completion_run.
  change (ChatRequest.mk (model_or_default env None) _ _ 1000)
    with (chat_request env history).
  change (completions_made (tick (tick w))) with (completions_made w).
  destruct (completions_create env (completions_made w) (chat_request env history))
    as [[content|]|e]; cbn [turn_outcome].
  - cbn [chat_sessions].
    set (w2 := after_completion (tick (tick w))).
    change (in_world utcnow env {| world := w2; chat_sessions := chats1 |})
      with ({| world := tick w2; chat_sessions := chats1 |}, Ok (utcnow_at env (S (S n)))).
    cbv beta iota.
    change (in_world (lift (ChatMessage.new "assistant" (Some content)
                              (utcnow_at env (S (S n))))) env
              {| world := tick w2; chat_sessions := chats1 |})
      with ({| world := tick w2; chat_sessions := chats1 |},
            Ok (assistant_message_at content (utcnow_at env (S (S n))))).
    cbv beta iota.
    rewrite add_message_to_session_run. cbv zeta beta iota.
    cbn [world chat_sessions].
    change (clock_reads (tick w2)) with (S (S (S n))).
    set (assistant := assistant_message_at content (utcnow_at env (S (S n)))).
    set (chats2 := chat_update_one session_id
                     (push_message assistant (utcnow_at env (S (S (S n))))) chats1).
    assert (Hfind2 : chat_find_one session_id chats2
                     = Some (ChatSessionDB.mk session_id (history ++ [assistant])
                               (ChatSessionDB.created_at s)
                               (utcnow_at env (S (S (S n)))))).
    { unfold chats2. by rewrite (chat_find_one_update_one _ _ _ _ Hfind1). }
    assert (Hother2 : forall other, other ≠ session_id ->
              chat_find_one other chats2 = chat_find_one other chats).
    { intros other Hne. unfold chats2.
      rewrite chat_find_one_update_one_other by done. by apply Hother1. }
    unfold in_world at 1. cbn [world chat_sessions].
    destruct (_generate_suggestions_ok (schemas.ChatRequest.message request)
                (ChatMessage.content assistant) env (tick (tick w2)))
      as (w3 & v & Hrun & Hw3 & Hv).
    rewrite Hrun. unfold in_world, lift. cbn [world chat_sessions].
    eexists _, _. split; [reflexivity|]. cbn [world chat_sessions].
    split; [exact Hw3|]. split; [exact Hother2|]. split; [exact Hfind2|].
    cbn [ChatMessage.content assistant assistant_message_at].
    apply ChatResponse_new_ok, Hv.
  - eexists _, _. split; [reflexivity|]. cbn [world chat_sessions].
    split; [reflexivity|]. split; [exact Hother1|]. by split.
  - eexists _, _. split; [reflexivity|]. cbn [world chat_sessions].
    split; [reflexivity|]. split; [exact Hother1|]. by split.
Qed.

Lemma send_message_run (request : schemas.ChatRequest.t) (env : Env)
    (cw cw' : ChatWorld) (r : result ChatResponse.t) :
  process_chat_message request env cw = (cw', r) ->
  chat_routes.send_message request env cw
  = (cw', Ok match r with
             | Ok response => Respond 200 response
             | Raise e => HTTPException 500 (detail_of "Failed to process message: " e)
             end).
Proof.
  intros Hrun. unfold chat_routes.send_message, try_except_chat, mbind, C_bind.
  rewrite Hrun. by destruct r.
Qed.



(** X25. A message sent without a session id, with an empty one, or with
    an id that is not stored starts a new session: when the id drawn is
    not stored yet, the session is created under it, the turn takes place
    in it, so that it holds the message of the user and, when the endpoint
    answered with a text, the answer, and the response carries the id
    drawn, not the one of the request. The sessions stored before are
    found as before; an id of the request that was not stored is still not
    stored. *)
Theorem chat_turn_new_session (request : schemas.ChatRequest.t)
    (env : Env) (cw : ChatWorld) :
  let id := generate_id "chat_" (uuid4_at env (uuids_drawn (world cw))) in
  match schemas.ChatRequest.session_id request with
  | Some session_id =>
      session_id = "" ∨ chat_find_one session_id (chat_sessions cw) = None
  | None => True
  end ->
  chat_find_one id (chat_sessions cw) = None ->
  let n := S (S (clock_reads (world cw))) in
  let history := [user_message_at request (utcnow_at env n)] in
  exists cw' r,
    process_chat_message request env cw = (cw', r) ∧
    chat_routes.send_message request env cw
    = (cw', Ok match r with
               | Ok response => Respond 200 response
               | Raise e => HTTPException 500 (detail_of "Failed to process message: " e)
               end) ∧
    (forall other, other ≠ id ->
       chat_find_one other (chat_sessions cw') = chat_find_one other (chat_sessions cw)) ∧
    turn_outcome env id (utcnow_at env (clock_reads (world cw))) history n
      (completions_create env (completions_made (world cw)) (chat_request env history))
      (chat_find_one id (chat_sessions cw')) r.
Proof.
  intros id Hrequest Hfresh n history.
  set (s := ChatSessionDB.mk id [] (utcnow_at env (clock_reads (world cw)))
              (utcnow_at env (S (clock_reads (world cw))))).
  set (cw1 := {| world := tick (world_after_create (world cw) (test_sessions (world cw)));
                 chat_sessions := chat_sessions cw ++ [s] |}).
  assert (Hcreate : create_chat_session None env cw = (cw1, Ok id))
    by apply create_chat_session_run.
  destruct (chat_find_one_created id id (chat_sessions cw) s eq_refl Hfresh) as [Hfind1 _].
  destruct (converse_run request id env cw1 s Hfind1)
    as (cw' & r & Hrun & _ & Hother & Houtcome).
  assert (Hprocess : process_chat_message request env cw = (cw', r)).
  { unfold process_chat_message, mbind, C_bind.
    destruct (schemas.ChatRequest.session_id request) as [session_id|] eqn:Hsid.
    - case_bool_decide as Hempty.
      + rewrite Hcreate, get_chat_session_run. cbn [chat_sessions cw1].
        by rewrite Hfind1.
      + destruct Hrequest as [Hrequest|Hrequest]; [done|].
        unfold mret, C_ret. cbv beta iota.
        rewrite get_chat_session_run, Hrequest. by rewrite Hcreate.
    - rewrite Hcreate, get_chat_session_run. cbn [chat_sessions cw1].
      by rewrite Hfind1. }
  exists cw', r. split; [exact Hprocess|].
  split; [by apply send_message_run|]. split.
  - intros other Hne. rewrite (Hother other Hne). cbn [chat_sessions cw1].
    by apply (chat_find_one_created id other (chat_sessions cw) s eq_refl Hfresh).
  - exact Houtcome.
Qed.

Lemma chat_turn_new_session_witness :
  let env := env_answering (Ok (Some "Osmosis moves water across a membrane.")) in
  let request := schemas.ChatRequest.mk "Is osmosis passive?" (Some "chat_9") in
  exists cw' r,
    process_chat_message request env (chats_with [ChatSessionDB.mk "chat_1" [] 0 0])
    = (cw', r) ∧
    chat_find_one "chat_9" (chat_sessions cw') = None ∧
    chat_find_one "chat_00000000-0000-4000-8000-100000000000" (chat_sessions cw')
    = Some (ChatSessionDB.mk "chat_00000000-0000-4000-8000-100000000000"
              [ChatMessage.mk "user" "Is osmosis passive?" 1700000002;
               ChatMessage.mk "assistant" "Osmosis moves water across a membrane."
                 1700000004]
              1700000000 1700000005).
Proof.
  intros env request.
  destruct (chat_turn_new_session request env
              (chats_with [ChatSessionDB.mk "chat_1" [] 0 0])
              (or_intror eq_refl) eq_refl)
    as (cw' & r & Hrun & _ & Hother & Houtcome).
  exists cw', r. split; [exact Hrun|]. split.
  - by rewrite (Hother "chat_9" ltac:(discriminate)).
  - exact (proj1 Houtcome).
Defined.

(** X26. A session created by the route [create_chat_session] under an
    id that is not stored yet is stored, without messages; until it holds
    a message, the route [check_session_exists] reports it as not
    existing, with a count of 0, and the route [get_chat_history] answers
    404 "Session not found: " followed by its id. Once a message is
    stored, the two routes report the session and its message. *)
Theorem created_session_reported_missing (message : ChatMessage.t)
    (env : Env) (cw : ChatWorld) :
  let id := generate_id "chat_" (uuid4_at env (uuids_drawn (world cw))) in
  chat_find_one id (chat_sessions cw) = None ->
  exists cw' cw'',
    chat_routes.create_chat_session env cw
      = (cw', Ok (Respond 201 (SessionCreated.mk id "New chat session created"))) ∧
    chat_find_one id (chat_sessions cw')
      = Some (ChatSessionDB.mk id [] (utcnow_at env (clock_reads (world cw)))
                (utcnow_at env (S (clock_reads (world cw))))) ∧
    chat_routes.check_session_exists id env cw'
      = (cw', Ok (Respond 200 (SessionExists.mk id false 0))) ∧
    chat_routes.get_chat_history id env cw'
      = (cw', Ok (HTTPException 404 (detail_text ("Session not found: " +:+ id)))) ∧
    add_message_to_session id message env cw' = (cw'', Ok true) ∧
    chat_routes.check_session_exists id env cw''
      = (cw'', Ok (Respond 200 (SessionExists.mk id true 1))) ∧
    chat_routes.get_chat_history id env cw''
      = (cw'', Ok (Respond 200 [message])).
Proof.
  intros id Hfresh.
  set (s := ChatSessionDB.mk id [] (utcnow_at env (clock_reads (world cw)))
              (utcnow_at env (S (clock_reads (world cw))))).
  set (cw1 := {| world := tick (world_after_create (world cw) (test_sessions (world cw)));
                 chat_sessions := chat_sessions cw ++ [s] |}).
  destruct (chat_find_one_created id id (chat_sessions cw) s eq_refl Hfresh) as [Hfind1 _].
  set (s2 := push_message message (utcnow_at env (clock_reads (world cw1))) s).
  set (cw2 := {| world := tick (world cw1);
                 chat_sessions := chat_update_one id
                   (push_message message (utcnow_at env (clock_reads (world cw1))))
                   (chat_sessions cw1) |}).
  assert (Hfind2 : chat_find_one id (chat_sessions cw2) = Some s2)
    by (by apply chat_find_one_update_one).
  assert (Hmessages1 : stored_messages cw1 id = [])
    by (unfold stored_messages; cbn [chat_sessions cw1]; by rewrite Hfind1).
  assert (Hmessages2 : stored_messages cw2 id = [message])
    by (unfold stored_messages; by rewrite Hfind2).
  exists cw1, cw2.
  split; [reflexivity|]. split; [exact Hfind1|].
  split; [unfold chat_routes.check_session_exists, try_except_chat, get_chat_history,
            mbind, C_bind; by rewrite get_session_messages_run, Hmessages1|].
  split; [unfold chat_routes.get_chat_history, try_except_chat, get_chat_history,
            mbind, C_bind; by rewrite get_session_messages_run, Hmessages1|].
  split.
  { rewrite add_message_to_session_run. cbv zeta. fold cw2. do 2 f_equal.
    rewrite bool_decide_eq_false_2; [reflexivity|].
    apply (chat_update_one_changes _ _ _ s Hfind1), push_message_changes. }
  split; [unfold chat_routes.check_session_exists, try_except_chat, get_chat_history,
            mbind, C_bind; by rewrite get_session_messages_run, Hmessages2|].
  unfold chat_routes.get_chat_history, try_except_chat, get_chat_history, mbind, C_bind.
  by rewrite get_session_messages_run, Hmessages2.
Qed.

Lemma created_session_reported_missing_witness :
  exists cw',
    chat_routes.create_chat_session (env_answering (Ok None)) (chats_with [])
    = (cw', Ok (Respond 201
                  (SessionCreated.mk "chat_00000000-0000-4000-8000-100000000000"
                     "New chat session created"))) ∧
    chat_routes.check_session_exists "chat_00000000-0000-4000-8000-100000000000"
      (env_answering (Ok None)) cw'
    = (cw', Ok (Respond 200
                  (SessionExists.mk "chat_00000000-0000-4000-8000-100000000000" false 0))).
Proof.
  destruct (created_session_reported_missing (ChatMessage.mk "user" "Hello" 0)
              (env_answering (Ok None)) (chats_with []) eq_refl)
    as (cw' & cw'' & Hcreate & _ & Hexists & _).
  exists cw'. split; [exact Hcreate|exact Hexists].
Defined.

(** ** The suggestions of the controller *)

Lemma lower_app (a b : string) : lower (a +:+ b) = lower a +:+ lower b.
Proof.
  induction a as [|c a IH]; [by rewrite !str_app_nil|].
  rewrite str_app_cons. cbn [lower]. by rewrite str_app_cons, IH.
Qed.

Lemma prefix_app (a b : string) : String.prefix a (a +:+ b) = true.
Proof.
  induction a as [|c a IH]; [by rewrite str_app_nil; destruct b|].
  rewrite str_app_cons. cbn [String.prefix].
  destruct (ascii_dec c c); [exact IH|done].
Qed.

Lemma str_contains_app (needle before after : string) :
  str_contains needle (before +:+ needle +:+ after) = true.
Proof.
  induction before as [|c before IH].
  - rewrite str_app_nil. destruct (needle +:+ after) eqn:Happ;
      cbn [str_contains]; rewrite <- Happ, prefix_app; reflexivity.
  - rewrite str_app_cons. cbn [str_contains]. rewrite IH. apply orb_true_r.
Qed.

(** X27. [_generate_suggestions] never raises. A message in which one of
    the keywords occurs, in any case and at any place, gets the
    suggestions of [generate_chat_suggestions] for that message; a message
    without any keyword gets the three default suggestions, and the
    endpoint is not asked. The response of the assistant is not read. *)
Theorem suggestions_by_keyword (user_message assistant_response : string)
    (env : Env) (w : World) :
  ((exists before word after,
      user_message = before +:+ word +:+ after ∧ lower word ∈ suggestion_keywords) ->
   _generate_suggestions user_message assistant_response env w
   = generate_chat_suggestions user_message env w) ∧
  (mentions_keyword user_message = false ->
   _generate_suggestions user_message assistant_response env w
   = (w, Ok _default_suggestions)) ∧
  exists w' v,
    _generate_suggestions user_message assistant_response env w = (w', Ok v) ∧
    test_sessions w' = test_sessions w ∧
    at_most_three v = true.
Proof.
  split; [|split].
  - intros (before & word & after & -> & Hword).
    assert (Hmentions : mentions_keyword (before +:+ word +:+ after) = true).
    { unfold mentions_keyword. apply existsb_exists. exists (lower word).
      split; [by apply list_elem_of_In|].
      rewrite !lower_app. apply str_contains_app. }
    unfold _generate_suggestions. fold (mentions_keyword (before +:+ word +:+ after)).
    rewrite Hmentions.
    destruct (generate_chat_suggestions_ok (before +:+ word +:+ after) env w)
      as (w' & v & Hrun & _).
    unfold try_except. by rewrite Hrun.
  - intros Hnone. unfold _generate_suggestions.
    fold (mentions_keyword user_message). by rewrite Hnone.
  - apply _generate_suggestions_ok.
Qed.

Lemma suggestions_by_keyword_witness :
  _generate_suggestions "Please EXPLAIN osmosis" "" (env_answering (Ok None)) empty_world
  = generate_chat_suggestions "Please EXPLAIN osmosis" (env_answering (Ok None)) empty_world.
Proof.
  apply (suggestions_by_keyword "Please EXPLAIN osmosis" "" (env_answering (Ok None))
           empty_world).
  exists "Please ", "EXPLAIN", " osmosis". split; [reflexivity|].
  apply list_elem_of_In. vm_compute. tauto.
Defined.
